(** * Crop-yield prediction service: the post-processing engine of [app.py]

    This development embeds the deterministic part of [app.py] that sits
    between the three pre-trained predictors and the JSON response:
    [to_float], [adjust_to_valid_crop], [check_crop_failure],
    [apply_yield_correction], [apply_expense_correction], [CROP_FACTOR],
    [suggest_best_crops] and the request handler [api_predict_all].

    Modelling conventions.
    - A Python [float] is an exact rational ([Q]) in the engine: it covers
      finite values and performs arithmetic without rounding. The module
      [Fl] further down adds NaN, the infinities and rounding, and embeds
      again the arithmetic that depends on them.
    - A Python [str] is a [string] of ASCII characters.
    - The request payload is a [dict] from keys to JSON values: a
      [gmap string pyval].
    - Exceptions are values of [exn] carried by the [result] monad; the
      handler's [try]/[except] turns any of them into a 500 response.
    - The predictors, the label encoder, the catalogue [ALL_CROPS] and the
      builtin [float] on strings are parameters of the development; a
      predictor returns a value or raises.
    - The handler is modelled on a payload that is a JSON object;
      [api_predict_all_payload] covers the other payloads. *)

From Stdlib Require Import QArith Qminmax Qround Qpower Lqa Ascii String.
From stdpp Require Import gmap strings list sorting.

Open Scope Q_scope.

(** ** Python values and exceptions *)

(** The values a decoded JSON payload can hold. *)
#[warnings="-register-all"] Inductive pyval : Type :=
| PNone
| PBool (b : bool)
| PInt (z : Z)
| PFloat (q : Q)
| PStr (s : string)
| PList (l : list pyval)
| PDict (kvs : list (string * pyval)).

(** The exceptions the modelled code can raise. *)
Inductive exn : Type :=
| KeyError (k : string)
| IndexError
| ValueError
| TypeError
| AttributeError.

Inductive result (A : Type) : Type :=
| Ok (a : A)
| Raise (e : exn).
Arguments Ok {A} a.
Arguments Raise {A} e.

#[global] Instance result_ret : MRet result := λ A a, Ok a.
#[global] Instance result_bind : MBind result := λ A B f m,
  match m with
  | Ok a => f a
  | Raise e => Raise e
  end.
#[global] Instance result_fmap : FMap result := λ A B f m,
  match m with
  | Ok a => Ok (f a)
  | Raise e => Raise e
  end.

(** Python's comparison operators on floats. *)
Definition Qltb (x y : Q) : bool := negb (Qle_bool y x).
Definition Qgtb (x y : Q) : bool := Qltb y x.
Infix "<?" := Qltb (at level 70, no associativity) : Q_scope.
Infix ">?" := Qgtb (at level 70, no associativity) : Q_scope.

#[global] Instance Qlt_decision (x y : Q) : Decision (x < y) :=
  match Qlt_le_dec x y with
  | left H => left H
  | right H => right (Qle_not_lt y x H)
  end.

#[global] Instance Qeq_decision (x y : Q) : Decision (x == y) := Qeq_dec x y.

(** [max(a, b)]: the first argument unless the second is strictly larger. *)
Definition py_max (a b : Q) : Q := if a <? b then b else a.

(** Truth value of a Python object, as used by [or]. *)
Definition truthy (v : pyval) : bool :=
  match v with
  | PNone => false
  | PBool b => b
  | PInt z => negb (Z.eqb z 0)
  | PFloat q => negb (Qeq_bool q 0)
  | PStr s => negb (String.eqb s "")
  | PList l => match l with [] => false | _ => true end
  | PDict kvs => match kvs with [] => false | _ => true end
  end.

(** [a or b]. *)
Definition py_or (a b : pyval) : pyval := if truthy a then a else b.

(** [data[k]]: subscripting raises [KeyError] on a missing key. *)
Definition getitem (data : gmap string pyval) (k : string) : result pyval :=
  match data !! k with
  | Some v => Ok v
  | None => Raise (KeyError k)
  end.

(** [data.get(k)]: [None] on a missing key. *)
Definition dict_get (data : gmap string pyval) (k : string) : pyval :=
  default PNone (data !! k).

(** ** Strings *)

(** [str.lower] on ASCII. *)
Definition lower_ascii (c : ascii) : ascii :=
  let n := nat_of_ascii c in
  if ((65 <=? n) && (n <=? 90))%nat then ascii_of_nat (n + 32) else c.

Fixpoint lower (s : string) : string :=
  match s with
  | EmptyString => EmptyString
  | String c s' => String (lower_ascii c) (lower s')
  end.

(** The ASCII characters [str.strip] removes. *)
Definition is_space (c : ascii) : bool :=
  let n := nat_of_ascii c in
  ((9 <=? n) && (n <=? 13) || (28 <=? n) && (n <=? 32))%nat.

Fixpoint lstrip (s : string) : string :=
  match s with
  | EmptyString => EmptyString
  | String c s' => if is_space c then lstrip s' else s
  end.

Fixpoint rstrip (s : string) : string :=
  match s with
  | EmptyString => EmptyString
  | String c s' =>
      match rstrip s' with
      | EmptyString => if is_space c then EmptyString else String c EmptyString
      | t => String c t
      end
  end.

Definition strip (s : string) : string := rstrip (lstrip s).

(** [s[:n]]. *)
Definition str_take (n : nat) (s : string) : string := substring 0 n s.

(** [sub in s] on strings. *)
Fixpoint str_contains (sub s : string) : bool :=
  String.prefix sub s ||
  match s with
  | EmptyString => false
  | String _ s' => str_contains sub s'
  end.

(** [x in l] on a list of strings. *)
Definition list_contains (x : string) (l : list string) : bool :=
  bool_decide (x ∈ l).

(** ** Records of the handler *)

(** The seven-column frame handed to the crop and yield predictors. *)
Record features : Type := {
  f_N : Q; f_P : Q; f_K : Q;
  f_temperature : Q; f_humidity : Q; f_ph : Q; f_rainfall : Q
}.

(** One entry of the suggestion list. *)
Record suggestion : Type := { Crop : string; Yield : Q; Profit : Q }.

(** The JSON body of a successful response. Numbers are kept as numbers:
    the two-decimal formatting of the source is not modelled. *)
Module Response.
Record t : Type := {
  Predicted_Crop : string;
  Predicted_Yield : Q;
  Total_Expense : Q;
  Predicted_Revenue : Q;
  Profit : Q;
  Loss : Q;
  Best_Crops : list suggestion;
  show_suggestions : bool
}.
End Response.

(** What the handler sends back: the JSON body, or status 500 with the
    exception caught at the boundary. *)
Inductive http_response : Type :=
| Json200 (r : Response.t)
| Error500 (e : exn).

(** ** Sorting *)

(** [sorted(l, key=key, reverse=True)]: the stable sort in non-increasing
    key order. Elements with equal keys keep their relative order. *)
Fixpoint insert_desc {A : Type} (key : A → Q) (x : A) (l : list A) : list A :=
  match l with
  | [] => [x]
  | y :: l' => if key x <? key y then y :: insert_desc key x l' else x :: y :: l'
  end.

Definition sorted_desc {A : Type} (key : A → Q) (l : list A) : list A :=
  foldr (insert_desc key) [] l.

(** ** The fixed yield factors *)

Definition CROP_FACTOR : gmap string Q :=
  list_to_map [
    ("rice"%string, 0.78);
    ("wheat"%string, 0.74);
    ("maize"%string, 0.72);
    ("banana"%string, 0.70);
    ("barley"%string, 0.69);
    ("blackgram"%string, 0.68);
    ("brinjal"%string, 0.71);
    ("sesame"%string, 0.67);
    ("chickpea"%string, 0.73);
    ("onion"%string, 0.66);
    ("chilli"%string, 0.65);
    ("cauliflower"%string, 0.70);
    ("pigeonpeas"%string, 0.74);
    ("potato"%string, 0.76);
    ("sorghum"%string, 0.69);
    ("sugarcane"%string, 0.64)
  ].

(** [CROP_FACTOR.get(crop, 0.75)]. *)
Definition crop_factor (crop : string) : Q := default 0.75 (CROP_FACTOR !! crop).

(** Whether an integer rounds beyond the largest float, 2^1024 - 2^971:
    [float] of such an integer raises [OverflowError]. *)
Definition int_overflows (z : Z) : bool := (2 ^ 1024 - 2 ^ 970 <=? Z.abs z)%Z.

(** ** The program *)

Section App.

(** The builtin [float] applied to a [str] that denotes a finite number:
    [None] stands for the [ValueError] raised on text that is not a number.
    The texts that denote NaN or an infinity are read in the module [Fl]. *)
Variable str_to_float : string → option Q.

(** [ALL_CROPS]: the sorted distinct labels of the reference dataset, or the
    empty list when the dataset file is missing at start-up. *)
Variable ALL_CROPS : list string.

(** The pre-trained predictors and the label decoder: [predict] and
    [inverse_transform] return a value or raise, for instance [ValueError]
    on a frame the library refuses. *)
Variable rf_crop : features → result Z.
Variable label_encoder : Z → result string.
Variable rf_yield : features → result Q.
Variable rf_expense : pyval → pyval → pyval → pyval → result Q.

(** The builtin [float(x)]: [None] stands for [TypeError], [ValueError] or
    [OverflowError]. An integer within the range of a float is converted
    without rounding; one that rounds beyond the largest float raises. *)
Definition py_float (x : pyval) : option Q :=
  match x with
  | PNone => None
  | PBool b => Some (if b then 1 else 0)
  | PInt z => if int_overflows z then None else Some (inject_Z z)
  | PFloat q => Some q
  | PStr s => str_to_float s
  | PList _ => None
  | PDict _ => None
  end.

Definition to_float (x : pyval) : Q :=
  match py_float x with
  | Some q => q
  | None => 0.0
  end.

(** The [for] loop of [adjust_to_valid_crop]: the first entry that contains
    the three-character prefix. *)
Fixpoint first_containing (pfx : string) (valid_list : list string) : option string :=
  match valid_list with
  | [] => None
  | v :: rest => if str_contains pfx v then Some v else first_containing pfx rest
  end.

Definition adjust_to_valid_crop (pred_crop : string) (valid_list : list string)
  : result string :=
  let pred_crop := strip (lower pred_crop) in
  if list_contains pred_crop valid_list then Ok pred_crop
  else
    match first_containing (str_take 3 pred_crop) valid_list with
    | Some v => Ok v
    | None =>
        match valid_list with
        | v :: _ => Ok v
        | [] => Raise IndexError
        end
    end.

(** The value of [extreme] when [check_crop_failure] returns. *)
Definition extreme_count (temp ph rain N P K : Q) : nat :=
  let extreme := 0%nat in
  let extreme := if temp >? 45 then S extreme else extreme in
  let extreme := if rain <? 20 then S extreme else extreme in
  let extreme := if ph <? 5 then S extreme else extreme in
  let extreme := if N <? 20 then S extreme else extreme in
  let extreme := if P <? 15 then S extreme else extreme in
  let extreme := if K <? 15 then S extreme else extreme in
  extreme.

Definition check_crop_failure (data : gmap string pyval) : result bool :=
  temp ← to_float <$> getitem data "temperature";
  ph ← to_float <$> getitem data "ph";
  rain ← to_float <$> getitem data "rainfall";
  N ← to_float <$> getitem data "N";
  P ← to_float <$> getitem data "P";
  K ← to_float <$> getitem data "K";
  mret (2 <=? extreme_count temp ph rain N P K)%nat.

(** The value of [corr] when [apply_yield_correction] returns. *)
Definition yield_corr (temp ph rain humidity N P K : Q) : Q :=
  let corr := 1.0 in
  let corr := if temp >? 45 then corr * 0.30
              else if temp >? 38 then corr * 0.55 else corr in
  let corr := if rain <? 20 then corr * 0.40
              else if rain <? 40 then corr * 0.65 else corr in
  let corr := if (ph <? 5) || (ph >? 8) then corr * 0.50 else corr in
  let corr := if N <? 40 then corr * 0.60 else corr in
  let corr := if P <? 30 then corr * 0.70 else corr in
  let corr := if K <? 30 then corr * 0.60 else corr in
  let corr := if humidity >? 85 then corr * 0.80 else corr in
  corr.

Definition apply_yield_correction (raw_yield : Q) (data : gmap string pyval)
  : result Q :=
  temp ← to_float <$> getitem data "temperature";
  ph ← to_float <$> getitem data "ph";
  rain ← to_float <$> getitem data "rainfall";
  humidity ← to_float <$> getitem data "humidity";
  N ← to_float <$> getitem data "N";
  P ← to_float <$> getitem data "P";
  K ← to_float <$> getitem data "K";
  mret (raw_yield * yield_corr temp ph rain humidity N P K).

(** The value of [corr] when [apply_expense_correction] returns. *)
Definition expense_corr (temp rain humidity : Q) : Q :=
  let corr := 1.0 in
  let corr := if temp >? 40 then corr * 1.20 else corr in
  let corr := if rain <? 20 then corr * 1.30 else corr in
  let corr := if humidity >? 90 then corr * 1.15 else corr in
  corr.

Definition apply_expense_correction (expense : Q) (data : gmap string pyval)
  : result Q :=
  temp ← to_float <$> getitem data "temperature";
  rain ← to_float <$> getitem data "rainfall";
  humidity ← to_float <$> getitem data "humidity";
  mret (expense * expense_corr temp rain humidity).

(** [fixed_expense] of the suggestion loop. *)
Definition fixed_expense (data : gmap string pyval) : Q :=
  to_float (dict_get data "fertilizer") * 40 +
  to_float (dict_get data "pesticide") * 120 +
  to_float (dict_get data "seed") +
  to_float (dict_get data "other").

(** The body of the suggestion loop: the entry appended for [crop]. *)
Definition candidate (data : gmap string pyval) (user_price base_yield : Q)
    (crop : string) : suggestion :=
  let factor := crop_factor crop in
  let approx_yield := base_yield * factor in
  let revenue := approx_yield * user_price in
  let profit := revenue - fixed_expense data in
  {| Crop := crop; Yield := approx_yield; Profit := profit |}.

Definition suggest_best_crops (data : gmap string pyval) (user_price base_yield : Q)
  : list suggestion :=
  let suggestions := candidate data user_price base_yield <$> ALL_CROPS in
  let suggestions := sorted_desc Profit suggestions in
  let profitable := filter (λ c, Profit c > 0) suggestions in
  match profitable with
  | [] => []
  | _ => take 3 profitable
  end.

(** One line of the "Normalize input keys" block:
    [to_float(data.get(short) or data.get(verbose))]. *)
Definition cost_value (data : gmap string pyval) (short verbose : string) : Q :=
  to_float (py_or (dict_get data short) (dict_get data verbose)).

(** The "Normalize input keys" block of the handler, followed by the
    "ensure seed exists" fix: four assignments to [data], in order. *)
Definition normalize_costs (data : gmap string pyval) : gmap string pyval :=
  let data := <["fertilizer" :=
    PFloat (cost_value data "fertilizer" "Fertilizer_Usage_kg_per_hectare")]> data in
  let data := <["pesticide" :=
    PFloat (cost_value data "pesticide" "Pesticide_Usage_litre_per_hectare")]> data in
  let data := <["seed" :=
    PFloat (cost_value data "seed" "Seed_Expense_per_hectare(INR)")]> data in
  let data := <["other" :=
    PFloat (cost_value data "other" "Other_Expense(INR)")]> data in
  match data !! "seed" with
  | None => <["seed" := PInt 0]> data
  | Some (PStr "") => <["seed" := PInt 0]> data
  | Some PNone => <["seed" := PInt 0]> data
  | Some _ => data
  end.

(** The frame [X] of the handler. *)
Definition ml_input (data : gmap string pyval) : result features :=
  N ← to_float <$> getitem data "N";
  P ← to_float <$> getitem data "P";
  K ← to_float <$> getitem data "K";
  temperature ← to_float <$> getitem data "temperature";
  humidity ← to_float <$> getitem data "humidity";
  ph ← to_float <$> getitem data "ph";
  rainfall ← to_float <$> getitem data "rainfall";
  mret {| f_N := N; f_P := P; f_K := K; f_temperature := temperature;
          f_humidity := humidity; f_ph := ph; f_rainfall := rainfall |}.

(** [raw_exp]: the expense predictor on the four cost entries of [data]. *)
Definition expense_prediction (data : gmap string pyval) : result Q :=
  fertilizer ← getitem data "fertilizer";
  pesticide ← getitem data "pesticide";
  seed ← getitem data "seed";
  other ← getitem data "other";
  rf_expense fertilizer pesticide seed other.

(** The [try] block of [api_predict_all]. *)
Definition predict_all (data : gmap string pyval) : result Response.t :=
  let data := normalize_costs data in
  X ← ml_input data;
  crop_encoded ← rf_crop X;
  crop_raw ← lower <$> label_encoder crop_encoded;
  failed ← check_crop_failure data;
  crop_final ← (if failed : bool then mret "Crop Failure"%string
                else adjust_to_valid_crop crop_raw ALL_CROPS);
  raw_yield ← rf_yield X;
  failed ← check_crop_failure data;
  predicted_yield ← (if failed : bool then mret 1.0
                     else apply_yield_correction raw_yield data);
  raw_exp ← expense_prediction data;
  predicted_expense ← apply_expense_correction raw_exp data;
  price ← to_float <$> getitem data "market_price";
  let revenue := predicted_yield * price in
  let profit := py_max (revenue - predicted_expense) 0 in
  let loss := py_max (predicted_expense - revenue) 0 in
  let best := if profit >? 0
              then suggest_best_crops data price predicted_yield
              else [] in
  mret {| Response.Predicted_Crop := crop_final;
          Response.Predicted_Yield := predicted_yield;
          Response.Total_Expense := predicted_expense;
          Response.Predicted_Revenue := revenue;
          Response.Profit := profit;
          Response.Loss := loss;
          Response.Best_Crops := best;
          Response.show_suggestions := profit >? 0 |}.

(** The handler: the [try] block, with every exception caught and reported
    as a 500 response. *)
Definition api_predict_all (data : gmap string pyval) : http_response :=
  match predict_all data with
  | Ok r => Json200 r
  | Raise e => Error500 e
  end.


(** The handler on any decoded payload: the first statement of the [try]
    block calls [data.get], which only a dict has. A dict is given by its
    items; of two items with one key the first counts. *)
Definition api_predict_all_payload (payload : pyval) : http_response :=
  match payload with
  | PDict kvs => api_predict_all (list_to_map kvs)
  | _ => Error500 AttributeError
  end.

(** ** Reference notions used in the statements *)

(** The six conditions of the failure detector, decided on a frame, in the
    order the specification lists them. *)
Definition extreme_conditions (X : features) : list bool :=
  [ bool_decide (45 < f_temperature X);
    bool_decide (f_rainfall X < 20);
    bool_decide (f_ph X < 5);
    bool_decide (f_N X < 20);
    bool_decide (f_P X < 15);
    bool_decide (f_K X < 15) ].

(** How many conditions of a list hold. *)
Definition count_holding (conds : list bool) : nat :=
  length (List.filter id conds).

(** The short and the verbose spelling of each cost field. *)
Definition cost_keys : list (string * string) :=
  [ ("fertilizer", "Fertilizer_Usage_kg_per_hectare");
    ("pesticide", "Pesticide_Usage_litre_per_hectare");
    ("seed", "Seed_Expense_per_hectare(INR)");
    ("other", "Other_Expense(INR)") ]%string.

(** The seven keys of the feature record. *)
Definition feature_keys : list string :=
  ["N"; "P"; "K"; "temperature"; "humidity"; "ph"; "rainfall"]%string.

(** The detector's verdict, the two multipliers and the raw expense, as
    functions of the frame and of the request. *)
Definition frame_failed (X : features) : bool :=
  (2 <=? extreme_count (f_temperature X) (f_ph X) (f_rainfall X)
                       (f_N X) (f_P X) (f_K X))%nat.

Definition frame_yield_corr (X : features) : Q :=
  yield_corr (f_temperature X) (f_ph X) (f_rainfall X) (f_humidity X)
             (f_N X) (f_P X) (f_K X).

Definition frame_expense_corr (X : features) : Q :=
  expense_corr (f_temperature X) (f_rainfall X) (f_humidity X).

Definition request_raw_expense (data : gmap string pyval) : result Q :=
  rf_expense
    (PFloat (cost_value data "fertilizer" "Fertilizer_Usage_kg_per_hectare"))
    (PFloat (cost_value data "pesticide" "Pesticide_Usage_litre_per_hectare"))
    (PFloat (cost_value data "seed" "Seed_Expense_per_hectare(INR)"))
    (PFloat (cost_value data "other" "Other_Expense(INR)")).

(** The lowercased label of the crop predicted for a frame. *)
Definition crop_label (X : features) : result string :=
  crop_encoded ← rf_crop X;
  lower <$> label_encoder crop_encoded.

(** The request has a frame and every predictor returns a value on it. *)
Definition predictors_return (data : gmap string pyval) : Prop :=
  ∃ X crop_raw raw_yield raw_exp,
    ml_input data = Ok X ∧
    crop_label X = Ok crop_raw ∧
    rf_yield X = Ok raw_yield ∧
    request_raw_expense data = Ok raw_exp.

(** The response the handler assembles once the frame [X], the price, the
    final crop label and the two raw predictions are known. *)
Definition response_for (data : gmap string pyval) (X : features) (price : Q)
    (crop_final : string) (raw_yield raw_exp : Q) : Response.t :=
  let predicted_yield :=
    if frame_failed X then 1.0 else raw_yield * frame_yield_corr X in
  let predicted_expense := raw_exp * frame_expense_corr X in
  let revenue := predicted_yield * price in
  let profit := py_max (revenue - predicted_expense) 0 in
  let loss := py_max (predicted_expense - revenue) 0 in
  {| Response.Predicted_Crop := crop_final;
     Response.Predicted_Yield := predicted_yield;
     Response.Total_Expense := predicted_expense;
     Response.Predicted_Revenue := revenue;
     Response.Profit := profit;
     Response.Loss := loss;
     Response.Best_Crops :=
       if profit >? 0
       then suggest_best_crops (normalize_costs data) price predicted_yield
       else [];
     Response.show_suggestions := profit >? 0 |}.

(** ** Comparison and dictionary lemmas *)

Lemma Qltb_lt (x y : Q) : (x <? y) = true ↔ x < y.
Proof.
  unfold Qltb. rewrite negb_true_iff, <- not_true_iff_false, Qle_bool_iff.
  split; [apply Qnot_le_lt | apply Qlt_not_le].
Qed.

Lemma Qltb_ge (x y : Q) : (x <? y) = false ↔ y <= x.
Proof.
  unfold Qltb. rewrite negb_false_iff. apply Qle_bool_iff.
Qed.

Lemma Qgtb_gt (x y : Q) : (x >? y) = true ↔ y < x.
Proof. apply Qltb_lt. Qed.

Lemma Qgtb_le (x y : Q) : (x >? y) = false ↔ x <= y.
Proof. apply Qltb_ge. Qed.

Lemma bool_decide_Qlt (x y : Q) : bool_decide (x < y) = (x <? y).
Proof.
  destruct (x <? y) eqn:E.
  - apply bool_decide_eq_true. by apply Qltb_lt.
  - apply bool_decide_eq_false. apply Qle_not_lt. by apply Qltb_ge.
Qed.

(** Case analysis on a comparison, leaving the order fact in the context. *)
Ltac case_Qltb x y :=
  let E := fresh "E" in
  destruct (x <? y) eqn:E;
  [apply Qltb_lt in E | apply Qltb_ge in E].

Lemma py_max_spec (a b : Q) :
  (a < b ∧ py_max a b = b) ∨ (b <= a ∧ py_max a b = a).
Proof.
  unfold py_max. case_Qltb a b; [left | right]; done.
Qed.

Lemma getitem_Some (data : gmap string pyval) k v :
  data !! k = Some v → getitem data k = Ok v.
Proof. unfold getitem. by intros ->. Qed.

Lemma getitem_None (data : gmap string pyval) k :
  data !! k = None → getitem data k = Raise (KeyError k).
Proof. unfold getitem. by intros ->. Qed.

Lemma getitem_Ok_inv (data : gmap string pyval) k v :
  getitem data k = Ok v → data !! k = Some v.
Proof. unfold getitem. destruct (data !! k); congruence. Qed.

Lemma bind_Ok_inv {A B} (m : result A) (f : A → result B) b :
  m ≫= f = Ok b → ∃ a, m = Ok a ∧ f a = Ok b.
Proof. destruct m as [a|e]; [eauto | discriminate]. Qed.

Lemma fmap_Ok_inv {A B} (g : A → B) (m : result A) b :
  g <$> m = Ok b → ∃ a, m = Ok a ∧ b = g a.
Proof. destruct m as [a|e]; cbn; [intros [= <-]; eauto | discriminate]. Qed.

(** ** Properties of the engine *)

(** *** The frame and the readers of the feature keys *)

(** One line [x = to_float(data[k])] of the source, when it succeeds and
    when it raises. *)
Lemma read_Ok_inv {B} data k (f : Q → result B) b :
  (to_float <$> getitem data k) ≫= f = Ok b →
  ∃ v, data !! k = Some v ∧ f (to_float v) = Ok b.
Proof.
  unfold getitem. destruct (data !! k) as [v|]; [eauto | discriminate].
Qed.

Lemma read_Some {B} data k v (f : Q → result B) :
  data !! k = Some v →
  (to_float <$> getitem data k) ≫= f = f (to_float v).
Proof. unfold getitem. by intros ->. Qed.

Lemma read_None {B} data k (f : Q → result B) :
  data !! k = None →
  (to_float <$> getitem data k) ≫= f = Raise (KeyError k).
Proof. unfold getitem. by intros ->. Qed.

Lemma ml_input_inv data X :
  ml_input data = Ok X →
  ∃ vN vP vK vt vh vph vr,
    data !! "N" = Some vN ∧ data !! "P" = Some vP ∧ data !! "K" = Some vK ∧
    data !! "temperature" = Some vt ∧ data !! "humidity" = Some vh ∧
    data !! "ph" = Some vph ∧ data !! "rainfall" = Some vr ∧
    X = {| f_N := to_float vN; f_P := to_float vP; f_K := to_float vK;
           f_temperature := to_float vt; f_humidity := to_float vh;
           f_ph := to_float vph; f_rainfall := to_float vr |}.
Proof.
  unfold ml_input. intros H.
  apply read_Ok_inv in H as (vN & HN & H). apply read_Ok_inv in H as (vP & HP & H).
  apply read_Ok_inv in H as (vK & HK & H). apply read_Ok_inv in H as (vt & Ht & H).
  apply read_Ok_inv in H as (vh & Hh & H). apply read_Ok_inv in H as (vph & Hph & H).
  apply read_Ok_inv in H as (vr & Hr & H).
  injection H as <-. eauto 20.
Qed.

Lemma check_crop_failure_frame data X :
  ml_input data = Ok X →
  check_crop_failure data = Ok (frame_failed X).
Proof.
  intros (vN & vP & vK & vt & vh & vph & vr & HN & HP & HK & Ht & Hh & Hph & Hr & ->)
    %ml_input_inv.
  unfold check_crop_failure.
  by rewrite (read_Some _ _ _ _ Ht), (read_Some _ _ _ _ Hph), (read_Some _ _ _ _ Hr),
    (read_Some _ _ _ _ HN), (read_Some _ _ _ _ HP), (read_Some _ _ _ _ HK).
Qed.

(** *** The failure detector *)

(** C1. On every feature record the failure detector answers, and its
    answer is true exactly when at least two of the six conditions
    temperature > 45, rainfall < 20, pH < 5, N < 20, P < 15, K < 15 hold;
    when none or exactly one holds the answer is false. *)
Theorem check_crop_failure_two_extremes data X :
  ml_input data = Ok X →
  ∃ b, check_crop_failure data = Ok b ∧
       (b = true ↔ (2 <= count_holding (extreme_conditions X))%nat) ∧
       (count_holding (extreme_conditions X) = 0%nat ∨
        count_holding (extreme_conditions X) = 1%nat → b = false).
Proof.
  intros HX. rewrite (check_crop_failure_frame _ _ HX).
  eexists; split; [reflexivity|].
  unfold frame_failed, extreme_conditions, extreme_count, count_holding, Qgtb.
  rewrite !bool_decide_Qlt.
  destruct (45 <? f_temperature X), (f_rainfall X <? 20), (f_ph X <? 5),
    (f_N X <? 20), (f_P X <? 15), (f_K X <? 15); cbn;
    (split; [split; intros; first [done | lia] | intros [|]; first [done | lia]]).
Qed.

(** *** Normalisation of the cost fields *)

Lemma cost_value_insert_ne data k x short verbose :
  k ≠ short → k ≠ verbose →
  cost_value (<[k := x]> data) short verbose = cost_value data short verbose.
Proof.
  intros Hs Hv. unfold cost_value, dict_get. by rewrite !lookup_insert_ne.
Qed.

Lemma normalize_costs_eq data :
  normalize_costs data =
    <["other" := PFloat (cost_value data "other" "Other_Expense(INR)")]>
    (<["seed" := PFloat (cost_value data "seed" "Seed_Expense_per_hectare(INR)")]>
    (<["pesticide" := PFloat (cost_value data "pesticide" "Pesticide_Usage_litre_per_hectare")]>
    (<["fertilizer" := PFloat (cost_value data "fertilizer" "Fertilizer_Usage_kg_per_hectare")]>
      data))).
Proof.
  unfold normalize_costs. cbv zeta.
  rewrite (lookup_insert_ne _ "other" "seed") by done.
  rewrite (lookup_insert_eq _ "seed").
  by rewrite !cost_value_insert_ne by done.
Qed.

Lemma normalize_costs_lookup_cost data short verbose :
  (short, verbose) ∈ cost_keys →
  normalize_costs data !! short = Some (PFloat (cost_value data short verbose)).
Proof.
  rewrite normalize_costs_eq. unfold cost_keys.
  rewrite !elem_of_cons, elem_of_nil.
  intros [[= -> ->]|[[= -> ->]|[[= -> ->]|[[= -> ->]|[]]]]];
    rewrite !lookup_insert; repeat (case_decide; try done).
Qed.

Lemma normalize_costs_lookup_other data k :
  k ∉ cost_keys.*1 → normalize_costs data !! k = data !! k.
Proof.
  rewrite normalize_costs_eq. cbn. rewrite !not_elem_of_cons.
  intros (? & ? & ? & ? & _). by rewrite !lookup_insert_ne.
Qed.

(** *** The handler, step by step *)

Ltac not_cost_key := cbn; rewrite !not_elem_of_cons, elem_of_nil; naive_solver.
Ltac is_cost_key := unfold cost_keys; rewrite !elem_of_cons; naive_solver.

Lemma ml_input_normalize data :
  ml_input (normalize_costs data) = ml_input data.
Proof.
  unfold ml_input, getitem.
  by rewrite !normalize_costs_lookup_other by not_cost_key.
Qed.

Lemma check_crop_failure_normalize data :
  check_crop_failure (normalize_costs data) = check_crop_failure data.
Proof.
  unfold check_crop_failure, getitem.
  by rewrite !normalize_costs_lookup_other by not_cost_key.
Qed.

Lemma apply_yield_correction_frame data X raw_yield :
  ml_input data = Ok X →
  apply_yield_correction raw_yield data = Ok (raw_yield * frame_yield_corr X).
Proof.
  intros (vN & vP & vK & vt & vh & vph & vr & HN & HP & HK & Ht & Hh & Hph & Hr & ->)
    %ml_input_inv.
  unfold apply_yield_correction.
  by rewrite (read_Some _ _ _ _ Ht), (read_Some _ _ _ _ Hph), (read_Some _ _ _ _ Hr),
    (read_Some _ _ _ _ Hh), (read_Some _ _ _ _ HN), (read_Some _ _ _ _ HP),
    (read_Some _ _ _ _ HK).
Qed.

Lemma apply_expense_correction_frame data X expense :
  ml_input data = Ok X →
  apply_expense_correction expense data = Ok (expense * frame_expense_corr X).
Proof.
  intros (vN & vP & vK & vt & vh & vph & vr & HN & HP & HK & Ht & Hh & Hph & Hr & ->)
    %ml_input_inv.
  unfold apply_expense_correction.
  by rewrite (read_Some _ _ _ _ Ht), (read_Some _ _ _ _ Hr), (read_Some _ _ _ _ Hh).
Qed.

Lemma expense_prediction_normalize data :
  expense_prediction (normalize_costs data) = request_raw_expense data.
Proof.
  unfold expense_prediction, request_raw_expense.
  rewrite (getitem_Some _ _ _ (normalize_costs_lookup_cost data
    "fertilizer" "Fertilizer_Usage_kg_per_hectare" ltac:(is_cost_key))).
  rewrite (getitem_Some _ _ _ (normalize_costs_lookup_cost data
    "pesticide" "Pesticide_Usage_litre_per_hectare" ltac:(is_cost_key))).
  rewrite (getitem_Some _ _ _ (normalize_costs_lookup_cost data
    "seed" "Seed_Expense_per_hectare(INR)" ltac:(is_cost_key))).
  rewrite (getitem_Some _ _ _ (normalize_costs_lookup_cost data
    "other" "Other_Expense(INR)" ltac:(is_cost_key))).
  reflexivity.
Qed.

(** The handler's [try] block on a request whose eight required keys are
    present: the predictors and the crop-name resolution can still raise. *)
Lemma predict_all_run data X vp :
  ml_input data = Ok X →
  data !! "market_price" = Some vp →
  predict_all data =
    (crop_raw ← crop_label X;
     crop_final ← (if frame_failed X then Ok "Crop Failure"%string
                   else adjust_to_valid_crop crop_raw ALL_CROPS);
     raw_yield ← rf_yield X;
     raw_exp ← request_raw_expense data;
     mret (response_for data X (to_float vp) crop_final raw_yield raw_exp)).
Proof.
  intros HX Hp.
  assert (HX' : ml_input (normalize_costs data) = Ok X)
    by (by rewrite ml_input_normalize).
  assert (Hp' : normalize_costs data !! "market_price" = Some vp)
    by (by rewrite normalize_costs_lookup_other by not_cost_key).
  unfold predict_all, response_for, crop_label.
  rewrite HX'. cbn [mbind result_bind].
  destruct (rf_crop X) as [crop_encoded|e]; [|reflexivity]. cbn [mbind result_bind].
  destruct (label_encoder crop_encoded) as [label|e]; [|reflexivity].
  cbn [mbind result_bind fmap result_fmap].
  rewrite check_crop_failure_normalize, (check_crop_failure_frame _ _ HX).
  cbn [mbind result_bind].
  destruct (frame_failed X).
  - cbn [mbind result_bind mret result_ret].
    destruct (rf_yield X) as [raw_yield|e]; [|reflexivity]. cbn [mbind result_bind].
    rewrite expense_prediction_normalize.
    destruct (request_raw_expense data) as [raw_exp|e]; [|reflexivity].
    cbn [mbind result_bind].
    rewrite (apply_expense_correction_frame _ _ _ HX'). cbn [mbind result_bind].
    by rewrite (read_Some _ _ _ _ Hp').
  - destruct (adjust_to_valid_crop _ _) as [crop_final|e]; [|reflexivity].
    cbn [mbind result_bind].
    destruct (rf_yield X) as [raw_yield|e]; [|reflexivity]. cbn [mbind result_bind].
    rewrite (apply_yield_correction_frame _ _ _ HX'). cbn [mbind result_bind].
    rewrite expense_prediction_normalize.
    destruct (request_raw_expense data) as [raw_exp|e]; [|reflexivity].
    cbn [mbind result_bind].
    rewrite (apply_expense_correction_frame _ _ _ HX'). cbn [mbind result_bind].
    by rewrite (read_Some _ _ _ _ Hp').
Qed.

Lemma predict_all_no_frame data e :
  ml_input data = Raise e → predict_all data = Raise e.
Proof.
  intros HX. unfold predict_all. by rewrite ml_input_normalize, HX.
Qed.

Lemma predict_all_no_price data X :
  ml_input data = Ok X →
  data !! "market_price" = None →
  ∃ e, predict_all data = Raise e.
Proof.
  intros HX Hp.
  assert (HX' : ml_input (normalize_costs data) = Ok X)
    by (by rewrite ml_input_normalize).
  assert (Hp' : normalize_costs data !! "market_price" = None)
    by (by rewrite normalize_costs_lookup_other by not_cost_key).
  unfold predict_all.
  rewrite HX'. cbn [mbind result_bind].
  destruct (rf_crop X) as [crop_encoded|e]; [|by eexists]. cbn [mbind result_bind].
  destruct (label_encoder crop_encoded) as [label|e]; [|by eexists].
  cbn [mbind result_bind fmap result_fmap].
  rewrite check_crop_failure_normalize, (check_crop_failure_frame _ _ HX).
  cbn [mbind result_bind].
  destruct (frame_failed X).
  - cbn [mbind result_bind mret result_ret].
    destruct (rf_yield X) as [raw_yield|e]; [|by eexists]. cbn [mbind result_bind].
    rewrite expense_prediction_normalize.
    destruct (request_raw_expense data) as [raw_exp|e]; [|by eexists].
    cbn [mbind result_bind].
    rewrite (apply_expense_correction_frame _ _ _ HX'). cbn [mbind result_bind].
    rewrite (read_None _ _ _ Hp'). eauto.
  - destruct (adjust_to_valid_crop _ _) as [crop_final|e]; [|by eexists].
    cbn [mbind result_bind].
    destruct (rf_yield X) as [raw_yield|e]; [|by eexists]. cbn [mbind result_bind].
    rewrite (apply_yield_correction_frame _ _ _ HX'). cbn [mbind result_bind].
    rewrite expense_prediction_normalize.
    destruct (request_raw_expense data) as [raw_exp|e]; [|by eexists].
    cbn [mbind result_bind].
    rewrite (apply_expense_correction_frame _ _ _ HX'). cbn [mbind result_bind].
    rewrite (read_None _ _ _ Hp'). eauto.
Qed.

(** What a successful run of the [try] block tells about the request. *)
Lemma predict_all_inv data r :
  predict_all data = Ok r →
  ∃ X vp crop_raw crop_final raw_yield raw_exp,
    ml_input data = Ok X ∧
    data !! "market_price" = Some vp ∧
    crop_label X = Ok crop_raw ∧
    (if frame_failed X then Ok "Crop Failure"%string
     else adjust_to_valid_crop crop_raw ALL_CROPS)
      = Ok crop_final ∧
    rf_yield X = Ok raw_yield ∧
    request_raw_expense data = Ok raw_exp ∧
    r = response_for data X (to_float vp) crop_final raw_yield raw_exp.
Proof.
  intros H.
  destruct (ml_input data) as [X|e] eqn:HX;
    [|by rewrite (predict_all_no_frame _ _ HX) in H].
  destruct (data !! "market_price") as [vp|] eqn:Hp.
  - rewrite (predict_all_run _ _ _ HX Hp) in H.
    apply bind_Ok_inv in H as (crop_raw & Hl & H).
    apply bind_Ok_inv in H as (crop_final & Hc & H).
    apply bind_Ok_inv in H as (raw_yield & Hy & H).
    apply bind_Ok_inv in H as (raw_exp & He & H).
    injection H as <-. eauto 15.
  - destruct (predict_all_no_price _ _ HX Hp) as [e He]. congruence.
Qed.

Lemma api_predict_all_inv data r :
  api_predict_all data = Json200 r → predict_all data = Ok r.
Proof.
  unfold api_predict_all. destruct (predict_all data); congruence.
Qed.

(** The frame is built exactly when the seven feature keys are present. *)
Lemma ml_input_Ok data :
  Forall (λ k, is_Some (data !! k)) feature_keys → ∃ X, ml_input data = Ok X.
Proof.
  unfold feature_keys. rewrite !Forall_cons.
  intros ([vN HN] & [vP HP] & [vK HK] & [vt Ht] & [vh Hh] & [vph Hph] & [vr Hr] & _).
  unfold ml_input.
  rewrite (read_Some _ _ _ _ HN), (read_Some _ _ _ _ HP), (read_Some _ _ _ _ HK),
    (read_Some _ _ _ _ Ht), (read_Some _ _ _ _ Hh), (read_Some _ _ _ _ Hph),
    (read_Some _ _ _ _ Hr).
  by eexists.
Qed.

Lemma ml_input_missing data k :
  k ∈ feature_keys → data !! k = None → ∃ k', ml_input data = Raise (KeyError k').
Proof.
  intros Hk Hnone. destruct (ml_input data) as [X|e] eqn:HX.
  - apply ml_input_inv in HX
      as (vN & vP & vK & vt & vh & vph & vr & HN & HP & HK & Ht & Hh & Hph & Hr & _).
    unfold feature_keys in Hk. rewrite !elem_of_cons, elem_of_nil in Hk.
    destruct Hk as [->|[->|[->|[->|[->|[->|[->|[]]]]]]]]; congruence.
  - revert HX. unfold ml_input, getitem.
    do 7 (match goal with
          | |- context [data !! ?key] =>
              destruct (data !! key); [cbn|intros [= <-]; by eexists]
          end).
    discriminate.
Qed.

Lemma check_crop_failure_Ok_inv data b :
  check_crop_failure data = Ok b →
  Forall (λ k, is_Some (data !! k)) ["temperature"; "ph"; "rainfall"; "N"; "P"; "K"]%string.
Proof.
  unfold check_crop_failure. intros H.
  apply read_Ok_inv in H as (vt & Ht & H). apply read_Ok_inv in H as (vph & Hph & H).
  apply read_Ok_inv in H as (vr & Hr & H). apply read_Ok_inv in H as (vN & HN & H).
  apply read_Ok_inv in H as (vP & HP & H). apply read_Ok_inv in H as (vK & HK & H).
  repeat constructor; eauto.
Qed.

(** The handler succeeds on every request that has its eight required keys,
    provided the detector fires or the catalogue is not empty. *)
Lemma adjust_to_valid_crop_nonempty pred_crop valid_list :
  valid_list ≠ [] → ∃ v, adjust_to_valid_crop pred_crop valid_list = Ok v.
Proof using Type.
  intros Hne. unfold adjust_to_valid_crop.
  destruct (list_contains _ _); [by eexists|].
  destruct (first_containing _ _); [by eexists|].
  destruct valid_list; [done | by eexists].
Qed.

Lemma predict_all_Ok data X vp crop_raw raw_yield raw_exp :
  ml_input data = Ok X →
  data !! "market_price" = Some vp →
  crop_label X = Ok crop_raw →
  rf_yield X = Ok raw_yield →
  request_raw_expense data = Ok raw_exp →
  frame_failed X = true ∨ ALL_CROPS ≠ [] →
  ∃ crop_final,
    predict_all data
      = Ok (response_for data X (to_float vp) crop_final raw_yield raw_exp).
Proof.
  intros HX Hp Hl Hy He Hcase. rewrite (predict_all_run _ _ _ HX Hp), Hl, Hy, He.
  cbn [mbind result_bind].
  destruct (frame_failed X) eqn:Hf.
  - by eexists.
  - destruct Hcase as [|Hne]; [done|].
    destruct (adjust_to_valid_crop_nonempty crop_raw _ Hne) as [v ->].
    by eexists.
Qed.

(** *** The failure override *)



(** *** Profit and loss *)

(** In the engine, which computes on finite values without rounding, the
    profit of a response is max(revenue - expense, 0) and its loss is
    max(expense - revenue, 0): both are non-negative, one of them is zero,
    and their product is zero. *)
Lemma response_profit_loss_exact data r :
  api_predict_all data = Json200 r →
  let revenue := Response.Predicted_Revenue r in
  let expense := Response.Total_Expense r in
  Response.Profit r = py_max (revenue - expense) 0 ∧
  Response.Loss r = py_max (expense - revenue) 0 ∧
  Response.Profit r == Qmax (revenue - expense) 0 ∧
  Response.Loss r == Qmax (expense - revenue) 0 ∧
  0 <= Response.Profit r ∧
  0 <= Response.Loss r ∧
  (Response.Profit r == 0 ∨ Response.Loss r == 0) ∧
  Response.Profit r * Response.Loss r == 0.
Proof.
  intros (X & vp & crop_raw & crop_final & raw_yield & raw_exp
          & HX & Hp & Hl & Hc & Hy & He & ->)%api_predict_all_inv%predict_all_inv.
  unfold response_for.
  cbn [Response.Profit Response.Loss Response.Predicted_Revenue Response.Total_Expense].
  cbv zeta.
  set (rev := (if frame_failed X then 1.0 else raw_yield * frame_yield_corr X)
              * to_float vp).
  set (exp := raw_exp * frame_expense_corr X).
  destruct (py_max_spec (rev - exp) 0) as [[H1 ->]|[H1 ->]],
    (py_max_spec (exp - rev) 0) as [[H2 ->]|[H2 ->]];
    try (exfalso; lra);
    repeat split;
    first [ reflexivity | lra | nra
          | rewrite Q.max_l by lra; lra
          | rewrite Q.max_r by lra; lra
          | left; lra | right; lra ].
Qed.

(** *** The correction multipliers *)

Lemma scale_range (c f : Q) :
  0 < c ∧ c <= 1 → 0 < f ∧ f <= 1 → 0 < c * f ∧ c * f <= 1.
Proof. intros [??] [??]. split; nra. Qed.

Lemma yield_corr_range temp ph rain humidity N P K :
  0 < yield_corr temp ph rain humidity N P K ∧
  yield_corr temp ph rain humidity N P K <= 1.
Proof.
  unfold yield_corr. cbv zeta.
  assert (H1 : 0 < 1.0 ∧ 1.0 <= 1) by (split; [reflexivity | discriminate]).
  repeat first
    [ exact H1
    | apply scale_range; [| split; [reflexivity | discriminate]]
    | match goal with |- context [if ?b then _ else _] => destruct b end ].
Qed.

Lemma expense_corr_range temp rain humidity :
  1 <= expense_corr temp rain humidity.
Proof.
  unfold expense_corr, Qgtb.
  destruct (40 <? temp), (rain <? 20), (90 <? humidity); vm_compute; discriminate.
Qed.

(** C4, as the code has it. On every feature record the compounded yield
    multiplier lies in (0, 1] and the compounded expense multiplier is at
    least 1; hence for every non-negative raw yield the corrected yield is
    at most the raw yield, and for every non-negative raw expense the
    corrected expense is at least the raw expense. *)
Theorem corrections_bound_nonnegative_raw data X raw_yield raw_exp :
  ml_input data = Ok X →
  ∃ cy ce,
    apply_yield_correction raw_yield data = Ok (raw_yield * cy) ∧
    apply_expense_correction raw_exp data = Ok (raw_exp * ce) ∧
    0 < cy ∧ cy <= 1 ∧ 1 <= ce ∧
    (0 <= raw_yield → raw_yield * cy <= raw_yield) ∧
    (0 <= raw_exp → raw_exp <= raw_exp * ce).
Proof.
  intros HX.
  exists (frame_yield_corr X), (frame_expense_corr X).
  rewrite (apply_yield_correction_frame _ _ _ HX),
    (apply_expense_correction_frame _ _ _ HX).
  pose proof (yield_corr_range (f_temperature X) (f_ph X) (f_rainfall X)
                (f_humidity X) (f_N X) (f_P X) (f_K X)) as [Hy0 Hy1].
  pose proof (expense_corr_range (f_temperature X) (f_rainfall X) (f_humidity X))
    as He.
  fold (frame_yield_corr X) in Hy0, Hy1. fold (frame_expense_corr X) in He.
  repeat split; try done; intros; nra.
Qed.

(** *** Coercion of the request fields *)

Lemma to_float_non_numeric v : py_float v = None → to_float v = 0.0.
Proof. unfold to_float. by intros ->. Qed.

(** C6, as the code has it. [to_float] never raises. A feature field that is
    present is read as [to_float] of its value, which is 0.0 when the value
    is None, a list, a dict or text that is not a number. A feature field
    that is missing makes the subscript raise [KeyError]: the frame is not
    built and the handler answers with the error response. *)
Theorem feature_field_coercion data k :
  k ∈ feature_keys →
  (∀ v, data !! k = Some v →
        to_float <$> getitem data k = Ok (to_float v) ∧
        (py_float v = None → to_float v = 0.0)) ∧
  to_float PNone = 0.0 ∧
  (∀ l, to_float (PList l) = 0.0) ∧
  (∀ kvs, to_float (PDict kvs) = 0.0) ∧
  (∀ s, str_to_float s = None → to_float (PStr s) = 0.0) ∧
  (data !! k = None →
     to_float <$> getitem data k = Raise (KeyError k) ∧
     ∃ k', ml_input data = Raise (KeyError k') ∧
           api_predict_all data = Error500 (KeyError k')).
Proof.
  intros Hk. repeat split.
  - by rewrite (getitem_Some _ _ _ H).
  - apply to_float_non_numeric.
  - intros s Hs. apply to_float_non_numeric. exact Hs.
  - by rewrite (getitem_None _ _ H).
  - destruct (ml_input_missing _ _ Hk H) as [k' Hk'].
    exists k'. split; [done|].
    unfold api_predict_all. by rewrite (predict_all_no_frame _ _ Hk').
Qed.

(** When all seven feature keys are present the frame is built, whatever the
    values are. *)
Lemma ml_input_total_on_present data :
  Forall (λ k, is_Some (data !! k)) feature_keys →
  ∃ X, ml_input data = Ok X ∧
       f_N X = to_float (dict_get data "N") ∧
       f_P X = to_float (dict_get data "P") ∧
       f_K X = to_float (dict_get data "K") ∧
       f_temperature X = to_float (dict_get data "temperature") ∧
       f_humidity X = to_float (dict_get data "humidity") ∧
       f_ph X = to_float (dict_get data "ph") ∧
       f_rainfall X = to_float (dict_get data "rainfall").
Proof.
  intros [X HX]%ml_input_Ok. exists X. split; [done|].
  apply ml_input_inv in HX
    as (vN & vP & vK & vt & vh & vph & vr & HN & HP & HK & Ht & Hh & Hph & Hr & ->).
  unfold dict_get. by rewrite HN, HP, HK, Ht, Hh, Hph, Hr.
Qed.

(** *** Priority between the two spellings of a cost field *)

(** C7, as the code has it. For each cost field the normalised value is
    [to_float] of the short-form value whenever that value is truthy, even
    when the verbose form is present too; the verbose-form value is used
    when the short form is absent or falsy (None, empty text, a numeric
    zero, false, an empty list or dict); and it is 0.0 when both are
    absent. *)
Theorem cost_field_priority data short verbose :
  (short, verbose) ∈ cost_keys →
  ∃ q,
    normalize_costs data !! short = Some (PFloat q) ∧
    (∀ v, data !! short = Some v → truthy v = true → q = to_float v) ∧
    (data !! short = None ∨ (∃ v, data !! short = Some v ∧ truthy v = false) →
       q = to_float (dict_get data verbose)) ∧
    (data !! short = None → data !! verbose = None → q = 0.0).
Proof.
  intros Hk. exists (cost_value data short verbose).
  split; [by apply normalize_costs_lookup_cost|].
  unfold cost_value, py_or, dict_get. repeat split.
  - intros v -> Hv. cbn. by rewrite Hv.
  - intros [->|(v & -> & Hv)]; cbn; [done | by rewrite Hv].
  - by intros -> ->.
Qed.

(** *** The empty catalogue *)

Lemma adjust_to_valid_crop_empty pred_crop :
  adjust_to_valid_crop pred_crop [] = Raise IndexError.
Proof using Type. reflexivity. Qed.

Lemma suggest_best_crops_empty data user_price base_yield :
  ALL_CROPS = [] → suggest_best_crops data user_price base_yield = [].
Proof. unfold suggest_best_crops. by intros ->. Qed.

(** With an empty catalogue a request on which the detector does not fire
    and for which a crop is predicted ends in the error response, although
    every required key is present. *)
Lemma empty_catalog_breaks_resolution data X vp crop_raw :
  ALL_CROPS = [] →
  ml_input data = Ok X →
  data !! "market_price" = Some vp →
  crop_label X = Ok crop_raw →
  frame_failed X = false →
  api_predict_all data = Error500 IndexError.
Proof.
  intros Hempty HX Hp Hl Hf. unfold api_predict_all.
  rewrite (predict_all_run _ _ _ HX Hp), Hl. cbn [mbind result_bind].
  by rewrite Hf, Hempty, adjust_to_valid_crop_empty.
Qed.

(** *** The crop-name resolver *)

Lemma string_prefix_spec sub s :
  String.prefix sub s = true ↔ ∃ post, s = (sub ++ post)%string.
Proof using Type.
  revert s. induction sub as [|c sub IH]; intros [|d s]; cbn.
  - split; [intros _; by exists EmptyString | done].
  - split; [intros _; by exists (String d s) | done].
  - split; [done | intros [post [=]]].
  - destruct (ascii_dec c d) as [->|Hne].
    + rewrite IH. split; intros [post Hpost]; exists post;
        [by rewrite Hpost | by injection Hpost].
    + split; [done | intros [post [= ? ?]]; done].
Qed.

(** [str_contains] is the substring test of [in]. *)
Lemma str_contains_spec sub s :
  str_contains sub s = true ↔ ∃ pre post, s = (pre ++ sub ++ post)%string.
Proof using Type.
  induction s as [|c s IH]; cbn [str_contains]; rewrite orb_true_iff, string_prefix_spec.
  - split.
    + intros [[post Hpost]|[=]]. by exists EmptyString, post.
    + intros (pre & post & Heq). left.
      destruct pre; [by exists post|discriminate].
  - rewrite IH. split.
    + intros [[post Hpost]|(pre & post & ->)].
      * by exists EmptyString, post.
      * by exists (String c pre), post.
    + intros (pre & post & Heq). destruct pre as [|d pre].
      * left. by exists post.
      * right. injection Heq as -> ->. by exists pre, post.
Qed.

Lemma first_containing_Some pfx valid_list v :
  first_containing pfx valid_list = Some v ↔
  ∃ l1 l2, valid_list = l1 ++ v :: l2 ∧ str_contains pfx v = true ∧
           Forall (λ u, str_contains pfx u = false) l1.
Proof using Type.
  induction valid_list as [|u rest IH]; cbn.
  - split; [done | intros ([|??] & ? & ? & _); done].
  - destruct (str_contains pfx u) eqn:Hu.
    + split.
      * intros [= ->]. by exists [], rest.
      * intros ([|w l1] & l2 & Heq & Hv & Hl1).
        -- by injection Heq as ->.
        -- injection Heq as -> ->. apply Forall_cons in Hl1 as [? _]. congruence.
    + rewrite IH. split.
      * intros (l1 & l2 & -> & Hv & Hl1). exists (u :: l1), l2.
        split_and!; [done | done | by constructor].
      * intros ([|w l1] & l2 & Heq & Hv & Hl1).
        -- injection Heq as ->. congruence.
        -- injection Heq as -> ->. apply Forall_cons in Hl1 as [_ ?]. by exists l1, l2.
Qed.

Lemma first_containing_None pfx valid_list :
  first_containing pfx valid_list = None ↔
  Forall (λ u, str_contains pfx u = false) valid_list.
Proof using Type.
  induction valid_list as [|u rest IH]; cbn.
  - split; [constructor | done].
  - rewrite Forall_cons. destruct (str_contains pfx u).
    + split; [done | intros [? _]; done].
    + rewrite IH. split; [intros; by split | intros [_ ?]; done].
Qed.

(** C5. For every input text and every non-empty catalogue the resolver
    returns, and what it returns is a catalogue entry: the lowercased,
    trimmed input when that is an entry; otherwise the first entry, in
    catalogue order, that contains the first three characters of the
    lowercased, trimmed input; otherwise the first entry of the catalogue. *)
Theorem adjust_to_valid_crop_in_catalog pred_crop valid_list :
  valid_list ≠ [] →
  ∃ r,
    adjust_to_valid_crop pred_crop valid_list = Ok r ∧
    r ∈ valid_list ∧
    let p := strip (lower pred_crop) in
    (p ∈ valid_list → r = p) ∧
    (p ∉ valid_list →
     ∀ l1 v l2,
       valid_list = l1 ++ v :: l2 →
       str_contains (str_take 3 p) v = true →
       Forall (λ u, str_contains (str_take 3 p) u = false) l1 →
       r = v) ∧
    (p ∉ valid_list →
     Forall (λ u, str_contains (str_take 3 p) u = false) valid_list →
     valid_list !! 0%nat = Some r).
Proof using Type.
  clear. intros Hne. unfold adjust_to_valid_crop, list_contains. cbv zeta.
  set (p := strip (lower pred_crop)).
  destruct (bool_decide (p ∈ valid_list)) eqn:Hin.
  - apply bool_decide_eq_true in Hin.
    exists p. repeat split; done.
  - apply bool_decide_eq_false in Hin.
    destruct (first_containing (str_take 3 p) valid_list) as [v|] eqn:Hfirst.
    + exists v. pose proof Hfirst as (l1 & l2 & Hl & Hv & Hl1)%first_containing_Some.
      split; [done|]. split; [rewrite Hl; set_solver|].
      split; [done|]. split.
      * intros _ l1' v' l2' Heq Hv' Hl1'.
        assert (first_containing (str_take 3 p) valid_list = Some v') as Hagain.
        { apply first_containing_Some. by exists l1', l2'. }
        congruence.
      * intros _ Hall%first_containing_None. congruence.
    + destruct valid_list as [|v rest]; [done|].
      exists v. split; [done|]. split; [set_solver|].
      split; [done|]. split; [|done].
      intros _ l1' v' l2' Heq Hv' Hl1'.
      assert (first_containing (str_take 3 p) (v :: rest) = Some v') as Hagain.
      { apply first_containing_Some. by exists l1', l2'. }
      congruence.
Qed.

(** *** Sorting by profit *)

Lemma filter_none {A} (l : list A) : filter (λ _, False) l = [].
Proof.
  induction l as [|x l IH]; [done|]. rewrite filter_cons_False; tauto.
Qed.

Lemma filter_split_inv {A} (P : A → Prop) `{!∀ x, Decision (P x)}
    (l m1 : list A) (x : A) (m2 : list A) :
  filter P l = m1 ++ x :: m2 →
  ∃ n1 n2, l = n1 ++ x :: n2 ∧ filter P n1 = m1 ∧ filter P n2 = m2.
Proof.
  revert m1. induction l as [|y l IH]; intros m1 Heq.
  - by destruct m1.
  - rewrite filter_cons in Heq. destruct (decide (P y)) as [Hy|Hy].
    + destruct m1 as [|z m1]; cbn in Heq; injection Heq as -> Heq.
      * by exists [], l.
      * destruct (IH _ Heq) as (n1 & n2 & -> & <- & <-).
        exists (z :: n1), n2. by rewrite filter_cons_True.
    + destruct (IH _ Heq) as (n1 & n2 & -> & <- & <-).
      exists (y :: n1), n2. by rewrite filter_cons_False.
Qed.

Lemma lookup_lt_split {A} (l : list A) (i j : nat) (a b : A) :
  (i < j)%nat → l !! i = Some a → l !! j = Some b →
  ∃ l1 l2 l3, l = l1 ++ a :: l2 ++ b :: l3.
Proof.
  intros Hij Ha Hb.
  exists (take i l), (take (j - S i) (drop (S i) l)),
         (drop (S (j - S i)) (drop (S i) l)).
  rewrite (take_drop_middle (drop (S i) l) (j - S i) b).
  - by rewrite take_drop_middle.
  - rewrite lookup_drop. by replace (S i + (j - S i))%nat with j by lia.
Qed.

Lemma StronglySorted_sublist {A} (R : relation A) (l1 l2 : list A) :
  l1 `sublist_of` l2 → StronglySorted R l2 → StronglySorted R l1.
Proof.
  induction 1 as [|x l1 l2 Hsub IH|x l1 l2 Hsub IH]; intros Hsorted.
  - constructor.
  - apply StronglySorted_inv in Hsorted as [Hs Hall]. constructor; [by apply IH|].
    rewrite Forall_forall in Hall |- *. intros y Hy. apply Hall.
    by eapply elem_of_sublist.
  - apply StronglySorted_inv in Hsorted as [Hs _]. by apply IH.
Qed.

Section Sorting.
Context {A : Type} (key : A → Q).

(** Non-increasing key order. *)
Definition desc_by : relation A := λ a b, key b <= key a.

Lemma insert_desc_perm x l : insert_desc key x l ≡ₚ x :: l.
Proof.
  induction l as [|y l IH]; cbn; [done|].
  destruct (key x <? key y); [|done].
  by rewrite IH, Permutation_swap.
Qed.

Lemma sorted_desc_perm l : sorted_desc key l ≡ₚ l.
Proof.
  induction l as [|x l IH]; cbn; [done|].
  by rewrite insert_desc_perm, IH.
Qed.

Lemma insert_desc_sorted x l :
  StronglySorted desc_by l → StronglySorted desc_by (insert_desc key x l).
Proof.
  induction 1 as [|y l Hsorted IH Hall]; cbn.
  - repeat constructor.
  - case_Qltb (key x) (key y).
    + constructor; [done|].
      rewrite insert_desc_perm. constructor; [|done].
      unfold desc_by. lra.
    + constructor; [by constructor|].
      constructor; [done|].
      eapply Forall_impl; [exact Hall|].
      unfold desc_by. intros z Hz. cbn in Hz. lra.
Qed.

Lemma sorted_desc_sorted l : StronglySorted desc_by (sorted_desc key l).
Proof.
  induction l as [|x l IH]; cbn; [constructor | by apply insert_desc_sorted].
Qed.

(** Stability: the elements of any one key value keep the order they had. *)
Lemma insert_desc_stable q x l :
  filter (λ a, key a == q) (insert_desc key x l)
  = filter (λ a, key a == q) (x :: l).
Proof.
  induction l as [|y l IH]; cbn [insert_desc]; [done|].
  case_Qltb (key x) (key y); [|done].
  rewrite (filter_cons _ y), IH, !filter_cons.
  destruct (decide (key y == q)) as [Hy|Hy], (decide (key x == q)) as [Hx|Hx];
    try done.
  exfalso. rewrite Hx, Hy in E. lra.
Qed.

Lemma sorted_desc_stable q l :
  filter (λ a, key a == q) (sorted_desc key l) = filter (λ a, key a == q) l.
Proof.
  induction l as [|x l IH]; cbn [sorted_desc foldr]; [done|].
  fold (sorted_desc key l). by rewrite insert_desc_stable, !filter_cons, IH.
Qed.

End Sorting.

(** *** The suggestion ranker *)

Lemma suggest_best_crops_eq data user_price base_yield :
  suggest_best_crops data user_price base_yield =
    take 3 (filter (λ c, Profit c > 0)
              (sorted_desc Profit (candidate data user_price base_yield <$> ALL_CROPS))).
Proof.
  unfold suggest_best_crops. cbv zeta. by destruct (filter _ _).
Qed.

Lemma filter_candidates_crops data user_price base_yield q (crops : list string) :
  Crop <$> filter (λ c, Profit c == q) (candidate data user_price base_yield <$> crops)
  = filter (λ crop, Profit (candidate data user_price base_yield crop) == q) crops.
Proof.
  induction crops as [|crop crops IH]; [done|].
  rewrite fmap_cons, !filter_cons.
  destruct (decide (Profit (candidate data user_price base_yield crop) == q));
    by rewrite ?fmap_cons, IH.
Qed.

(** C3. For every cost record, market price and base yield, the list the
    ranker returns is sorted by profit in non-increasing order, has at most
    three entries, holds only candidates of catalogue crops with profit
    strictly above 0, is empty when no candidate is profitable, and keeps
    entries of equal profit in catalogue order: for every profit value, the
    crops returned with that profit are, in order, the first catalogue crops
    whose candidate has that profit. *)
Theorem suggest_best_crops_ranked data user_price base_yield :
  let out := suggest_best_crops data user_price base_yield in
  let candidates := candidate data user_price base_yield <$> ALL_CROPS in
  StronglySorted (desc_by Profit) out ∧
  (length out <= 3)%nat ∧
  Forall (λ c, 0 < Profit c) out ∧
  out `sublist_of` sorted_desc Profit candidates ∧
  Forall (λ c, c ∈ candidates) out ∧
  (Forall (λ c, Profit c <= 0) candidates → out = []) ∧
  (∀ q, filter (λ c, Profit c == q) out
          `prefix_of` filter (λ c, Profit c == q) candidates) ∧
  (∀ q, Crop <$> filter (λ c, Profit c == q) out
          `prefix_of`
        filter (λ crop, Profit (candidate data user_price base_yield crop) == q)
               ALL_CROPS) ∧
  (∀ i j a b,
     (i < j)%nat → out !! i = Some a → out !! j = Some b →
     Profit a == Profit b →
     ∃ l1 l2 l3, ALL_CROPS = l1 ++ Crop a :: l2 ++ Crop b :: l3).
Proof.
  intros out candidates. subst out. rewrite suggest_best_crops_eq.
  fold candidates.
  set (sorted := sorted_desc Profit candidates).
  set (profitable := filter (λ c, Profit c > 0) sorted).
  assert (Hsub : take 3 profitable `sublist_of` sorted).
  { etrans; [apply sublist_take | apply sublist_filter]. }
  assert (Hstable : ∀ q, filter (λ c, Profit c == q) (take 3 profitable)
                           `prefix_of` filter (λ c, Profit c == q) candidates).
  { intros q.
    destruct (prefix_take profitable 3) as [rest Hrest].
    assert (Hpre : filter (λ c, Profit c == q) (take 3 profitable)
                     `prefix_of` filter (λ c, Profit c == q) profitable).
    { exists (filter (λ c, Profit c == q) rest).
      by rewrite <- filter_app, <- Hrest. }
    unfold profitable in Hpre at 2. rewrite list_filter_filter in Hpre.
    destruct (decide (0 < q)) as [Hq|Hq].
    - rewrite (list_filter_iff (λ c, Profit c == q ∧ Profit c > 0)
                (λ c, Profit c == q)) in Hpre.
      + unfold sorted in Hpre. by rewrite sorted_desc_stable in Hpre.
      + intros c. split; [by intros [? _] | intros Hc; split; [done|]].
        rewrite Hc. exact Hq.
    - rewrite (list_filter_iff (λ c, Profit c == q ∧ Profit c > 0)
                (λ _, False)) in Hpre.
      + rewrite filter_none in Hpre. apply prefix_nil_inv in Hpre. rewrite Hpre.
        apply prefix_nil.
      + intros c. split; [|done]. intros [Hc Hpos]. rewrite Hc in Hpos. done. }
  split_and!.
  - eapply StronglySorted_sublist; [exact Hsub | apply sorted_desc_sorted].
  - rewrite length_take. lia.
  - apply Forall_forall. intros c Hc.
    apply (elem_of_sublist _ profitable) in Hc; [|apply sublist_take].
    by apply list_elem_of_filter in Hc as [Hc _].
  - exact Hsub.
  - apply Forall_forall. intros c Hc.
    apply (elem_of_sublist _ _ _ Hc) in Hsub.
    unfold sorted in Hsub. by rewrite sorted_desc_perm in Hsub.
  - intros Hall.
    assert (Hnone : profitable = []).
    { unfold profitable.
      assert (Hall' : Forall (λ c, Profit c <= 0) sorted).
      { unfold sorted. by rewrite sorted_desc_perm. }
      clear -Hall'. induction Hall' as [|c l Hc _ IH]; [done|].
      rewrite filter_cons_False; [done|]. apply Qle_not_lt, Hc. }
    by rewrite Hnone.
  - exact Hstable.
  - intros q. rewrite <- filter_candidates_crops.
    destruct (Hstable q) as [rest Hrest]. fold candidates. rewrite Hrest.
    rewrite fmap_app. by eexists.
  - intros i j a b Hij Ha Hb Hab.
    destruct (lookup_lt_split _ _ _ _ _ Hij Ha Hb) as (o1 & o2 & o3 & Hout).
    destruct (Hstable (Profit b)) as [rest Hrest].
    rewrite Hout in Hrest.
    rewrite filter_app, filter_cons_True, filter_app, filter_cons_True in Hrest
      by done.
    apply (f_equal (fmap Crop)) in Hrest.
    unfold candidates in Hrest. rewrite filter_candidates_crops in Hrest.
    rewrite !fmap_app, !fmap_cons, !fmap_app, !fmap_cons, <- !app_assoc in Hrest.
    cbn [app] in Hrest.
    apply filter_split_inv in Hrest as (n1 & n2 & Hall & _ & Hn2).
    rewrite <- app_assoc in Hn2. cbn [app] in Hn2.
    apply filter_split_inv in Hn2 as (n21 & n22 & Hn2 & _ & _).
    exists n1, n21, n22. by rewrite Hall, Hn2.
Qed.

(** *** Profit order and yield factors *)

(** Without rounding, each candidate's profit is its yield factor times
    base_yield * market_price minus the common fixed expense, so whenever
    base_yield * market_price > 0 the order of two candidates' profits is
    the order of their yield factors. *)
Lemma profit_order_exact data user_price base_yield crop1 crop2 :
  0 < base_yield * user_price →
  let c1 := candidate data user_price base_yield crop1 in
  let c2 := candidate data user_price base_yield crop2 in
  Profit c1 == crop_factor crop1 * (base_yield * user_price) - fixed_expense data ∧
  Profit c2 == crop_factor crop2 * (base_yield * user_price) - fixed_expense data ∧
  (Profit c1 < Profit c2 ↔ crop_factor crop1 < crop_factor crop2) ∧
  (Profit c1 <= Profit c2 ↔ crop_factor crop1 <= crop_factor crop2) ∧
  (Profit c1 == Profit c2 ↔ crop_factor crop1 == crop_factor crop2) ∧
  (CROP_FACTOR !! crop1 = None → crop_factor crop1 = 0.75).
Proof.
  intros Hpos c1 c2. subst c1 c2. unfold candidate. cbn [Profit].
  set (f1 := crop_factor crop1). set (f2 := crop_factor crop2).
  set (e := fixed_expense data).
  assert (H1 : base_yield * f1 * user_price - e == f1 * (base_yield * user_price) - e)
    by ring.
  assert (H2 : base_yield * f2 * user_price - e == f2 * (base_yield * user_price) - e)
    by ring.
  rewrite H1, H2. set (m := base_yield * user_price) in *.
  split_and!; try reflexivity.
  - split; intros; nra.
  - split; intros; nra.
  - split; intros; nra.
  - unfold f1, crop_factor. by intros ->.
Qed.

(** ** Further properties of the engine *)

(** *** When the handler answers and how it fails *)

(** Membership of a given key in a list of keys written out. *)
Ltac in_list :=
  cbn; repeat first [apply list_elem_of_here | apply list_elem_of_further].

Lemma adjust_to_valid_crop_elem_of pred_crop valid_list r :
  adjust_to_valid_crop pred_crop valid_list = Ok r → r ∈ valid_list.
Proof using Type.
  clear. unfold adjust_to_valid_crop, list_contains.
  destruct (bool_decide _) eqn:Hin.
  - apply bool_decide_eq_true in Hin. by intros [= <-].
  - destruct (first_containing _ _) as [v|] eqn:Hfirst.
    + intros [= <-].
      apply first_containing_Some in Hfirst as (l1 & l2 & -> & _).
      rewrite elem_of_app, elem_of_cons. auto.
    + destruct valid_list as [|v rest]; [done|].
      intros [= <-]. apply list_elem_of_here.
Qed.

Lemma adjust_to_valid_crop_Raise_inv pred_crop valid_list e :
  adjust_to_valid_crop pred_crop valid_list = Raise e →
  e = IndexError ∧ valid_list = [].
Proof using Type.
  clear. unfold adjust_to_valid_crop.
  destruct (list_contains _ _); [done|].
  destruct (first_containing _ _); [done|].
  destruct valid_list; [by intros [= <-] | done].
Qed.

Lemma ml_input_Raise_inv data e :
  ml_input data = Raise e →
  ∃ k, k ∈ feature_keys ∧ data !! k = None ∧ e = KeyError k.
Proof.
  unfold ml_input, getitem, feature_keys.
  do 7 (match goal with
        | |- context [data !! ?key] =>
            destruct (data !! key) eqn:?;
              [cbn | intros [= <-]; exists key; split_and!; [in_list | done | done]]
        end).
  discriminate.
Qed.

Lemma predict_all_no_price_run data X :
  ml_input data = Ok X →
  data !! "market_price" = None →
  predict_all data =
    (crop_raw ← crop_label X;
     crop_final ← (if frame_failed X then Ok "Crop Failure"%string
                   else adjust_to_valid_crop crop_raw ALL_CROPS);
     raw_yield ← rf_yield X;
     raw_exp ← request_raw_expense data;
     Raise (KeyError "market_price")).
Proof.
  intros HX Hp.
  assert (HX' : ml_input (normalize_costs data) = Ok X)
    by (by rewrite ml_input_normalize).
  assert (Hp' : normalize_costs data !! "market_price" = None)
    by (by rewrite normalize_costs_lookup_other by not_cost_key).
  unfold predict_all, crop_label.
  rewrite HX'. cbn [mbind result_bind].
  destruct (rf_crop X) as [crop_encoded|e]; [|reflexivity]. cbn [mbind result_bind].
  destruct (label_encoder crop_encoded) as [label|e]; [|reflexivity].
  cbn [mbind result_bind fmap result_fmap].
  rewrite check_crop_failure_normalize, (check_crop_failure_frame _ _ HX).
  cbn [mbind result_bind].
  destruct (frame_failed X).
  - cbn [mbind result_bind mret result_ret].
    destruct (rf_yield X) as [raw_yield|e]; [|reflexivity]. cbn [mbind result_bind].
    rewrite expense_prediction_normalize.
    destruct (request_raw_expense data) as [raw_exp|e]; [|reflexivity].
    cbn [mbind result_bind].
    rewrite (apply_expense_correction_frame _ _ _ HX'). cbn [mbind result_bind].
    by rewrite (read_None _ _ _ Hp').
  - destruct (adjust_to_valid_crop _ _) as [crop_final|e]; [|reflexivity].
    cbn [mbind result_bind].
    destruct (rf_yield X) as [raw_yield|e]; [|reflexivity]. cbn [mbind result_bind].
    rewrite (apply_yield_correction_frame _ _ _ HX'). cbn [mbind result_bind].
    rewrite expense_prediction_normalize.
    destruct (request_raw_expense data) as [raw_exp|e]; [|reflexivity].
    cbn [mbind result_bind].
    rewrite (apply_expense_correction_frame _ _ _ HX'). cbn [mbind result_bind].
    by rewrite (read_None _ _ _ Hp').
Qed.

(** The keys the handler reads with a subscript. *)
Definition required_keys : list string := feature_keys ++ ["market_price"%string].

(** X1. The handler answers with a prediction exactly when the request
    carries the seven feature keys and the market price, every predictor
    returns a value on it, and either the failure detector fires or the
    catalogue is not empty. *)
Theorem api_predict_all_answers_iff data :
  (∃ r, api_predict_all data = Json200 r) ↔
  Forall (λ k, is_Some (data !! k)) required_keys ∧
  predictors_return data ∧
  (check_crop_failure data = Ok true ∨ ALL_CROPS ≠ []).
Proof.
  unfold required_keys. rewrite Forall_app, Forall_singleton. split.
  - intros [r (X & vp & crop_raw & crop & raw_yield & raw_exp
               & HX & Hp & Hl & Hcrop & Hy & He & _)%api_predict_all_inv%predict_all_inv].
    split_and!.
    + apply ml_input_inv in HX
        as (vN & vP & vK & vt & vh & vph & vr & HN & HP & HK & Ht & Hh & Hph & Hr & _).
      unfold feature_keys. repeat constructor; by eexists.
    + by eexists.
    + by exists X, crop_raw, raw_yield, raw_exp.
    + rewrite (check_crop_failure_frame _ _ HX).
      destruct (frame_failed X); [by left | right].
      intros Hnil. rewrite Hnil in Hcrop. discriminate.
  - intros ([Hkeys [vp Hp]] & (X & crop_raw & raw_yield & raw_exp & HX & Hl & Hy & He)
            & Hcase).
    rewrite (check_crop_failure_frame _ _ HX) in Hcase.
    destruct (predict_all_Ok data X vp crop_raw raw_yield raw_exp HX Hp Hl Hy He)
      as [crop Hrun].
    { destruct Hcase as [[= ->]|?]; auto. }
    eexists. unfold api_predict_all. by rewrite Hrun.
Qed.

(** An exception of the [try] block comes from a predictor of the request's
    frame. *)
Definition predictor_raises (data : gmap string pyval) (e : exn) : Prop :=
  ∃ X, ml_input data = Ok X ∧
       (crop_label X = Raise e ∨ rf_yield X = Raise e ∨
        request_raw_expense data = Raise e).

(** The exceptions the [try] block can raise. *)
Lemma predict_all_Raise_inv data e :
  predict_all data = Raise e →
  (∃ k, k ∈ required_keys ∧ data !! k = None ∧ e = KeyError k) ∨
  (e = IndexError ∧ ALL_CROPS = [] ∧ check_crop_failure data = Ok false) ∨
  predictor_raises data e.
Proof.
  unfold required_keys, predictor_raises. intros Hrun.
  destruct (ml_input data) as [X|e0] eqn:HX.
  - assert (Hsteps :
      (crop_raw ← crop_label X;
       crop_final ← (if frame_failed X then Ok "Crop Failure"%string
                     else adjust_to_valid_crop crop_raw ALL_CROPS);
       raw_yield ← rf_yield X;
       raw_exp ← request_raw_expense data;
       @Ok unit ()) = Raise e ∨
      data !! "market_price" = None ∧ e = KeyError "market_price").
    { destruct (data !! "market_price") as [vp|] eqn:Hp.
      - rewrite (predict_all_run _ _ _ HX Hp) in Hrun. left.
        destruct (crop_label X); cbn [mbind result_bind] in *; [|congruence].
        destruct (if frame_failed X then _ else _);
          cbn [mbind result_bind] in *; [|congruence].
        destruct (rf_yield X); cbn [mbind result_bind] in *; [|congruence].
        destruct (request_raw_expense data);
          cbn [mbind result_bind] in *; [discriminate | congruence].
      - rewrite (predict_all_no_price_run _ _ HX Hp) in Hrun.
        destruct (crop_label X); cbn [mbind result_bind] in *; [|left; congruence].
        destruct (if frame_failed X then _ else _);
          cbn [mbind result_bind] in *; [|left; congruence].
        destruct (rf_yield X); cbn [mbind result_bind] in *; [|left; congruence].
        destruct (request_raw_expense data);
          cbn [mbind result_bind] in *; [|left; congruence].
        right. split; congruence. }
    destruct Hsteps as [Hsteps|[Hp ->]].
    + rewrite (check_crop_failure_frame _ _ HX).
      destruct (crop_label X) as [crop_raw|e0] eqn:Hl;
        [|injection Hsteps as ->; right; right; exists X; auto].
      cbn [mbind result_bind] in Hsteps.
      destruct (frame_failed X).
      * cbn [mbind result_bind] in Hsteps.
        destruct (rf_yield X) as [raw_yield|e0] eqn:Hy;
          [|injection Hsteps as ->; right; right; exists X; auto].
        cbn [mbind result_bind] in Hsteps.
        destruct (request_raw_expense data) as [raw_exp|e0] eqn:He;
          [done | injection Hsteps as ->; right; right; exists X; auto].
      * destruct (adjust_to_valid_crop _ _) as [crop|e0] eqn:Hadj.
        -- cbn [mbind result_bind] in Hsteps.
           destruct (rf_yield X) as [raw_yield|e0] eqn:Hy;
             [|injection Hsteps as ->; right; right; exists X; auto].
           cbn [mbind result_bind] in Hsteps.
           destruct (request_raw_expense data) as [raw_exp|e0] eqn:He;
             [done | injection Hsteps as ->; right; right; exists X; auto].
        -- injection Hsteps as ->.
           apply adjust_to_valid_crop_Raise_inv in Hadj as [-> ->]. right. by left.
    + left. exists "market_price"%string. split_and!; [in_list | done | done].
  - rewrite (predict_all_no_frame _ _ HX) in Hrun. injection Hrun as ->.
    apply ml_input_Raise_inv in HX as (k & Hk & Hnone & ->).
    left. exists k. split_and!; [apply elem_of_app; by left | done | done].
Qed.

Lemma api_predict_all_Error_inv data e :
  api_predict_all data = Error500 e → predict_all data = Raise e.
Proof.
  unfold api_predict_all. destruct (predict_all data); congruence.
Qed.

(** X2. Every error response of the handler to a payload that is a JSON
    object is of one of three kinds: the [KeyError] of a required key that
    the request lacks, the [IndexError] raised by the resolver, which
    occurs only with an empty catalogue and a request on which the detector
    does not fire, or the exception raised by a predictor on the frame of
    the request. A payload that is not an object is answered with the
    [AttributeError] of the first [data.get]. *)
Theorem api_predict_all_error_kinds data e :
  api_predict_all data = Error500 e →
  ((∃ k, k ∈ required_keys ∧ data !! k = None ∧ e = KeyError k) ∨
   (e = IndexError ∧ ALL_CROPS = [] ∧ check_crop_failure data = Ok false) ∨
   predictor_raises data e) ∧
  (∀ payload, (∀ kvs, payload ≠ PDict kvs) →
              api_predict_all_payload payload = Error500 AttributeError).
Proof.
  intros Herr%api_predict_all_Error_inv. split; [by apply predict_all_Raise_inv|].
  intros payload Hno. destruct payload; try reflexivity. by destruct (Hno kvs).
Qed.

(** *** What a response holds *)

(** X3. In every response the predicted crop is either the sentinel, and
    then the detector fired, or a member of the catalogue, and then it did
    not. *)
Theorem predicted_crop_sentinel_or_catalog data r :
  api_predict_all data = Json200 r →
  (check_crop_failure data = Ok true ∧
   Response.Predicted_Crop r = "Crop Failure"%string) ∨
  (check_crop_failure data = Ok false ∧
   Response.Predicted_Crop r ∈ ALL_CROPS).
Proof.
  intros (X & vp & crop_raw & crop & raw_yield & raw_exp
          & HX & Hp & Hl & Hcrop & Hy & He & ->)%api_predict_all_inv%predict_all_inv.
  rewrite (check_crop_failure_frame _ _ HX). unfold response_for.
  cbn [Response.Predicted_Crop].
  destruct (frame_failed X).
  - left. by injection Hcrop as <-.
  - right. split; [done|]. by eapply adjust_to_valid_crop_elem_of.
Qed.

(** In the engine, which computes on finite values without rounding, the
    revenue of a response is the predicted yield times the price read from
    the request, and profit minus loss is revenue minus expense. *)
Lemma response_accounting_exact data r :
  api_predict_all data = Json200 r →
  Response.Predicted_Revenue r
    = Response.Predicted_Yield r * to_float (dict_get data "market_price") ∧
  Response.Profit r - Response.Loss r
    == Response.Predicted_Revenue r - Response.Total_Expense r.
Proof.
  intros (X & vp & crop_raw & crop & raw_yield & raw_exp
          & HX & Hp & Hl & Hcrop & Hy & He & ->)%api_predict_all_inv%predict_all_inv.
  unfold response_for, dict_get. rewrite Hp.
  cbn [Response.Profit Response.Loss Response.Predicted_Revenue
       Response.Total_Expense Response.Predicted_Yield default].
  split; [reflexivity|].
  set (rev := (if frame_failed X then 1.0 else raw_yield * frame_yield_corr X)
              * to_float vp).
  set (exp := raw_exp * frame_expense_corr X).
  destruct (py_max_spec (rev - exp) 0) as [[H1 ->]|[H1 ->]],
    (py_max_spec (exp - rev) 0) as [[H2 ->]|[H2 ->]]; lra.
Qed.

(** X5. Suggestions are made exactly when the response shows a profit: the
    flag is set iff the revenue exceeds the expense; without the flag the
    list is empty; with it the list is the ranker's output for the
    normalised costs, the price and the predicted yield; and a response
    that lists a suggestion reports no loss. *)
Theorem suggestions_only_with_profit data r :
  api_predict_all data = Json200 r →
  (Response.show_suggestions r = true ↔
     Response.Total_Expense r < Response.Predicted_Revenue r) ∧
  (Response.show_suggestions r = true ↔ 0 < Response.Profit r) ∧
  (Response.show_suggestions r = false → Response.Best_Crops r = []) ∧
  (Response.show_suggestions r = true →
     Response.Best_Crops r =
       suggest_best_crops (normalize_costs data)
         (to_float (dict_get data "market_price")) (Response.Predicted_Yield r)) ∧
  (Response.Best_Crops r ≠ [] → Response.Loss r == 0).
Proof.
  intros (X & vp & crop_raw & crop & raw_yield & raw_exp
          & HX & Hp & Hl & Hcrop & Hy & He & ->)%api_predict_all_inv%predict_all_inv.
  unfold response_for, dict_get. rewrite Hp.
  cbn [Response.Profit Response.Loss Response.Predicted_Revenue
       Response.Total_Expense Response.Predicted_Yield Response.Best_Crops
       Response.show_suggestions default].
  set (yield := if frame_failed X then 1.0 else raw_yield * frame_yield_corr X).
  set (rev := yield * to_float vp).
  set (exp := raw_exp * frame_expense_corr X).
  unfold Qgtb. rewrite Qltb_lt.
  destruct (py_max_spec (rev - exp) 0) as [[H1 Hp1]|[H1 Hp1]],
    (py_max_spec (exp - rev) 0) as [[H2 Hp2]|[H2 Hp2]];
    rewrite Hp1, Hp2; try (exfalso; lra).
  - assert (Hno : (0 <? 0) = false) by done. rewrite Hno.
    split_and!; try done; try (split; intros; lra); try (intros; exfalso; lra).
  - destruct (0 <? rev - exp) eqn:Hpos.
    + apply Qltb_lt in Hpos.
      split_and!; try done; try (split; intros; lra); try (intros; exfalso; lra).
    + apply Qltb_ge in Hpos.
      split_and!; try done; try (split; intros; lra); try (intros; exfalso; lra).
  - assert (Hno : (0 <? rev - exp) = false) by (apply Qltb_ge; lra). rewrite Hno.
    split_and!; try done; try (split; intros; lra); try (intros; exfalso; lra).
Qed.

(** *** The ranker returns the best candidates *)


(** *** When the corrections leave a prediction unchanged *)

(** The readings under which the yield correction applies a penalty. *)
Definition yield_stress (X : features) : Prop :=
  38 < f_temperature X ∨ f_rainfall X < 40 ∨ f_ph X < 5 ∨ 8 < f_ph X ∨
  f_N X < 40 ∨ f_P X < 30 ∨ f_K X < 30 ∨ 85 < f_humidity X.

(** The readings under which the expense correction applies a surcharge. *)
Definition expense_stress (X : features) : Prop :=
  40 < f_temperature X ∨ f_rainfall X < 20 ∨ 90 < f_humidity X.

Lemma yield_corr_cases temp ph rain humidity N P K :
  let c := yield_corr temp ph rain humidity N P K in
  let stress := 38 < temp ∨ rain < 40 ∨ ph < 5 ∨ 8 < ph ∨
                N < 40 ∨ P < 30 ∨ K < 30 ∨ 85 < humidity in
  0.012096 <= c ∧ (¬ stress → c == 1) ∧ (stress → c <= 0.80).
Proof.
  unfold yield_corr, Qgtb.
  case_Qltb 45 temp; [|case_Qltb 38 temp];
    (case_Qltb rain 20; [|case_Qltb rain 40]);
    (case_Qltb ph 5; [|case_Qltb 8 ph]);
    case_Qltb N 40; case_Qltb P 30; case_Qltb K 30; case_Qltb 85 humidity;
    cbn [orb]; cbv zeta; lra.
Qed.

Lemma expense_corr_cases temp rain humidity :
  let c := expense_corr temp rain humidity in
  let stress := 40 < temp ∨ rain < 20 ∨ 90 < humidity in
  c <= 1.794 ∧ (¬ stress → c == 1) ∧ (stress → 1.15 <= c).
Proof.
  unfold expense_corr, Qgtb.
  case_Qltb 40 temp; case_Qltb rain 20; case_Qltb 90 humidity; cbv zeta; lra.
Qed.

(** X7. The yield correction multiplies the raw yield by a factor of at
    least 0.012 (with all seven penalties at once the product of the band
    factors is 0.012096 before any rounding, so the bound leaves a margin);
    the factor is 1, so that the raw yield is returned unchanged, exactly
    when no reading is under stress (temperature <= 38, rainfall >= 40,
    5 <= pH <= 8, N >= 40, P >= 30, K >= 30, humidity <= 85), and it is at
    most 0.80 otherwise. *)
Theorem yield_correction_identity_iff data X raw_yield :
  ml_input data = Ok X →
  ∃ c,
    apply_yield_correction raw_yield data = Ok (raw_yield * c) ∧
    0.012 <= c ∧
    (c == 1 ↔ ¬ yield_stress X) ∧
    (yield_stress X → c <= 0.80).
Proof.
  intros HX. exists (frame_yield_corr X).
  rewrite (apply_yield_correction_frame _ _ _ HX).
  destruct (yield_corr_cases (f_temperature X) (f_ph X) (f_rainfall X)
              (f_humidity X) (f_N X) (f_P X) (f_K X)) as (Hlow & Hone & Hcut).
  fold (frame_yield_corr X) in Hlow, Hone, Hcut. fold (yield_stress X) in Hone, Hcut.
  split_and!; [done | lra | | done].
  split; [|done]. intros Heq Hstress. apply Hcut in Hstress. lra.
Qed.

(** X8. The expense correction multiplies the raw expense by a factor of
    at most 1.794 (all three surcharges at once); the factor is 1 exactly
    when temperature <= 40, rainfall >= 20 and humidity <= 90, and it is at
    least 1.15 otherwise. *)
Theorem expense_correction_identity_iff data X raw_exp :
  ml_input data = Ok X →
  ∃ c,
    apply_expense_correction raw_exp data = Ok (raw_exp * c) ∧
    c <= 1.794 ∧
    (c == 1 ↔ ¬ expense_stress X) ∧
    (expense_stress X → 1.15 <= c).
Proof.
  intros HX. exists (frame_expense_corr X).
  rewrite (apply_expense_correction_frame _ _ _ HX).
  destruct (expense_corr_cases (f_temperature X) (f_rainfall X) (f_humidity X))
    as (Hhigh & Hone & Hup).
  fold (frame_expense_corr X) in Hhigh, Hone, Hup.
  fold (expense_stress X) in Hone, Hup.
  split_and!; [done | done | | done].
  split; [|done]. intros Heq Hstress. apply Hup in Hstress. lra.
Qed.

(** *** The yield factors *)

Lemma crop_factor_range crop : 0.64 <= crop_factor crop ∧ crop_factor crop <= 0.78.
Proof using Type.
  clear. unfold crop_factor.
  destruct (CROP_FACTOR !! crop) as [f|] eqn:Hf; cbn [default].
  - unfold CROP_FACTOR in Hf. apply elem_of_list_to_map_2 in Hf.
    rewrite !elem_of_cons, elem_of_nil in Hf.
    repeat (destruct Hf as [[= _ ->]|Hf]; [split; discriminate|]). done.
  - split; discriminate.
Qed.

(** X9. Every yield factor, the default 0.75 included, lies between 0.64
    and 0.78; so for a non-negative base yield every entry the ranker
    returns has an approximate yield between 64% and 78% of the base
    yield. *)
Theorem suggested_yield_share data user_price base_yield :
  0 <= base_yield →
  (∀ crop, 0.64 <= crop_factor crop ∧ crop_factor crop <= 0.78) ∧
  Forall (λ c, 0.64 * base_yield <= Yield c ∧ Yield c <= 0.78 * base_yield)
         (suggest_best_crops data user_price base_yield).
Proof.
  intros Hbase. split; [apply crop_factor_range|].
  rewrite suggest_best_crops_eq. apply Forall_forall. intros c Hc.
  apply elem_of_take in Hc as (i & Hin%list_elem_of_lookup_2 & _).
  apply list_elem_of_filter in Hin as [_ Hin].
  rewrite sorted_desc_perm in Hin.
  apply list_elem_of_fmap in Hin as (crop & -> & _).
  unfold candidate. cbn [Yield].
  destruct (crop_factor_range crop). split; nra.
Qed.

(** *** What normalisation changes *)

(** X10. Normalisation assigns the four cost keys, each from the spellings
    of the original request, and nothing else: the "ensure seed exists"
    guard never fires because the seed entry is a float by then, every
    other key keeps its value, and no key is removed. *)
Theorem normalize_costs_only_sets_costs data :
  normalize_costs data =
    <["other" := PFloat (cost_value data "other" "Other_Expense(INR)")]>
    (<["seed" := PFloat (cost_value data "seed" "Seed_Expense_per_hectare(INR)")]>
    (<["pesticide" := PFloat (cost_value data "pesticide" "Pesticide_Usage_litre_per_hectare")]>
    (<["fertilizer" := PFloat (cost_value data "fertilizer" "Fertilizer_Usage_kg_per_hectare")]>
      data))) ∧
  (∀ k, k ∉ cost_keys.*1 → normalize_costs data !! k = data !! k) ∧
  dom (normalize_costs data)
    = dom data ∪ {[ "fertilizer"; "pesticide"; "seed"; "other" ]}%string.
Proof.
  split_and!.
  - apply normalize_costs_eq.
  - apply normalize_costs_lookup_other.
  - rewrite normalize_costs_eq, !dom_insert_L. apply set_eq. intros k.
    rewrite !elem_of_union, !elem_of_singleton. tauto.
Qed.

(** *** Fixed points of the resolver *)

(** X11. When every catalogue entry is lowercase and trimmed, whatever the
    resolver returns resolves to itself, and every catalogue entry resolves
    to itself. *)
Theorem adjust_to_valid_crop_idempotent pred_crop valid_list r :
  Forall (λ v, strip (lower v) = v) valid_list →
  adjust_to_valid_crop pred_crop valid_list = Ok r →
  adjust_to_valid_crop r valid_list = Ok r ∧
  ∀ v, v ∈ valid_list → adjust_to_valid_crop v valid_list = Ok v.
Proof using Type.
  clear. intros Hnorm Hr.
  assert (Hfix : ∀ v, v ∈ valid_list → adjust_to_valid_crop v valid_list = Ok v).
  { intros v Hv. unfold adjust_to_valid_crop, list_contains.
    rewrite Forall_forall in Hnorm. rewrite (Hnorm v Hv).
    by rewrite bool_decide_eq_true_2. }
  split; [|done]. apply Hfix. by eapply adjust_to_valid_crop_elem_of.
Qed.

Lemma str_contains_empty s : str_contains "" s = true.
Proof using Type. clear. by destruct s. Qed.

(** X12. An input that is blank after trimming resolves to the first
    catalogue entry (unless the empty text is itself an entry): every entry
    contains the empty prefix, so the scan stops at once. *)
Theorem adjust_to_valid_crop_blank pred_crop v rest :
  strip (lower pred_crop) = ""%string →
  ""%string ∉ v :: rest →
  adjust_to_valid_crop pred_crop (v :: rest) = Ok v.
Proof using Type.
  clear. intros Hblank Hnot. unfold adjust_to_valid_crop, list_contains.
  rewrite Hblank, bool_decide_eq_false_2 by done.
  cbn [str_take substring first_containing]. by rewrite str_contains_empty.
Qed.

(** *** The detector is monotone *)

Lemma extreme_count_sum temp ph rain N P K :
  extreme_count temp ph rain N P K =
    (Nat.b2n (temp >? 45)%Q + Nat.b2n (rain <? 20)%Q + Nat.b2n (ph <? 5)%Q +
     Nat.b2n (N <? 20)%Q + Nat.b2n (P <? 15)%Q + Nat.b2n (K <? 15)%Q)%nat.
Proof using Type.
  clear. unfold extreme_count.
  by destruct (temp >? 45), (rain <? 20), (ph <? 5), (N <? 20), (P <? 15), (K <? 15).
Qed.

Lemma Qltb_mono_l x x' y :
  x' <= x → (Nat.b2n (x <? y)%Q <= Nat.b2n (x' <? y)%Q)%nat.
Proof using Type.
  clear. intros Hle. case_Qltb x y; case_Qltb x' y; cbn; try lia. lra.
Qed.

Lemma Qltb_mono_r x y y' :
  y <= y' → (Nat.b2n (x <? y)%Q <= Nat.b2n (x <? y')%Q)%nat.
Proof using Type.
  clear. intros Hle. case_Qltb x y; case_Qltb x y'; cbn; try lia. lra.
Qed.

(** X13. The detector is monotone in the six readings it tests: when it
    fires on a request it also fires on every request whose temperature is
    at least as high and whose rainfall, pH, N, P and K are at most as
    high. *)
Theorem check_crop_failure_monotone data data' X X' :
  ml_input data = Ok X →
  ml_input data' = Ok X' →
  f_temperature X <= f_temperature X' →
  f_rainfall X' <= f_rainfall X →
  f_ph X' <= f_ph X →
  f_N X' <= f_N X →
  f_P X' <= f_P X →
  f_K X' <= f_K X →
  check_crop_failure data = Ok true →
  check_crop_failure data' = Ok true.
Proof.
  intros HX HX' Ht Hr Hph HN HP HK.
  rewrite (check_crop_failure_frame _ _ HX), (check_crop_failure_frame _ _ HX').
  unfold frame_failed. rewrite !extreme_count_sum. unfold Qgtb.
  pose proof (Qltb_mono_r 45 _ _ Ht).
  pose proof (Qltb_mono_l _ _ 20 Hr).
  pose proof (Qltb_mono_l _ _ 5 Hph).
  pose proof (Qltb_mono_l _ _ 20 HN).
  pose proof (Qltb_mono_l _ _ 15 HP).
  pose proof (Qltb_mono_l _ _ 15 HK).
  assert (Hmono : ∀ a b : nat, (a <= b)%nat →
            @Ok bool (2 <=? a)%nat = Ok true → @Ok bool (2 <=? b)%nat = Ok true).
  { intros a b Hab Ha. assert (Hn : (2 <=? a)%nat = true) by congruence.
    apply Nat.leb_le in Hn. f_equal. apply Nat.leb_le. lia. }
  apply Hmono. lia.
Qed.

Lemma response_best_crops_length data r :
  api_predict_all data = Json200 r → (length (Response.Best_Crops r) <= 3)%nat.
Proof.
  intros (X & vp & crop_raw & crop & raw_yield & raw_exp
          & HX & Hp & Hl & Hcrop & Hy & He & ->)%api_predict_all_inv%predict_all_inv.
  unfold response_for. cbn [Response.Best_Crops].
  destruct (_ >? 0); [|cbn; lia].
  rewrite suggest_best_crops_eq, length_take. lia.
Qed.
End App.

(** ** Sample inputs for concrete runs *)

(** A reader of plain decimal numerals (optional sign, digits, at most one
    point, surrounding blanks): on these the builtin [float] parses, on
    anything else this reader reports failure. It stands in for the builtin
    in the concrete runs below. *)
Definition digit_of (c : ascii) : option Z :=
  let n := nat_of_ascii c in
  if ((48 <=? n) && (n <=? 57))%nat then Some (Z.of_nat (n - 48)) else None.

Fixpoint scan_decimal (s : string) (num : Z) (scale : positive)
    (seen_dot seen_digit : bool) : option Q :=
  match s with
  | EmptyString => if seen_digit then Some (num # scale) else None
  | String c s' =>
      if Ascii.eqb c "." then
        if seen_dot then None else scan_decimal s' num scale true seen_digit
      else
        match digit_of c with
        | Some d =>
            scan_decimal s' (10 * num + d)
              (if seen_dot then 10 * scale else scale)%positive seen_dot true
        | None => None
        end
  end.

Definition parse_decimal (s : string) : option Q :=
  match strip s with
  | String "-" s' => Qopp <$> scan_decimal s' 0 1 false false
  | String "+" s' => scan_decimal s' 0 1 false false
  | s' => scan_decimal s' 0 1 false false
  end.

(** Stand-ins for the pre-trained models. *)
Definition sample_rf_crop (X : features) : result Z := Ok 0%Z.
Definition sample_label_encoder (code : Z) : result string := Ok "Rice"%string.
Definition sample_rf_yield (X : features) : result Q := Ok 1000.
Definition sample_rf_expense (fertilizer pesticide seed other : pyval) : result Q :=
  Ok 500.

(** A crop predictor that refuses a frame with a reading too large for a
    single-precision cell, as the library does. *)
Definition strict_rf_crop (X : features) : result Z :=
  if existsb (λ x, Qle_bool (34 * 10 ^ 37) x || Qle_bool x (- (34 * 10 ^ 37)))
       [f_N X; f_P X; f_K X; f_temperature X; f_humidity X; f_ph X; f_rainfall X]
  then Raise ValueError else Ok 0%Z.
Definition sample_crops : list string :=
  ["banana"; "maize"; "mango"; "rice"; "wheat"]%string.

(** A request under benign conditions. *)
Definition sample_request : gmap string pyval :=
  list_to_map [
    ("N"%string, PInt 50); ("P"%string, PInt 50); ("K"%string, PInt 50);
    ("temperature"%string, PFloat 25.0); ("humidity"%string, PInt 50);
    ("ph"%string, PFloat 6.5); ("rainfall"%string, PStr "100");
    ("market_price"%string, PInt 10);
    ("fertilizer"%string, PInt 5); ("pesticide"%string, PInt 1);
    ("seed"%string, PInt 200); ("other"%string, PInt 50)
  ].

(** The failure scenario: five of the six extremes. *)
Definition failure_request : gmap string pyval :=
  list_to_map [
    ("N"%string, PInt 10); ("P"%string, PInt 10); ("K"%string, PInt 10);
    ("temperature"%string, PInt 50); ("humidity"%string, PInt 50);
    ("ph"%string, PInt 4); ("rainfall"%string, PInt 10);
    ("market_price"%string, PInt 10);
    ("fertilizer"%string, PInt 5); ("pesticide"%string, PInt 1);
    ("seed"%string, PInt 200); ("other"%string, PInt 50)
  ].

(** The handler with the stand-ins plugged in, on a catalogue of five crops
    and on the empty catalogue. *)
Definition sample_api : gmap string pyval → http_response :=
  api_predict_all parse_decimal sample_crops
    sample_rf_crop sample_label_encoder sample_rf_yield sample_rf_expense.

Definition no_catalog_api : gmap string pyval → http_response :=
  api_predict_all parse_decimal []
    sample_rf_crop sample_label_encoder sample_rf_yield sample_rf_expense.

(** The frames of the two requests. *)
Definition sample_frame : features :=
  {| f_N := 50; f_P := 50; f_K := 50; f_temperature := 25.0;
     f_humidity := 50; f_ph := 6.5; f_rainfall := 100 |}.

Definition failure_frame : features :=
  {| f_N := 10; f_P := 10; f_K := 10; f_temperature := 50;
     f_humidity := 50; f_ph := 4; f_rainfall := 10 |}.

(** A request that spells the fertilizer usage both ways, the short form
    being the number zero. *)
Definition zero_short_request : gmap string pyval :=
  <["fertilizer" := PInt 0]>
    (<["Fertilizer_Usage_kg_per_hectare" := PInt 50]> sample_request).

(** ** Concrete runs *)

(** The benign request is answered in full; its suggestions are the three
    most profitable catalogue crops. *)
Example sample_request_response :
  sample_api sample_request =
    Json200
      {| Response.Predicted_Crop := "rice";
         Response.Predicted_Yield := 1000 * 1.0;
         Response.Total_Expense := 500 * 1.0;
         Response.Predicted_Revenue := 1000 * 1.0 * 10;
         Response.Profit := 1000 * 1.0 * 10 - 500 * 1.0;
         Response.Loss := 0;
         Response.Best_Crops :=
           [ {| Crop := "rice"; Yield := 1000 * 1.0 * 0.78;
                Profit := 1000 * 1.0 * 0.78 * 10 - (5 * 40 + 1 * 120 + 200 + 50) |};
             {| Crop := "mango"; Yield := 1000 * 1.0 * 0.75;
                Profit := 1000 * 1.0 * 0.75 * 10 - (5 * 40 + 1 * 120 + 200 + 50) |};
             {| Crop := "wheat"; Yield := 1000 * 1.0 * 0.74;
                Profit := 1000 * 1.0 * 0.74 * 10 - (5 * 40 + 1 * 120 + 200 + 50) |} ];
         Response.show_suggestions := true |}.
Proof. vm_compute. reflexivity. Qed.

(** The failure scenario: five extremes, the crop and the yield are the
    sentinels, the expense is 500 * 1.20 * 1.30, no suggestion is made. *)
Example failure_request_response :
  sample_api failure_request =
    Json200
      {| Response.Predicted_Crop := "Crop Failure";
         Response.Predicted_Yield := 1.0;
         Response.Total_Expense := 500 * (1.0 * 1.20 * 1.30);
         Response.Predicted_Revenue := 1.0 * 10;
         Response.Profit := 0;
         Response.Loss := 500 * (1.0 * 1.20 * 1.30) - 1.0 * 10;
         Response.Best_Crops := [];
         Response.show_suggestions := false |}.
Proof. vm_compute. reflexivity. Qed.

(** The two temperature bands of the yield correction exclude each other. *)
Example yield_bands :
  yield_corr 42 6.5 100 50 50 50 50 == 0.55 ∧
  yield_corr 46 6.5 100 50 50 50 50 == 0.30.
Proof. split; reflexivity. Qed.

(** The ranking scenario: price 10, base yield 500, costs 5, 1, 200, 50. *)
Example rice_candidate :
  let c := candidate parse_decimal (normalize_costs parse_decimal sample_request)
             10 500 "rice" in
  Yield c == 390 ∧ Profit c == 3330 ∧
  fixed_expense parse_decimal (normalize_costs parse_decimal sample_request) == 570.
Proof. repeat split; reflexivity. Qed.

(** Ties keep catalogue order: two crops outside the factor table. *)
Example tie_keeps_catalog_order :
  Crop <$> suggest_best_crops parse_decimal ["apple"; "mango"; "zucchini"; "rice"]%string
             (normalize_costs parse_decimal sample_request) 10 500
  = ["rice"; "apple"; "mango"]%string.
Proof. vm_compute. reflexivity. Qed.

Example resolver_runs :
  adjust_to_valid_crop "  Rices " sample_crops = Ok "rice"%string ∧
  adjust_to_valid_crop "MANGO" sample_crops = Ok "mango"%string ∧
  adjust_to_valid_crop "quinoa" sample_crops = Ok "banana"%string ∧
  adjust_to_valid_crop "" sample_crops = Ok "banana"%string.
Proof. repeat split; reflexivity. Qed.

(** ** Instances of the theorems, counterexamples and failing runs *)

(** The detector theorem on the failure scenario. *)
Lemma check_crop_failure_two_extremes_witness :
  ml_input parse_decimal failure_request = Ok failure_frame ∧
  ∃ b, check_crop_failure parse_decimal failure_request = Ok b ∧
       (b = true ↔ (2 <= count_holding (extreme_conditions failure_frame))%nat) ∧
       (count_holding (extreme_conditions failure_frame) = 0%nat ∨
        count_holding (extreme_conditions failure_frame) = 1%nat → b = false).
Proof.
  split; [reflexivity|].
  apply (check_crop_failure_two_extremes parse_decimal failure_request failure_frame).
  reflexivity.
Defined.



(** The bounds on a raw yield of 1000 and a raw expense of 500. *)
Lemma corrections_bound_nonnegative_raw_witness :
  ml_input parse_decimal failure_request = Ok failure_frame ∧
  ∃ cy ce,
    apply_yield_correction parse_decimal 1000 failure_request = Ok (1000 * cy) ∧
    apply_expense_correction parse_decimal 500 failure_request = Ok (500 * ce) ∧
    0 < cy ∧ cy <= 1 ∧ 1 <= ce ∧
    (0 <= 1000 → 1000 * cy <= 1000) ∧
    (0 <= 500 → 500 <= 500 * ce).
Proof.
  split; [reflexivity|].
  apply (corrections_bound_nonnegative_raw parse_decimal failure_request
           failure_frame 1000 500).
  reflexivity.
Defined.

(** C4 as stated fails on a negative raw prediction: under the failure
    scenario a raw yield of -100 is corrected to -1.512, which is above
    -100, and a raw expense of -100 is corrected to -156, which is below
    -100. *)
Lemma negative_raw_breaks_bounds :
  ∃ y e,
    apply_yield_correction parse_decimal (-100) failure_request = Ok y ∧
    apply_expense_correction parse_decimal (-100) failure_request = Ok e ∧
    y == -1.512 ∧ e == -156 ∧
    ¬ (y <= -100) ∧ ¬ (-100 <= e).
Proof.
  do 2 eexists. split; [reflexivity|]. split; [reflexivity|].
  repeat split; try reflexivity; intros H; vm_compute in H; by apply H.
Qed.

(** The resolver theorem on a misspelt label and the five-crop catalogue. *)
Lemma adjust_to_valid_crop_in_catalog_witness :
  sample_crops ≠ [] ∧
  ∃ r,
    adjust_to_valid_crop "  Rices " sample_crops = Ok r ∧
    r ∈ sample_crops ∧
    let p := strip (lower "  Rices ") in
    (p ∈ sample_crops → r = p) ∧
    (p ∉ sample_crops →
     ∀ l1 v l2,
       sample_crops = l1 ++ v :: l2 →
       str_contains (str_take 3 p) v = true →
       Forall (λ u, str_contains (str_take 3 p) u = false) l1 →
       r = v) ∧
    (p ∉ sample_crops →
     Forall (λ u, str_contains (str_take 3 p) u = false) sample_crops →
     sample_crops !! 0%nat = Some r).
Proof.
  split; [done|].
  apply (adjust_to_valid_crop_in_catalog "  Rices " sample_crops). done.
Defined.

(** The coercion theorem for the field N of the benign request. *)
Lemma feature_field_coercion_witness :
  "N"%string ∈ feature_keys ∧
  (∀ v, sample_request !! "N" = Some v →
        to_float parse_decimal <$> getitem sample_request "N"
          = Ok (to_float parse_decimal v) ∧
        (py_float parse_decimal v = None → to_float parse_decimal v = 0.0)) ∧
  to_float parse_decimal PNone = 0.0 ∧
  (∀ l, to_float parse_decimal (PList l) = 0.0) ∧
  (∀ kvs, to_float parse_decimal (PDict kvs) = 0.0) ∧
  (∀ s, parse_decimal s = None → to_float parse_decimal (PStr s) = 0.0) ∧
  (sample_request !! "N" = None →
     to_float parse_decimal <$> getitem sample_request "N" = Raise (KeyError "N") ∧
     ∃ k', ml_input parse_decimal sample_request = Raise (KeyError k') ∧
           sample_api sample_request = Error500 (KeyError k')).
Proof.
  split; [unfold feature_keys; apply list_elem_of_here|].
  apply (feature_field_coercion parse_decimal sample_crops sample_rf_crop
           sample_label_encoder sample_rf_yield sample_rf_expense sample_request "N").
  unfold feature_keys. apply list_elem_of_here.
Defined.

(** C6 as stated fails on a missing field: without the key "N" no 0.0 is
    substituted; the subscript raises and the request ends in the error
    response. *)
Lemma missing_feature_raises :
  delete "N" sample_request !! "N" = None ∧
  ml_input parse_decimal (delete "N" sample_request) = Raise (KeyError "N") ∧
  sample_api (delete "N" sample_request) = Error500 (KeyError "N").
Proof. repeat split; reflexivity. Qed.

(** The priority theorem for the fertilizer field. *)
Lemma cost_field_priority_witness :
  ("fertilizer", "Fertilizer_Usage_kg_per_hectare")%string ∈ cost_keys ∧
  ∃ q,
    normalize_costs parse_decimal zero_short_request !! "fertilizer" = Some (PFloat q) ∧
    (∀ v, zero_short_request !! "fertilizer" = Some v → truthy v = true →
          q = to_float parse_decimal v) ∧
    (zero_short_request !! "fertilizer" = None ∨
     (∃ v, zero_short_request !! "fertilizer" = Some v ∧ truthy v = false) →
       q = to_float parse_decimal
             (dict_get zero_short_request "Fertilizer_Usage_kg_per_hectare")) ∧
    (zero_short_request !! "fertilizer" = None →
     zero_short_request !! "Fertilizer_Usage_kg_per_hectare" = None → q = 0.0).
Proof.
  split; [unfold cost_keys; apply list_elem_of_here|].
  apply (cost_field_priority parse_decimal zero_short_request
           "fertilizer" "Fertilizer_Usage_kg_per_hectare").
  unfold cost_keys. apply list_elem_of_here.
Defined.

(** C7 as stated fails on a numeric zero: the short-form key is present
    with the value 0, which is neither None nor empty text, yet the
    verbose-form value 50 is the one used. *)
Lemma zero_short_form_is_skipped :
  zero_short_request !! "fertilizer" = Some (PInt 0) ∧
  PInt 0 ≠ PNone ∧ PInt 0 ≠ PStr "" ∧
  zero_short_request !! "Fertilizer_Usage_kg_per_hectare" = Some (PInt 50) ∧
  normalize_costs parse_decimal zero_short_request !! "fertilizer"
    = Some (PFloat (to_float parse_decimal (PInt 50))) ∧
  ¬ (to_float parse_decimal (PInt 50) == to_float parse_decimal (PInt 0)).
Proof. repeat split; try reflexivity; discriminate. Qed.

(** C8: with the empty catalogue the benign request, all of whose keys are
    present, ends in the error response, because the resolver indexes the
    empty list; the ranker alone degrades to the empty list, and a request
    on which the detector fires is still answered. *)
Theorem empty_catalog_request_fails :
  adjust_to_valid_crop "rice" [] = Raise IndexError ∧
  check_crop_failure parse_decimal sample_request = Ok false ∧
  no_catalog_api sample_request = Error500 IndexError ∧
  suggest_best_crops parse_decimal []
    (normalize_costs parse_decimal sample_request) 10 1000 = [] ∧
  ∃ r, no_catalog_api failure_request = Json200 r.
Proof.
  repeat split; try reflexivity. by eexists.
Qed.

(** * Floats with their special values and rounding

    The engine above computes with exact rationals. This part embeds again
    the arithmetic of the suggestion loop and of the "Revenue & Profit"
    block of the handler on floats as the interpreter has them: a finite
    value, an infinity or NaN, every operation on finite values followed
    by a rounding. The two zeros are not told apart: they compare equal
    and no operation modelled here divides. *)

Module Fl.

Inductive float : Type :=
| Fin (q : Q)
| PosInf
| NegInf
| NaN.

Definition is_finite (a : float) : bool :=
  match a with Fin _ => true | _ => false end.

Definition is_nan (a : float) : bool :=
  match a with NaN => true | _ => false end.

(** [a < b], [a <= b] and [a == b]: a comparison with NaN is false. *)
Definition ltb (a b : float) : bool :=
  match a, b with
  | NaN, _ | _, NaN => false
  | Fin x, Fin y => x <? y
  | _, NegInf => false
  | NegInf, _ => true
  | PosInf, _ => false
  | Fin _, PosInf => true
  end.

Definition leb (a b : float) : bool :=
  match a, b with
  | NaN, _ | _, NaN => false
  | Fin x, Fin y => Qle_bool x y
  | NegInf, _ => true
  | _, PosInf => true
  | _, _ => false
  end.

Definition eqb (a b : float) : bool :=
  match a, b with
  | Fin x, Fin y => Qeq_bool x y
  | PosInf, PosInf => true
  | NegInf, NegInf => true
  | _, _ => false
  end.

(** [a > b]. *)
Definition gtb (a b : float) : bool := ltb b a.

(** [max(a, b)]: the first argument unless the second is strictly larger. *)
Definition py_max (a b : float) : float := if ltb a b then b else a.

(** [-a]. *)
Definition neg (a : float) : float :=
  match a with
  | Fin x => Fin (- x)
  | PosInf => NegInf
  | NegInf => PosInf
  | NaN => NaN
  end.

Definition signed_inf (positive : bool) : float :=
  if positive then PosInf else NegInf.

Section Arithmetic.

(** The rounding of an exact result to a float; it gives an infinity when
    the result is beyond the largest float. *)
Variable rnd : Q → float.

(** [a + b]. *)
Definition add (a b : float) : float :=
  match a, b with
  | NaN, _ | _, NaN => NaN
  | Fin x, Fin y => rnd (x + y)
  | PosInf, NegInf | NegInf, PosInf => NaN
  | PosInf, _ | _, PosInf => PosInf
  | NegInf, _ | _, NegInf => NegInf
  end.

(** [a - b]. *)
Definition sub (a b : float) : float := add a (neg b).

(** [a * b]. *)
Definition mul (a b : float) : float :=
  match a, b with
  | NaN, _ | _, NaN => NaN
  | Fin x, Fin y => rnd (x * y)
  | Fin x, PosInf | PosInf, Fin x =>
      if Qeq_bool x 0 then NaN else signed_inf (0 <? x)
  | Fin x, NegInf | NegInf, Fin x =>
      if Qeq_bool x 0 then NaN else signed_inf (x <? 0)
  | PosInf, PosInf | NegInf, NegInf => PosInf
  | PosInf, NegInf | NegInf, PosInf => NegInf
  end.

End Arithmetic.

(** ** Rounding to binary64 *)

(** The integer nearest to a non-negative rational, ties to the even one. *)
Definition round_half_even (q : Q) : Z :=
  let lo := Qfloor q in
  match Qcompare (q - inject_Z lo) (1 # 2) with
  | Lt => lo
  | Gt => (lo + 1)%Z
  | Eq => if Z.even lo then lo else (lo + 1)%Z
  end.

(** The binade of a positive rational: the [k] with [2^k <= q < 2^(k+1)]. *)
Definition binade (q : Q) : Z :=
  let k := (Z.log2 (Qnum q) - Z.log2 (Z.pos (Qden q)))%Z in
  if Qle_bool (2 ^ k) q then k else (k - 1)%Z.

(** The exponent of the unit in the last place of the floats around a
    positive rational: 53 significant bits, and not below the exponent of
    the subnormal floats. *)
Definition ulp_exponent (q : Q) : Z := Z.max (binade q - 52) (-1074).

(** The multiple of the unit in the last place nearest to a positive
    rational. *)
Definition nearest (q : Q) : Q :=
  let e := ulp_exponent q in
  inject_Z (round_half_even (q / 2 ^ e)) * 2 ^ e.

(** The float nearest to a positive rational: an infinity from 2^1024 on. *)
Definition round_pos (q : Q) : float :=
  let v := nearest q in
  if Qle_bool (2 ^ 1024) v then PosInf else Fin v.

(** Round to nearest, ties to even, on binary64. *)
Definition round64 (q : Q) : float :=
  match Qcompare q 0 with
  | Eq => Fin 0
  | Gt => round_pos q
  | Lt => neg (round_pos (- q))
  end.

(** Arithmetic without rounding, on which the engine above computes. *)
Definition exact (q : Q) : float := Fin q.

(** ** The program on floats *)

(** An entry of the suggestion list. *)
Record suggestion : Type := { Crop : string; Yield : float; Profit : float }.

(** The figures of the "Revenue & Profit" block and the flag computed from
    them. *)
Record figures : Type := {
  revenue : float;
  profit : float;
  loss : float;
  show_suggestions : bool
}.

Section Program.

Variable rnd : Q → float.

(** The value a decimal numeral denotes, before rounding; [None] on text
    that is no decimal numeral. *)
Variable str_to_float : string → option Q.

(** The texts on which [float] gives a special value: case and surrounding
    blanks are ignored. *)
Definition special_value (s : string) : option float :=
  let s := lower (strip s) in
  if list_contains s ["nan"; "+nan"; "-nan"]%string then Some NaN
  else if list_contains s ["inf"; "+inf"; "infinity"; "+infinity"]%string
       then Some PosInf
  else if list_contains s ["-inf"; "-infinity"]%string then Some NegInf
  else None.

(** The builtin [float(x)]: [None] stands for [TypeError], [ValueError] or
    [OverflowError]. A number of the decoded payload is the float nearest
    to its numeral. *)
Definition py_float (x : pyval) : option float :=
  match x with
  | PNone => None
  | PBool b => Some (Fin (if b then 1 else 0))
  | PInt z => if int_overflows z then None else Some (rnd (inject_Z z))
  | PFloat q => Some (rnd q)
  | PStr s =>
      match special_value s with
      | Some a => Some a
      | None => rnd <$> str_to_float s
      end
  | PList _ => None
  | PDict _ => None
  end.

Definition to_float (x : pyval) : float :=
  match py_float x with
  | Some a => a
  | None => Fin 0.0
  end.

(** [fixed_expense] of the suggestion loop. *)
Definition fixed_expense (data : gmap string pyval) : float :=
  add rnd
    (add rnd
       (add rnd
          (mul rnd (to_float (dict_get data "fertilizer")) (Fin 40))
          (mul rnd (to_float (dict_get data "pesticide")) (Fin 120)))
       (to_float (dict_get data "seed")))
    (to_float (dict_get data "other")).

(** The body of the suggestion loop: the entry appended for [crop]. The
    factor is the float nearest to the numeral of the table. *)
Definition candidate (data : gmap string pyval) (user_price base_yield : float)
    (crop : string) : suggestion :=
  let factor := rnd (crop_factor crop) in
  let approx_yield := mul rnd base_yield factor in
  let revenue := mul rnd approx_yield user_price in
  let profit := sub rnd revenue (fixed_expense data) in
  {| Crop := crop; Yield := approx_yield; Profit := profit |}.

(** The "Revenue & Profit" block of the handler and the flag of the
    response, from the corrected yield and expense. *)
Definition revenue_and_profit (data : gmap string pyval)
    (predicted_yield predicted_expense : float) : result figures :=
  price ← to_float <$> getitem data "market_price";
  let revenue := mul rnd predicted_yield price in
  let profit := py_max (sub rnd revenue predicted_expense) (Fin 0) in
  let loss := py_max (sub rnd predicted_expense revenue) (Fin 0) in
  mret {| revenue := revenue; profit := profit; loss := loss;
          show_suggestions := gtb profit (Fin 0) |}.

End Program.

(** ** What the statements ask of a rounding *)

(** The order and the equality of floats that are not NaN. *)
Definition le (a b : float) : Prop := leb a b = true.

Definition feq (a b : float) : Prop :=
  match a, b with
  | Fin x, Fin y => x == y
  | PosInf, PosInf => True
  | NegInf, NegInf => True
  | NaN, NaN => True
  | _, _ => False
  end.

(** A rounding is monotone, keeps zero and commutes with the change of
    sign. *)
Record Rounding (rnd : Q → float) : Prop := {
  rnd_mono : ∀ x y, x <= y → le (rnd x) (rnd y);
  rnd_zero : feq (rnd 0) (Fin 0);
  rnd_opp : ∀ x, feq (rnd (- x)) (neg (rnd x))
}.

End Fl.

(** ** Properties of the arithmetic on floats *)

Module FlFacts.
Import Fl.

Lemma Qle_bool_true (x y : Q) : Qle_bool x y = true ↔ x <= y.
Proof. apply Qle_bool_iff. Qed.

Lemma Qle_bool_false (x y : Q) : Qle_bool x y = false ↔ y < x.
Proof.
  split.
  - intros H. apply Qnot_le_lt. intros Hle. apply Qle_bool_iff in Hle. congruence.
  - intros H. destruct (Qle_bool x y) eqn:Hle; [|done].
    apply Qle_bool_iff in Hle. lra.
Qed.

Lemma Qeq_bool_true (x y : Q) : Qeq_bool x y = true ↔ x == y.
Proof. apply Qeq_bool_iff. Qed.

Lemma Qeq_bool_false (x y : Q) : Qeq_bool x y = false ↔ ¬ x == y.
Proof.
  split.
  - intros H Heq. apply Qeq_bool_iff in Heq. congruence.
  - intros H. destruct (Qeq_bool x y) eqn:Heq; [|done].
    apply Qeq_bool_iff in Heq. done.
Qed.

(** Turn the comparisons of the hypotheses, and with [float_cmp] also those
    of the goal, into propositions on rationals. *)
Ltac float_hyps :=
  repeat match goal with
         | H : Qle_bool _ _ = true |- _ => apply Qle_bool_true in H
         | H : Qle_bool _ _ = false |- _ => apply Qle_bool_false in H
         | H : Qeq_bool _ _ = true |- _ => apply Qeq_bool_true in H
         | H : Qeq_bool _ _ = false |- _ => apply Qeq_bool_false in H
         | H : (_ <? _) = true |- _ => apply Qltb_lt in H
         | H : (_ <? _) = false |- _ => apply Qltb_ge in H
         end.

Ltac float_cmp :=
  unfold le, feq, leb, ltb, eqb, gtb in *;
  repeat match goal with
         | H : Qle_bool _ _ = true |- _ => apply Qle_bool_true in H
         | H : Qle_bool _ _ = false |- _ => apply Qle_bool_false in H
         | H : Qeq_bool _ _ = true |- _ => apply Qeq_bool_true in H
         | H : Qeq_bool _ _ = false |- _ => apply Qeq_bool_false in H
         | H : (_ <? _) = true |- _ => apply Qltb_lt in H
         | H : (_ <? _) = false |- _ => apply Qltb_ge in H
         | |- Qle_bool _ _ = true => apply Qle_bool_true
         | |- Qle_bool _ _ = false => apply Qle_bool_false
         | |- Qeq_bool _ _ = true => apply Qeq_bool_true
         | |- Qeq_bool _ _ = false => apply Qeq_bool_false
         | |- (_ <? _) = true => apply Qltb_lt
         | |- (_ <? _) = false => apply Qltb_ge
         end.

Lemma le_not_nan a b : le a b → is_nan a = false ∧ is_nan b = false.
Proof. unfold le. by destruct a, b. Qed.

Lemma le_refl a : is_nan a = false → le a a.
Proof. destruct a; intros H; try done; float_cmp; lra. Qed.

Lemma le_trans a b c : le a b → le b c → le a c.
Proof. destruct a, b, c; intros H1 H2; try done; float_cmp; lra. Qed.

Lemma le_antisym a b : le a b → le b a → feq a b.
Proof. destruct a, b; intros H1 H2; try done; float_cmp; lra. Qed.

Lemma feq_le a b : feq a b → is_nan a = false → le a b.
Proof. destruct a, b; intros H1 H2; try done; float_cmp; lra. Qed.

Lemma feq_sym a b : feq a b → feq b a.
Proof. destruct a, b; intros H; try done; float_cmp; lra. Qed.

Lemma feq_trans a b c : feq a b → feq b c → feq a c.
Proof. destruct a, b, c; intros H1 H2; try done; float_cmp; lra. Qed.

Lemma feq_eqb a b : feq a b → is_nan a = false → eqb a b = true.
Proof. destruct a, b; intros H1 H2; try done; float_cmp; lra. Qed.

Lemma le_top a : is_nan a = false → le a PosInf.
Proof. by destruct a. Qed.

Lemma le_bottom a : is_nan a = false → le NegInf a.
Proof. by destruct a. Qed.

Lemma neg_involutive a : feq (neg (neg a)) a.
Proof. destruct a; cbn; try done. ring. Qed.

Lemma feq_neg a b : feq a b → feq (neg a) (neg b).
Proof. destruct a, b; cbn; try done. intros ->. reflexivity. Qed.

Section Rounded.
Context (rnd : Q → float) (Hrnd : Rounding rnd).

Lemma rnd_not_nan x : is_nan (rnd x) = false.
Proof using Hrnd.
  destruct (le_not_nan _ _ (rnd_mono rnd Hrnd x x ltac:(lra))) as [H _]. exact H.
Qed.

Lemma rnd_proper x y : x == y → feq (rnd x) (rnd y).
Proof using Hrnd.
  intros Hxy. apply le_antisym; apply (rnd_mono rnd Hrnd); lra.
Qed.

Lemma rnd_nonneg x : 0 <= x → le (Fin 0) (rnd x).
Proof using Hrnd.
  intros Hx. pose proof (rnd_mono rnd Hrnd 0 x Hx) as Hle.
  pose proof (rnd_zero rnd Hrnd) as H0.
  destruct (rnd 0), (rnd x); try done; float_cmp; lra.
Qed.

Lemma rnd_nonpos x : x <= 0 → le (rnd x) (Fin 0).
Proof using Hrnd.
  intros Hx. pose proof (rnd_mono rnd Hrnd x 0 Hx) as Hle.
  pose proof (rnd_zero rnd Hrnd) as H0.
  destruct (rnd 0), (rnd x); try done; float_cmp; lra.
Qed.

(** A difference that is finite is a difference of finite values, and the
    opposite difference is the opposite value. *)
Lemma sub_finite_inv a b d :
  sub rnd a b = Fin d →
  ∃ x y d', a = Fin x ∧ b = Fin y ∧ sub rnd b a = Fin d' ∧ d' == - d.
Proof using Hrnd.
  unfold sub. destruct a as [x| | |], b as [y| | |]; cbn; try done.
  intros Hd. exists x, y.
  pose proof (rnd_opp rnd Hrnd (x + - y)) as Ho. rewrite Hd in Ho.
  pose proof (rnd_proper (y + - x) (- (x + - y)) ltac:(ring)) as Hp.
  destruct (rnd (- (x + - y))) as [o| | |]; cbn in Ho; try done.
  destruct (rnd (y + - x)) as [d'| | |]; cbn in Hp; try done.
  exists d'. split_and!; try done. lra.
Qed.

(** Multiplication by a positive, and by a negative, finite value. *)
Lemma mul_pos_l_mono b a1 a2 :
  0 < b → le a1 a2 → le (mul rnd (Fin b) a1) (mul rnd (Fin b) a2).
Proof using Hrnd.
  intros Hb Hle.
  assert (Hz : Qeq_bool b 0 = false) by (float_cmp; lra).
  assert (Hp : (0 <? b) = true) by (float_cmp; lra).
  assert (Hn : (b <? 0) = false) by (float_cmp; lra).
  destruct a1 as [x| | |], a2 as [y| | |]; try done; cbn; rewrite ?Hz, ?Hp, ?Hn; cbn;
    try done; try (apply le_top, rnd_not_nan); try (apply le_bottom, rnd_not_nan).
  apply (rnd_mono rnd Hrnd). float_cmp. nra.
Qed.

Lemma mul_neg_l_anti b a1 a2 :
  b < 0 → le a1 a2 → le (mul rnd (Fin b) a2) (mul rnd (Fin b) a1).
Proof using Hrnd.
  intros Hb Hle.
  assert (Hz : Qeq_bool b 0 = false) by (float_cmp; lra).
  assert (Hp : (0 <? b) = false) by (float_cmp; lra).
  assert (Hn : (b <? 0) = true) by (float_cmp; lra).
  destruct a1 as [x| | |], a2 as [y| | |]; try done; cbn; rewrite ?Hz, ?Hp, ?Hn; cbn;
    try done; try (apply le_top, rnd_not_nan); try (apply le_bottom, rnd_not_nan).
  apply (rnd_mono rnd Hrnd). float_cmp. nra.
Qed.

Lemma mul_pos_r_mono p a1 a2 :
  0 < p → le a1 a2 → le (mul rnd a1 (Fin p)) (mul rnd a2 (Fin p)).
Proof using Hrnd.
  intros Hb Hle.
  assert (Hz : Qeq_bool p 0 = false) by (float_cmp; lra).
  assert (Hp : (0 <? p) = true) by (float_cmp; lra).
  assert (Hn : (p <? 0) = false) by (float_cmp; lra).
  destruct a1 as [x| | |], a2 as [y| | |]; try done; cbn; rewrite ?Hz, ?Hp, ?Hn; cbn;
    try done; try (apply le_top, rnd_not_nan); try (apply le_bottom, rnd_not_nan).
  apply (rnd_mono rnd Hrnd). float_cmp. nra.
Qed.

Lemma mul_neg_r_anti p a1 a2 :
  p < 0 → le a1 a2 → le (mul rnd a2 (Fin p)) (mul rnd a1 (Fin p)).
Proof using Hrnd.
  intros Hb Hle.
  assert (Hz : Qeq_bool p 0 = false) by (float_cmp; lra).
  assert (Hp : (0 <? p) = false) by (float_cmp; lra).
  assert (Hn : (p <? 0) = true) by (float_cmp; lra).
  destruct a1 as [x| | |], a2 as [y| | |]; try done; cbn; rewrite ?Hz, ?Hp, ?Hn; cbn;
    try done; try (apply le_top, rnd_not_nan); try (apply le_bottom, rnd_not_nan).
  apply (rnd_mono rnd Hrnd). float_cmp. nra.
Qed.

(** Subtraction of a finite value. *)
Lemma sub_fin_r_mono e a1 a2 :
  le a1 a2 → le (sub rnd a1 (Fin e)) (sub rnd a2 (Fin e)).
Proof using Hrnd.
  intros Hle. unfold sub.
  destruct a1 as [x| | |], a2 as [y| | |]; try done; cbn;
    try done; try (apply le_top, rnd_not_nan); try (apply le_bottom, rnd_not_nan).
  apply (rnd_mono rnd Hrnd). float_cmp. lra.
Qed.

End Rounded.

(** Arithmetic without rounding is a rounding. *)
Lemma exact_rounding : Rounding exact.
Proof.
  split; unfold exact.
  - intros x y Hxy. float_cmp. exact Hxy.
  - cbn. reflexivity.
  - intros x. cbn. reflexivity.
Qed.

(** ** Rounding to binary64 is a rounding *)

Lemma pow2_pos e : 0 < 2 ^ e.
Proof. by apply Qpower_0_lt. Qed.

Lemma pow2_add a b : 2 ^ (a + b) == 2 ^ a * 2 ^ b.
Proof. by apply Qpower_plus. Qed.

Lemma pow2_le a b : (a <= b)%Z → 2 ^ a <= 2 ^ b.
Proof. intros H. by apply Qpower_le_compat_l. Qed.

Lemma pow2_lt a b : (a < b)%Z → 2 ^ a < 2 ^ b.
Proof. intros H. by apply Qpower_lt_compat_l. Qed.

Lemma pow2_lt_inv a b : 2 ^ a < 2 ^ b → (a < b)%Z.
Proof. intros H. by apply (Qpower_lt_compat_l_inv 2). Qed.

Lemma pow2_Z a : (0 <= a)%Z → inject_Z (2 ^ a) == 2 ^ a.
Proof. intros H. by rewrite Zpower_Qpower. Qed.

Lemma pow2_succ a : 2 ^ (a + 1) == 2 * 2 ^ a.
Proof. rewrite pow2_add. change (2 ^ 1) with 2. ring. Qed.

(** The binade of a positive rational. *)
Lemma binade_spec q : 0 < q → 2 ^ binade q <= q ∧ q < 2 ^ (binade q + 1).
Proof.
  destruct q as [n d]. intros Hq.
  assert (Hn : (0 < n)%Z).
  { unfold Qlt in Hq. cbn in Hq. lia. }
  unfold binade. cbn [Qnum Qden].
  set (a := Z.log2 n). set (c := Z.log2 (Z.pos d)).
  destruct (Z.log2_spec n Hn) as [Ha1 Ha2].
  destruct (Z.log2_spec (Z.pos d) ltac:(lia)) as [Hc1 Hc2].
  fold a in Ha1, Ha2. fold c in Hc1, Hc2.
  assert (Ha0 : (0 <= a)%Z) by apply Z.log2_nonneg.
  assert (Hc0 : (0 <= c)%Z) by apply Z.log2_nonneg.
  set (q := n # d) in *.
  set (N := inject_Z n). set (D := inject_Z (Z.pos d)).
  assert (HqD : q * D == N).
  { unfold q, N, D. rewrite (Qmake_Qdiv n d). field. discriminate. }
  assert (HD : 0 < D) by (unfold D, Qlt; cbn; lia).
  assert (HA1 : 2 ^ a <= N).
  { rewrite <- (pow2_Z a Ha0). unfold N. by rewrite <- Zle_Qle. }
  assert (HA2 : N < 2 ^ (a + 1)).
  { rewrite <- (pow2_Z (a + 1) ltac:(lia)). unfold N. rewrite <- Zlt_Qlt.
    by rewrite <- Z.add_1_r in Ha2. }
  assert (HC1 : 2 ^ c <= D).
  { rewrite <- (pow2_Z c Hc0). unfold D. by rewrite <- Zle_Qle. }
  assert (HC2 : D < 2 ^ (c + 1)).
  { rewrite <- (pow2_Z (c + 1) ltac:(lia)). unfold D. rewrite <- Zlt_Qlt.
    by rewrite <- Z.add_1_r in Hc2. }
  (* the two bounds that the logarithms give *)
  assert (Hup : q < 2 ^ (a - c + 1)).
  { pose proof (pow2_pos (a - c + 1)) as HU. pose proof (pow2_pos c) as HC.
    assert (Hsplit : 2 ^ (a + 1) == 2 ^ (a - c + 1) * 2 ^ c).
    { rewrite <- pow2_add. by replace (a - c + 1 + c)%Z with (a + 1)%Z by lia. }
    set (U := 2 ^ (a - c + 1)) in *. set (C := 2 ^ c) in *.
    set (A2 := 2 ^ (a + 1)) in *. nra. }
  assert (Hlow : 2 ^ (a - c - 1) < q).
  { pose proof (pow2_pos (a - c - 1)) as HL. pose proof (pow2_pos (c + 1)) as HC.
    assert (Hsplit : 2 ^ a == 2 ^ (a - c - 1) * 2 ^ (c + 1)).
    { rewrite <- pow2_add. by replace (a - c - 1 + (c + 1))%Z with a by lia. }
    set (L := 2 ^ (a - c - 1)) in *. set (C2 := 2 ^ (c + 1)) in *.
    set (A := 2 ^ a) in *. nra. }
  destruct (Qle_bool (2 ^ (a - c)) q) eqn:Hcmp.
  - apply Qle_bool_iff in Hcmp. split; [done|]. exact Hup.
  - apply Qle_bool_false in Hcmp.
    replace (a - c - 1 + 1)%Z with (a - c)%Z by lia. split; [lra | done].
Qed.

Lemma binade_mono x y : 0 < x → x <= y → (binade x <= binade y)%Z.
Proof.
  intros Hx Hxy.
  destruct (binade_spec x Hx) as [Hx1 _].
  destruct (binade_spec y ltac:(lra)) as [_ Hy2].
  assert (H : 2 ^ binade x < 2 ^ (binade y + 1)) by lra.
  apply pow2_lt_inv in H. lia.
Qed.

Lemma ulp_exponent_mono x y : 0 < x → x <= y → (ulp_exponent x <= ulp_exponent y)%Z.
Proof.
  intros Hx Hxy. unfold ulp_exponent.
  pose proof (binade_mono x y Hx Hxy). lia.
Qed.

Lemma ulp_exponent_upper q : 0 < q → q < 2 ^ (ulp_exponent q + 53).
Proof.
  intros Hq. destruct (binade_spec q Hq) as [_ H2].
  eapply Qlt_le_trans; [exact H2|]. apply pow2_le. unfold ulp_exponent. lia.
Qed.

Lemma ulp_exponent_lower q :
  0 < q → (-1074 < ulp_exponent q)%Z → 2 ^ (ulp_exponent q + 52) <= q.
Proof.
  intros Hq He. destruct (binade_spec q Hq) as [H1 _].
  eapply Qle_trans; [|exact H1]. apply pow2_le. unfold ulp_exponent in *. lia.
Qed.

(** Rounding to the nearest integer. *)
Lemma round_half_even_bounds x :
  (Qfloor x <= round_half_even x <= Qfloor x + 1)%Z.
Proof.
  unfold round_half_even. cbv zeta.
  destruct (Qcompare _ _); [destruct (Z.even _)|..]; lia.
Qed.

Lemma round_half_even_Z z : round_half_even (inject_Z z) = z.
Proof.
  unfold round_half_even. cbv zeta. rewrite Qfloor_Z.
  destruct (Qcompare_spec (inject_Z z - inject_Z z) (1 # 2)) as [H|H|H];
    [exfalso; lra | done | exfalso; lra].
Qed.

Lemma round_half_even_mono x y : x <= y → (round_half_even x <= round_half_even y)%Z.
Proof.
  intros Hxy. pose proof (Qfloor_resp_le x y Hxy) as Hf.
  pose proof (round_half_even_bounds x) as Hx.
  pose proof (round_half_even_bounds y) as Hy.
  destruct (Z.eq_dec (Qfloor x) (Qfloor y)) as [Heq|Hne]; [|lia].
  clear Hx Hy Hf. unfold round_half_even. cbv zeta. rewrite <- Heq.
  destruct (Qcompare_spec (x - inject_Z (Qfloor x)) (1 # 2)) as [H1|H1|H1],
    (Qcompare_spec (y - inject_Z (Qfloor x)) (1 # 2)) as [H2|H2|H2];
    try destruct (Z.even (Qfloor x)); try lia; exfalso; lra.
Qed.

Lemma round_half_even_ge z x : inject_Z z <= x → (z <= round_half_even x)%Z.
Proof.
  intros H. pose proof (round_half_even_mono _ _ H) as Hm.
  by rewrite round_half_even_Z in Hm.
Qed.

Lemma round_half_even_le z x : x <= inject_Z z → (round_half_even x <= z)%Z.
Proof.
  intros H. pose proof (round_half_even_mono _ _ H) as Hm.
  by rewrite round_half_even_Z in Hm.
Qed.

Lemma nearest_nonneg q : 0 < q → 0 <= nearest q.
Proof.
  intros Hq. unfold nearest. cbv zeta. pose proof (pow2_pos (ulp_exponent q)) as He.
  assert (H : (0 <= round_half_even (q / 2 ^ ulp_exponent q))%Z).
  { apply round_half_even_ge. apply Qle_shift_div_l; [done|].
    change (inject_Z 0) with 0. lra. }
  rewrite Zle_Qle in H. change (inject_Z 0) with 0 in H. nra.
Qed.

Lemma nearest_mono x y : 0 < x → x <= y → nearest x <= nearest y.
Proof.
  intros Hx Hxy. unfold nearest. cbv zeta.
  pose proof (ulp_exponent_mono x y Hx Hxy) as He.
  set (ex := ulp_exponent x) in *. set (ey := ulp_exponent y) in *.
  pose proof (pow2_pos ex) as Hpx. pose proof (pow2_pos ey) as Hpy.
  destruct (Z.eq_dec ex ey) as [Heq|Hne].
  - rewrite <- Heq.
    assert (H : (round_half_even (x / 2 ^ ex) <= round_half_even (y / 2 ^ ex))%Z).
    { apply round_half_even_mono. apply Qle_shift_div_l; [done|].
      unfold Qdiv. rewrite <- Qmult_assoc, (Qmult_comm (/ _)), Qmult_inv_r, Qmult_1_r;
        [done | lra]. }
    rewrite Zle_Qle in H. nra.
  - assert (Hlt : (ex < ey)%Z) by lia.
    assert (H1 : (round_half_even (x / 2 ^ ex) <= 2 ^ 53)%Z).
    { apply round_half_even_le. apply Qle_shift_div_r; [done|].
      rewrite (pow2_Z 53) by lia. rewrite <- pow2_add.
      pose proof (ulp_exponent_upper x Hx) as Hu. fold ex in Hu.
      replace (53 + ex)%Z with (ex + 53)%Z by lia. lra. }
    assert (H2 : (2 ^ 52 <= round_half_even (y / 2 ^ ey))%Z).
    { apply round_half_even_ge. apply Qle_shift_div_l; [done|].
      rewrite (pow2_Z 52) by lia. rewrite <- pow2_add.
      assert (Hey : (-1074 < ey)%Z).
      { assert ((-1074 <= ex)%Z) by (unfold ex, ulp_exponent; lia). lia. }
      pose proof (ulp_exponent_lower y ltac:(lra) Hey) as Hl. fold ey in Hl.
      by replace (52 + ey)%Z with (ey + 52)%Z by lia. }
    rewrite Zle_Qle in H1, H2.
    rewrite (pow2_Z 53) in H1 by lia. rewrite (pow2_Z 52) in H2 by lia.
    assert (Hstep : 2 ^ 53 * 2 ^ ex <= 2 ^ 52 * 2 ^ ey).
    { rewrite <- !pow2_add. apply pow2_le. lia. }
    pose proof (pow2_pos 52). pose proof (pow2_pos 53).
    set (mx := inject_Z (round_half_even (x / 2 ^ ex))) in *.
    set (my := inject_Z (round_half_even (y / 2 ^ ey))) in *.
    set (p53 := 2 ^ 53) in *. set (p52 := 2 ^ 52) in *.
    set (px := 2 ^ ex) in *. set (py := 2 ^ ey) in *.
    nra.
Qed.

Lemma round_pos_mono x y : 0 < x → x <= y → le (round_pos x) (round_pos y).
Proof.
  intros Hx Hxy. unfold round_pos. cbv zeta.
  pose proof (nearest_mono x y Hx Hxy) as Hm.
  destruct (Qle_bool (2 ^ 1024) (nearest y)) eqn:Hy.
  - by destruct (Qle_bool (2 ^ 1024) (nearest x)).
  - destruct (Qle_bool (2 ^ 1024) (nearest x)) eqn:Hx'.
    + float_hyps. exfalso. lra.
    + float_cmp. lra.
Qed.

Lemma round_pos_nonneg q : 0 < q → le (Fin 0) (round_pos q).
Proof.
  intros Hq. unfold round_pos. cbv zeta. pose proof (nearest_nonneg q Hq).
  destruct (Qle_bool _ _); [done|]. float_cmp. lra.
Qed.

Lemma le_neg a b : le a b → le (neg b) (neg a).
Proof. destruct a, b; intros H; try done; unfold neg; float_cmp; lra. Qed.

Lemma round64_pos q : 0 < q → round64 q = round_pos q.
Proof. intros H. unfold round64. by destruct (Qcompare_spec q 0); try lra. Qed.

Lemma round64_neg q : q < 0 → round64 q = neg (round_pos (- q)).
Proof. intros H. unfold round64. by destruct (Qcompare_spec q 0); try lra. Qed.

Lemma round64_zero q : q == 0 → round64 q = Fin 0.
Proof. intros H. unfold round64. by destruct (Qcompare_spec q 0); try lra. Qed.

Lemma round64_mono x y : x <= y → le (round64 x) (round64 y).
Proof.
  intros Hxy.
  destruct (Q_dec x 0) as [[Hx|Hx]|Hx], (Q_dec y 0) as [[Hy|Hy]|Hy];
    try (exfalso; lra).
  - rewrite (round64_neg x Hx), (round64_neg y Hy).
    apply le_neg, round_pos_mono; lra.
  - rewrite (round64_neg x Hx), (round64_pos y Hy).
    apply le_trans with (Fin 0); [|by apply round_pos_nonneg].
    pose proof (le_neg _ _ (round_pos_nonneg (- x) ltac:(lra))) as H.
    eapply le_trans; [exact H|]. cbn. float_cmp. lra.
  - rewrite (round64_neg x Hx), (round64_zero y Hy).
    pose proof (le_neg _ _ (round_pos_nonneg (- x) ltac:(lra))) as H.
    eapply le_trans; [exact H|]. cbn. float_cmp. lra.
  - rewrite (round64_pos x Hx), (round64_pos y Hy). by apply round_pos_mono.
  - rewrite (round64_zero x Hx), (round64_pos y Hy). by apply round_pos_nonneg.
  - rewrite (round64_zero x Hx), (round64_zero y Hy). float_cmp. lra.
Qed.

(** Rounding to binary64 is a rounding. *)
Lemma round64_rounding : Rounding round64.
Proof.
  split.
  - apply round64_mono.
  - rewrite (round64_zero 0) by reflexivity. cbn. reflexivity.
  - intros x. destruct (Q_dec x 0) as [[Hx|Hx]|Hx].
    + rewrite (round64_pos (- x)) by lra. rewrite (round64_neg x Hx).
      apply feq_sym, neg_involutive.
    + rewrite (round64_neg (- x)) by lra. rewrite (round64_pos x Hx).
      apply feq_neg, le_antisym; apply round_pos_mono; lra.
    + rewrite (round64_zero (- x)) by lra. rewrite (round64_zero x Hx). cbn. lra.
Qed.

(** ** Profit and loss, and the order of the candidates, on floats *)

Section OnFloats.
Context (rnd : Q → float) (Hrnd : Rounding rnd).
Context (str_to_float : string → option Q).

Lemma revenue_and_profit_inv data predicted_yield predicted_expense s :
  revenue_and_profit rnd str_to_float data predicted_yield predicted_expense = Ok s →
  ∃ vp,
    data !! "market_price" = Some vp ∧
    s = let revenue := mul rnd predicted_yield (to_float rnd str_to_float vp) in
        let profit := py_max (sub rnd revenue predicted_expense) (Fin 0) in
        let loss := py_max (sub rnd predicted_expense revenue) (Fin 0) in
        {| revenue := revenue; profit := profit; loss := loss;
           show_suggestions := gtb profit (Fin 0) |}.
Proof using Type.
  unfold revenue_and_profit, getitem. destruct (data !! "market_price") as [vp|]; [|done].
  cbn. intros [= <-]. by exists vp.
Qed.

(** C9, as the code has it. Whenever the difference of revenue and expense
    is a finite number, profit is max(revenue - expense, 0) and loss is
    max(expense - revenue, 0), both compare as non-negative, one of them
    compares equal to zero, and so does their product. *)
Theorem profit_loss_complementary_finite data predicted_yield predicted_expense s :
  revenue_and_profit rnd str_to_float data predicted_yield predicted_expense = Ok s →
  is_finite (sub rnd (revenue s) predicted_expense) = true →
  profit s = py_max (sub rnd (revenue s) predicted_expense) (Fin 0) ∧
  loss s = py_max (sub rnd predicted_expense (revenue s)) (Fin 0) ∧
  leb (Fin 0) (profit s) = true ∧
  leb (Fin 0) (loss s) = true ∧
  (eqb (profit s) (Fin 0) = true ∨ eqb (loss s) (Fin 0) = true) ∧
  eqb (mul rnd (profit s) (loss s)) (Fin 0) = true.
Proof using Hrnd.
  intros (vp & _ & ->)%revenue_and_profit_inv. cbn [revenue profit loss]. cbv zeta.
  set (rev := mul rnd predicted_yield (to_float rnd str_to_float vp)).
  destruct (sub rnd rev predicted_expense) as [d| | |] eqn:Hd; [intros _|done..].
  destruct (sub_finite_inv rnd Hrnd _ _ _ Hd) as (r & e & d' & Hr & He & Hd' & Hopp).
  rewrite Hd'. split; [done|]. split; [done|].
  unfold py_max. cbn [ltb].
  assert (Hzero : ∀ x, x == 0 → eqb (rnd x) (Fin 0) = true).
  { intros x Hx. apply feq_eqb; [|apply (rnd_not_nan rnd Hrnd)].
    eapply feq_trans; [apply (rnd_proper rnd Hrnd x 0 Hx)|].
    apply (rnd_zero rnd Hrnd). }
  destruct (d <? 0) eqn:Hneg, (d' <? 0) eqn:Hneg'; float_hyps;
    try (exfalso; lra); cbn [mul]; split_and!;
    try (by float_cmp; lra);
    try (by left; float_cmp; lra); try (by right; float_cmp; lra);
    apply Hzero; nra.
Qed.

(** X4. The figures of the "Revenue & Profit" block are consistent: the
    revenue is the product of the yield and of the price read from the
    request, the flag says whether the profit compares above zero, and
    whenever the difference of revenue and expense is a finite number,
    profit and loss are finite and profit minus loss is that difference.
    When the revenue or the expense is NaN, profit and loss are NaN and the
    flag is off. *)
Theorem figures_accounting data predicted_yield predicted_expense s :
  revenue_and_profit rnd str_to_float data predicted_yield predicted_expense = Ok s →
  revenue s
    = mul rnd predicted_yield (to_float rnd str_to_float (dict_get data "market_price")) ∧
  show_suggestions s = gtb (profit s) (Fin 0) ∧
  (∀ d, sub rnd (revenue s) predicted_expense = Fin d →
        ∃ p l, profit s = Fin p ∧ loss s = Fin l ∧ p - l == d) ∧
  (is_nan (revenue s) = true ∨ is_nan predicted_expense = true →
   profit s = NaN ∧ loss s = NaN ∧ show_suggestions s = false).
Proof using Hrnd.
  intros (vp & Hp & ->)%revenue_and_profit_inv.
  cbn [revenue profit loss show_suggestions]. cbv zeta.
  unfold dict_get. rewrite Hp. cbn [default].
  set (rev := mul rnd predicted_yield (to_float rnd str_to_float vp)).
  split; [done|]. split; [done|]. split.
  - intros d Hd.
    destruct (sub_finite_inv rnd Hrnd _ _ _ Hd) as (r & e & d' & Hr & He & Hd' & Hopp).
    rewrite Hd, Hd'. unfold py_max. cbn [ltb].
    destruct (d <? 0) eqn:Hneg, (d' <? 0) eqn:Hneg'; float_cmp;
      do 2 eexists; (split; [reflexivity|]); (split; [reflexivity|]); lra.
  - unfold sub. intros [Hnan|Hnan].
    + destruct rev; try done. by destruct predicted_expense.
    + destruct predicted_expense; try done. by destruct rev.
Qed.

(** C10, as the code has it. Within one invocation the fixed expense does
    not depend on the crop: the profit of a candidate is its rounded
    revenue minus that common expense. Whenever base_yield * market_price
    is positive and the fixed expense is a finite number, a candidate whose
    yield factor is not smaller has a profit that does not compare
    smaller; the factor is 0.75 for a crop outside the factor table. *)
Theorem profit_order_monotone data user_price base_yield crop1 crop2 :
  0 < base_yield * user_price →
  is_finite (fixed_expense rnd str_to_float data) = true →
  crop_factor crop1 <= crop_factor crop2 →
  let c1 := candidate rnd str_to_float data (Fin user_price) (Fin base_yield) crop1 in
  let c2 := candidate rnd str_to_float data (Fin user_price) (Fin base_yield) crop2 in
  Profit c1
    = sub rnd (mul rnd (mul rnd (Fin base_yield) (rnd (crop_factor crop1)))
                       (Fin user_price))
          (fixed_expense rnd str_to_float data) ∧
  Profit c2
    = sub rnd (mul rnd (mul rnd (Fin base_yield) (rnd (crop_factor crop2)))
                       (Fin user_price))
          (fixed_expense rnd str_to_float data) ∧
  leb (Profit c1) (Profit c2) = true ∧
  ltb (Profit c2) (Profit c1) = false ∧
  (CROP_FACTOR !! crop1 = None → crop_factor crop1 = 0.75).
Proof using Hrnd.
  intros Hpos Hfin Hf c1 c2. subst c1 c2. unfold candidate. cbn [Profit].
  split; [done|]. split; [done|].
  destruct (fixed_expense rnd str_to_float data) as [e| | |]; try done.
  pose proof (rnd_mono rnd Hrnd _ _ Hf) as Hle.
  assert (Hgoal :
    le (sub rnd (mul rnd (mul rnd (Fin base_yield) (rnd (crop_factor crop1)))
                         (Fin user_price)) (Fin e))
       (sub rnd (mul rnd (mul rnd (Fin base_yield) (rnd (crop_factor crop2)))
                         (Fin user_price)) (Fin e))).
  { apply (sub_fin_r_mono rnd Hrnd).
    destruct (Qlt_le_dec 0 base_yield) as [Hb|Hb].
    - assert (Hp : 0 < user_price) by nra.
      apply (mul_pos_r_mono rnd Hrnd); [done|].
      by apply (mul_pos_l_mono rnd Hrnd).
    - assert (Hb' : base_yield < 0).
      { destruct (Qlt_le_dec base_yield 0) as [|Hb0]; [done|].
        assert (Hz : base_yield == 0) by lra. rewrite Hz in Hpos. lra. }
      assert (Hp : user_price < 0) by nra.
      apply (mul_neg_r_anti rnd Hrnd); [done|].
      by apply (mul_neg_l_anti rnd Hrnd). }
  split_and!.
  - exact Hgoal.
  - revert Hgoal. unfold le.
    destruct (sub rnd _ (Fin e)), (sub rnd _ (Fin e)); try done.
    intros H. float_cmp. lra.
  - unfold crop_factor. by intros ->.
Qed.

End OnFloats.
End FlFacts.

(** ** The engine is the program on floats without rounding *)

Section Agreement.
Context (str_to_float : string → option Q).

(** A value that is not one of the texts denoting NaN or an infinity. *)
Definition plain (v : pyval) : Prop :=
  ∀ s, v = PStr s → Fl.special_value s = None.

Lemma to_float_exact v :
  plain v →
  Fl.to_float Fl.exact str_to_float v = Fl.Fin (to_float str_to_float v).
Proof.
  intros Hv. unfold Fl.to_float, to_float, Fl.py_float, py_float, Fl.exact.
  destruct v as [|b|z|q|s|l|kvs]; try reflexivity.
  - by destruct (int_overflows z).
  - rewrite (Hv s eq_refl). by destruct (str_to_float s).
Qed.

Lemma fixed_expense_exact data :
  Forall (λ k, plain (dict_get data k)) ["fertilizer"; "pesticide"; "seed"; "other"]%string →
  Fl.fixed_expense Fl.exact str_to_float data
    = Fl.Fin (fixed_expense str_to_float data).
Proof.
  rewrite !Forall_cons. intros (Hf & Hp & Hs & Ho & _).
  unfold Fl.fixed_expense, fixed_expense.
  by rewrite !to_float_exact.
Qed.

(** Without rounding and on plain cost entries, a candidate of the program
    on floats is the candidate of the engine. *)
Lemma candidate_exact data user_price base_yield crop :
  Forall (λ k, plain (dict_get data k)) ["fertilizer"; "pesticide"; "seed"; "other"]%string →
  Fl.candidate Fl.exact str_to_float data (Fl.Fin user_price) (Fl.Fin base_yield) crop
    = {| Fl.Crop := Crop (candidate str_to_float data user_price base_yield crop);
         Fl.Yield :=
           Fl.Fin (Yield (candidate str_to_float data user_price base_yield crop));
         Fl.Profit :=
           Fl.Fin (Profit (candidate str_to_float data user_price base_yield crop)) |}.
Proof.
  intros Hplain. unfold Fl.candidate, candidate.
  by rewrite (fixed_expense_exact _ Hplain).
Qed.

(** Without rounding and on a plain price, the figures of the program on
    floats are those of the engine. *)
Lemma revenue_and_profit_exact data vp predicted_yield predicted_expense :
  data !! "market_price" = Some vp →
  plain vp →
  Fl.revenue_and_profit Fl.exact str_to_float data
    (Fl.Fin predicted_yield) (Fl.Fin predicted_expense)
    = let revenue := predicted_yield * to_float str_to_float vp in
      let profit := py_max (revenue - predicted_expense) 0 in
      let loss := py_max (predicted_expense - revenue) 0 in
      Ok {| Fl.revenue := Fl.Fin revenue; Fl.profit := Fl.Fin profit;
            Fl.loss := Fl.Fin loss; Fl.show_suggestions := profit >? 0 |}.
Proof.
  intros Hp Hplain. unfold Fl.revenue_and_profit.
  rewrite (getitem_Some _ _ _ Hp). cbn [fmap result_fmap mbind result_bind].
  rewrite (to_float_exact _ Hplain). cbv zeta.
  unfold Fl.py_max, py_max, Fl.sub, Fl.exact. cbn [Fl.mul Fl.neg Fl.add Fl.ltb Fl.exact].
  unfold Fl.exact.
  set (rev := predicted_yield * to_float str_to_float vp).
  change (rev + - predicted_expense) with (rev - predicted_expense).
  change (predicted_expense + - rev) with (predicted_expense - rev).
  by destruct (rev - predicted_expense <? 0), (predicted_expense - rev <? 0).
Qed.

End Agreement.

(** ** Instances and counterexamples on floats *)

(** Rounding to binary64 on known values: the floats of 0.1 and of 0.7, a
    tie that goes to the even neighbour, the largest float and the first
    value that overflows, the smallest subnormal and half of it. *)
Example round64_known_values :
  Fl.eqb (Fl.round64 0.1) (Fl.Fin (3602879701896397 # 36028797018963968)) = true ∧
  Fl.eqb (Fl.round64 0.7) (Fl.Fin (3152519739159347 # 4503599627370496)) = true ∧
  Fl.eqb (Fl.round64 (2 ^ 53 + 1)) (Fl.Fin (2 ^ 53)) = true ∧
  Fl.eqb (Fl.round64 (2 ^ 53 + 3)) (Fl.Fin (2 ^ 53 + 4)) = true ∧
  Fl.eqb (Fl.round64 (2 ^ 1024 - 2 ^ 970 - 1)) (Fl.Fin (2 ^ 1024 - 2 ^ 971)) = true ∧
  Fl.round64 (2 ^ 1024 - 2 ^ 970) = Fl.PosInf ∧
  Fl.eqb (Fl.round64 (2 ^ (-1074))) (Fl.Fin (2 ^ (-1074))) = true ∧
  Fl.eqb (Fl.round64 (2 ^ (-1075))) (Fl.Fin 0) = true ∧
  Fl.eqb (Fl.mul Fl.round64 (Fl.Fin 500) (Fl.round64 0.7)) (Fl.Fin 350) = true ∧
  Fl.eqb (Fl.round64 (10 ^ 20 + 3900)) (Fl.Fin (10 ^ 20)) = true.
Proof. repeat split; vm_compute; reflexivity. Qed.

(** What [float] gives on the texts of the special values, on a numeral
    beyond the largest float and on an integer beyond it. *)
Example to_float_special_values :
  Fl.to_float Fl.round64 parse_decimal (PStr " NaN ") = Fl.NaN ∧
  Fl.to_float Fl.round64 parse_decimal (PStr "-inf") = Fl.NegInf ∧
  Fl.to_float Fl.round64 parse_decimal (PStr "Infinity") = Fl.PosInf ∧
  Fl.to_float Fl.round64 parse_decimal (PFloat (10 ^ 400)) = Fl.PosInf ∧
  Fl.to_float Fl.round64 parse_decimal (PInt (10 ^ 400)) = Fl.Fin 0.0 ∧
  Fl.to_float Fl.round64 parse_decimal (PStr "abc") = Fl.Fin 0.0.
Proof. repeat split; vm_compute; reflexivity. Qed.

(** The benign request with a price that is not a number, with an infinite
    price, with a seed expense so large in magnitude that it absorbs every
    revenue, and with a seed expense that is not a number. *)
Definition nan_price_request : gmap string pyval :=
  <["market_price" := PStr "nan"]> sample_request.

Definition inf_price_request : gmap string pyval :=
  <["market_price" := PStr "inf"]> sample_request.

Definition nan_seed_request : gmap string pyval :=
  <["seed" := PStr "nan"]> sample_request.

Definition absorbing_request : gmap string pyval :=
  <["seed" := PFloat (- 10 ^ 20)]> sample_request.

(** The theorem on profit and loss, on the benign request with the yield
    and the expense of the stand-in predictors. *)
Lemma profit_loss_complementary_finite_witness :
  ∃ s,
    Fl.revenue_and_profit Fl.round64 parse_decimal sample_request
      (Fl.Fin 1000) (Fl.Fin 500) = Ok s ∧
    Fl.is_finite (Fl.sub Fl.round64 (Fl.revenue s) (Fl.Fin 500)) = true ∧
    Fl.profit s = Fl.py_max (Fl.sub Fl.round64 (Fl.revenue s) (Fl.Fin 500)) (Fl.Fin 0) ∧
    Fl.loss s = Fl.py_max (Fl.sub Fl.round64 (Fl.Fin 500) (Fl.revenue s)) (Fl.Fin 0) ∧
    Fl.leb (Fl.Fin 0) (Fl.profit s) = true ∧
    Fl.leb (Fl.Fin 0) (Fl.loss s) = true ∧
    (Fl.eqb (Fl.profit s) (Fl.Fin 0) = true ∨ Fl.eqb (Fl.loss s) (Fl.Fin 0) = true) ∧
    Fl.eqb (Fl.mul Fl.round64 (Fl.profit s) (Fl.loss s)) (Fl.Fin 0) = true.
Proof.
  eexists. split; [reflexivity|]. split; [vm_compute; reflexivity|].
  apply (FlFacts.profit_loss_complementary_finite Fl.round64 FlFacts.round64_rounding
           parse_decimal sample_request (Fl.Fin 1000) (Fl.Fin 500));
    [reflexivity | vm_compute; reflexivity].
Defined.

(** C9 as stated fails on a price that is not a number: with the text "nan"
    as market price the revenue, the profit and the loss are NaN, which is
    neither non-negative nor equal to zero, and so is their product. With
    the text "inf" the profit is infinite and the loss zero, and their
    product is NaN. *)
Lemma nan_price_breaks_complementarity :
  Fl.revenue_and_profit Fl.round64 parse_decimal nan_price_request
    (Fl.Fin 1000) (Fl.Fin 500)
    = Ok {| Fl.revenue := Fl.NaN; Fl.profit := Fl.NaN; Fl.loss := Fl.NaN;
            Fl.show_suggestions := false |} ∧
  Fl.leb (Fl.Fin 0) Fl.NaN = false ∧
  Fl.eqb Fl.NaN (Fl.Fin 0) = false ∧
  Fl.eqb (Fl.mul Fl.round64 Fl.NaN Fl.NaN) (Fl.Fin 0) = false ∧
  Fl.revenue_and_profit Fl.round64 parse_decimal inf_price_request
    (Fl.Fin 1000) (Fl.Fin 500)
    = Ok {| Fl.revenue := Fl.PosInf; Fl.profit := Fl.PosInf; Fl.loss := Fl.Fin 0;
            Fl.show_suggestions := true |} ∧
  Fl.mul Fl.round64 Fl.PosInf (Fl.Fin 0) = Fl.NaN.
Proof. repeat split; vm_compute; reflexivity. Qed.

(** The theorem on the figures, on the benign request. *)
Lemma figures_accounting_witness :
  ∃ s,
    Fl.revenue_and_profit Fl.round64 parse_decimal sample_request
      (Fl.Fin 1000) (Fl.Fin 500) = Ok s ∧
    Fl.revenue s
      = Fl.mul Fl.round64 (Fl.Fin 1000)
          (Fl.to_float Fl.round64 parse_decimal (dict_get sample_request "market_price")) ∧
    Fl.show_suggestions s = Fl.gtb (Fl.profit s) (Fl.Fin 0) ∧
    (∀ d, Fl.sub Fl.round64 (Fl.revenue s) (Fl.Fin 500) = Fl.Fin d →
          ∃ p l, Fl.profit s = Fl.Fin p ∧ Fl.loss s = Fl.Fin l ∧ p - l == d) ∧
    (Fl.is_nan (Fl.revenue s) = true ∨ Fl.is_nan (Fl.Fin 500) = true →
     Fl.profit s = Fl.NaN ∧ Fl.loss s = Fl.NaN ∧ Fl.show_suggestions s = false).
Proof.
  eexists. split; [reflexivity|].
  apply (FlFacts.figures_accounting Fl.round64 FlFacts.round64_rounding
           parse_decimal sample_request (Fl.Fin 1000) (Fl.Fin 500)).
  reflexivity.
Defined.

(** The theorem on the order of the candidates for banana (0.70) against
    mango (0.75, unlisted). *)
Lemma profit_order_monotone_witness :
  0 < 500 * 10 ∧
  Fl.is_finite (Fl.fixed_expense Fl.round64 parse_decimal sample_request) = true ∧
  crop_factor "banana" <= crop_factor "mango" ∧
  Fl.leb
    (Fl.Profit (Fl.candidate Fl.round64 parse_decimal sample_request
                  (Fl.Fin 10) (Fl.Fin 500) "banana"))
    (Fl.Profit (Fl.candidate Fl.round64 parse_decimal sample_request
                  (Fl.Fin 10) (Fl.Fin 500) "mango")) = true ∧
  Fl.ltb
    (Fl.Profit (Fl.candidate Fl.round64 parse_decimal sample_request
                  (Fl.Fin 10) (Fl.Fin 500) "mango"))
    (Fl.Profit (Fl.candidate Fl.round64 parse_decimal sample_request
                  (Fl.Fin 10) (Fl.Fin 500) "banana")) = false ∧
  (CROP_FACTOR !! "mango" = None → crop_factor "mango" = 0.75).
Proof.
  assert (Hfin : Fl.is_finite (Fl.fixed_expense Fl.round64 parse_decimal sample_request)
                 = true) by (vm_compute; reflexivity).
  split; [reflexivity|]. split; [exact Hfin|]. split; [discriminate|].
  pose proof (FlFacts.profit_order_monotone Fl.round64 FlFacts.round64_rounding
                parse_decimal sample_request 10 500 "banana" "mango"
                eq_refl Hfin ltac:(discriminate)) as H.
  cbv zeta in H. destruct H as (_ & _ & Hle & Hlt & _).
  split; [exact Hle|]. split; [exact Hlt|]. done.
Defined.

(** C10 as stated fails once the results are rounded: with a seed expense
    of -1e20 the revenues 3500 of banana and 3900 of rice are both absorbed
    by the subtraction, so the two profits are equal although the factor
    of banana is the smaller one. With a seed expense that is not a number
    every profit is NaN and no two profits compare. *)
Lemma absorbed_revenue_ties_profits :
  0 < 500 * 10 ∧
  crop_factor "banana" < crop_factor "rice" ∧
  Fl.leb
    (Fl.Profit (Fl.candidate Fl.round64 parse_decimal nan_seed_request
                  (Fl.Fin 10) (Fl.Fin 500) "banana"))
    (Fl.Profit (Fl.candidate Fl.round64 parse_decimal nan_seed_request
                  (Fl.Fin 10) (Fl.Fin 500) "rice")) = false ∧
  Fl.eqb
    (Fl.Profit (Fl.candidate Fl.round64 parse_decimal absorbing_request
                  (Fl.Fin 10) (Fl.Fin 500) "banana"))
    (Fl.Fin (10 ^ 20)) = true ∧
  Fl.eqb
    (Fl.Profit (Fl.candidate Fl.round64 parse_decimal absorbing_request
                  (Fl.Fin 10) (Fl.Fin 500) "rice"))
    (Fl.Fin (10 ^ 20)) = true ∧
  Fl.ltb
    (Fl.Profit (Fl.candidate Fl.round64 parse_decimal absorbing_request
                  (Fl.Fin 10) (Fl.Fin 500) "banana"))
    (Fl.Profit (Fl.candidate Fl.round64 parse_decimal absorbing_request
                  (Fl.Fin 10) (Fl.Fin 500) "rice")) = false.
Proof. repeat split; vm_compute; reflexivity. Qed.

(** ** The catalogue built at start-up *)

Module Catalog.

(** [Series.unique()]: the distinct values, in order of first appearance. *)
Definition unique_from (seen l : list string) : list string :=
  foldl (λ seen x, if bool_decide (x ∈ seen) then seen else seen ++ [x]) seen l.

Definition unique (l : list string) : list string := unique_from [] l.

(** The start-up block that sets [ALL_CROPS]. The argument is the [label]
    column of the dataset, or [None] when the file does not exist. [sorted]
    on strings is a sort for the lexicographic order of the characters;
    that order is total and antisymmetric, so the sorted list is unique. *)
Definition load_all_crops (dataset : option (list string)) : list string :=
  match dataset with
  | Some label =>
      let label := lower <$> label in
      merge_sort String.le (unique label)
  | None => []
  end.

Lemma unique_from_elem_of seen l x :
  x ∈ unique_from seen l ↔ x ∈ seen ∨ x ∈ l.
Proof.
  revert seen. induction l as [|y l IH]; intros seen; cbn.
  - rewrite elem_of_nil. tauto.
  - fold (unique_from (if bool_decide (y ∈ seen) then seen else seen ++ [y]) l).
    rewrite IH, elem_of_cons. case_bool_decide as Hy.
    + split; [tauto|]. intros [?|[->|?]]; auto.
    + rewrite elem_of_app, list_elem_of_singleton. tauto.
Qed.

Lemma unique_from_NoDup seen l : NoDup seen → NoDup (unique_from seen l).
Proof.
  revert seen. induction l as [|y l IH]; intros seen Hseen; cbn; [done|].
  apply IH. case_bool_decide as Hy; [done|].
  apply NoDup_app. split_and!; [done | | apply NoDup_singleton].
  intros x Hx ->%list_elem_of_singleton. done.
Qed.

Lemma lower_ascii_idemp c : lower_ascii (lower_ascii c) = lower_ascii c.
Proof. by destruct c as [[] [] [] [] [] [] [] []]. Qed.

Lemma lower_idemp s : lower (lower s) = lower s.
Proof.
  induction s as [|c s IH]; cbn; [done|]. by rewrite lower_ascii_idemp, IH.
Qed.

(** The catalogue of a dataset: a sorted permutation of the distinct
    lowercased labels. *)
Lemma load_all_crops_elem_of label v :
  v ∈ load_all_crops (Some label) ↔ ∃ l, l ∈ label ∧ v = lower l.
Proof.
  cbn [load_all_crops]. rewrite merge_sort_Permutation. unfold unique.
  rewrite unique_from_elem_of, elem_of_nil, list_elem_of_fmap.
  split; [intros [[]|(l & -> & Hl)]; by exists l
         | intros (l & Hl & ->); right; by exists l].
Qed.

Lemma load_all_crops_nil label :
  load_all_crops (Some label) = [] ↔ label = [].
Proof.
  split; [|by intros ->].
  intros Hnil. destruct label as [|l label]; [done|].
  assert (Hin : lower l ∈ load_all_crops (Some (l :: label))).
  { apply load_all_crops_elem_of. exists l. split; [left|done]. }
  rewrite Hnil in Hin. by apply elem_of_nil in Hin.
Qed.

(** X14. The catalogue built from a dataset is sorted, has no duplicates
    and holds exactly the lowercased labels; every entry is lowercase; its
    first entry is the least one; and it is empty exactly when the dataset
    has no row. Without the dataset file it is empty. *)
Theorem load_all_crops_catalog label :
  let ALL_CROPS := load_all_crops (Some label) in
  StronglySorted String.le ALL_CROPS ∧
  NoDup ALL_CROPS ∧
  (∀ v, v ∈ ALL_CROPS ↔ ∃ l, l ∈ label ∧ v = lower l) ∧
  Forall (λ v, lower v = v) ALL_CROPS ∧
  (∀ first v, ALL_CROPS !! 0%nat = Some first → v ∈ ALL_CROPS → String.le first v) ∧
  (ALL_CROPS = [] ↔ label = []) ∧
  load_all_crops None = [].
Proof.
  intros ALL_CROPS.
  assert (Hsorted : StronglySorted String.le ALL_CROPS)
    by (apply StronglySorted_merge_sort; apply _).
  split_and!; try done.
  - unfold ALL_CROPS. cbn [load_all_crops]. rewrite merge_sort_Permutation.
    apply unique_from_NoDup, NoDup_nil_2.
  - apply load_all_crops_elem_of.
  - apply Forall_forall. intros v (l & _ & ->)%load_all_crops_elem_of.
    apply lower_idemp.
  - intros first v Hfirst Hv.
    destruct ALL_CROPS as [|w rest]; [done|]. injection Hfirst as ->.
    apply StronglySorted_inv in Hsorted as [_ Hall].
    apply elem_of_cons in Hv as [->|Hv]; [done|].
    rewrite Forall_forall in Hall. by apply Hall.
  - apply load_all_crops_nil.
Qed.

End Catalog.

(** ** The report renderer *)

Module Report.

Local Open Scope Z_scope.

(** The exceptions the renderer can raise; [ImageError] stands for whatever
    the base64 decoder or the image library raises. *)
Inductive exn : Type :=
| KeyError (k : string)
| TypeError
| AttributeError
| IndexError
| ImageError.

Inductive outcome (A : Type) : Type :=
| Done (a : A)
| Fail (e : exn).
Arguments Done {A} a.
Arguments Fail {A} e.

#[global] Instance outcome_ret : MRet outcome := λ A a, Done a.
#[global] Instance outcome_bind : MBind outcome := λ A B f m,
  match m with
  | Done a => f a
  | Fail e => Fail e
  end.

(** An f-string: literal text and formatted values, in order. *)
Inductive piece : Type :=
| Lit (s : string)
| Val (v : pyval).

(** The calls made on the canvas. *)
Inductive op : Type :=
| SetFont (name : string) (size : Z)
| DrawString (x y : Z) (text : list piece)
| DrawImage (path : string) (x y width height : Z).

(** What the route sends back: the PDF, given by the calls that drew it, or
    status 500 with the exception caught. *)
Inductive report_response : Type :=
| SendFile (ops : list op)
| ReportError (e : exn).

(** [data[k]] on the payload. *)
Definition item (data : gmap string pyval) (k : string) : outcome pyval :=
  match data !! k with
  | Some v => Done v
  | None => Fail (KeyError k)
  end.

(** Lookup in the items of a JSON object. *)
Fixpoint dict_lookup (k : string) (kvs : list (string * pyval)) : option pyval :=
  match kvs with
  | [] => None
  | (k', v) :: rest => if String.eqb k' k then Some v else dict_lookup k rest
  end.

(** [c[k]] with a string key: only a dict can be subscripted this way. *)
Definition subscript (c : pyval) (k : string) : outcome pyval :=
  match c with
  | PDict kvs =>
      match dict_lookup k kvs with
      | Some v => Done v
      | None => Fail (KeyError k)
      end
  | _ => Fail TypeError
  end.

Fixpoint chars (s : string) : list pyval :=
  match s with
  | EmptyString => []
  | String c s' => PStr (String c EmptyString) :: chars s'
  end.

(** The values a [for] loop draws from an object: the elements of a list,
    the keys of a dict, the characters of a string; anything else is not
    iterable. *)
Definition py_iter (v : pyval) : outcome (list pyval) :=
  match v with
  | PList l => Done l
  | PDict kvs => Done (PStr <$> kvs.*1)
  | PStr s => Done (chars s)
  | _ => Fail TypeError
  end.

(** [s.split(sep)] for a separator of one character. *)
Fixpoint split (sep : ascii) (s : string) : list string :=
  match s with
  | EmptyString => [EmptyString]
  | String c s' =>
      if Ascii.eqb c sep then EmptyString :: split sep s'
      else
        match split sep s' with
        | h :: t => String c h :: t
        | [] => [String c EmptyString]
        end
  end.

Section Renderer.

(** Whether the decoder and the image library accept the base64 text: the
    chart is decoded, opened and saved without an exception. *)
Variable decode_image : string → bool.

(** The loop over [enumerate(data["Best_Crops"], start=1)]: the ordinate
    after the loop and the lines drawn. *)
Fixpoint draw_crops (idx y : Z) (items : list pyval) : outcome (Z * list op) :=
  match items with
  | [] => Done (y, [])
  | c :: rest =>
      crop ← subscript c "Crop";
      yld ← subscript c "Yield";
      profit ← subscript c "Profit";
      let line :=
        DrawString 50 y
          [Val (PInt idx); Lit ". "; Val crop; Lit "  | Yield: "; Val yld;
           Lit "  | Profit: ₹"; Val profit] in
      let y := y - 20 in
      '(y, ops) ← draw_crops (idx + 1) y rest;
      mret (y, line :: ops)
  end.

(** The "INSERT CHART IMAGE" block. *)
Definition draw_chart (data : gmap string pyval) (y : Z) : outcome (list op) :=
  match data !! "chart_image" with
  | None => Done []
  | Some (PStr s) =>
      match split "," s !! 1%nat with
      | Some img_data =>
          if decode_image img_data
          then Done [DrawImage "chart_temp.png" 50 (y - 220) 500 220]
          else Fail ImageError
      | None => Fail IndexError
      end
  | Some _ => Fail AttributeError
  end.

(** The [try] block of [download_report]. *)
Definition render (data : gmap string pyval) : outcome (list op) :=
  let y := 760 in
  let ops := [SetFont "Helvetica-Bold" 20;
              DrawString 50 y [Lit "AgriProfit AI Report"]] in
  let y := y - 40 in
  let ops := ops ++ [SetFont "Helvetica" 12] in
  v ← item data "Predicted_Crop";
  let ops := ops ++ [DrawString 50 y [Lit "Predicted Crop: "; Val v]] in
  let y := y - 20 in
  v ← item data "Predicted_Yield";
  let ops := ops ++ [DrawString 50 y [Lit "Predicted Yield: "; Val v]] in
  let y := y - 20 in
  v ← item data "Total_Expense";
  let ops := ops ++ [DrawString 50 y [Lit "Total Expense: ₹"; Val v]] in
  let y := y - 20 in
  v ← item data "Predicted_Revenue";
  let ops := ops ++ [DrawString 50 y [Lit "Predicted Revenue: ₹"; Val v]] in
  let y := y - 20 in
  v ← item data "Profit";
  let ops := ops ++ [DrawString 50 y [Lit "Profit: ₹"; Val v]] in
  let y := y - 20 in
  v ← item data "Loss";
  let ops := ops ++ [DrawString 50 y [Lit "Loss: ₹"; Val v]] in
  let y := y - 30 in
  let ops := ops ++ [SetFont "Helvetica-Bold" 14;
                     DrawString 50 y [Lit "Top 3 Recommended Crops:"]] in
  let y := y - 25 in
  let ops := ops ++ [SetFont "Helvetica" 12] in
  best ← item data "Best_Crops";
  items ← py_iter best;
  '(y, lines) ← draw_crops 1 y items;
  let ops := ops ++ lines in
  let y := y - 30 in
  chart ← draw_chart data y;
  mret (ops ++ chart).

Definition download_report (data : gmap string pyval) : report_response :=
  match render data with
  | Done ops => SendFile ops
  | Fail e => ReportError e
  end.

End Renderer.

(** The ordinates of the text lines and the frames of the images drawn. *)
Definition text_ordinates (ops : list op) : list Z :=
  omap (λ o, match o with DrawString _ y _ => Some y | _ => None end) ops.

Definition text_abscissas (ops : list op) : list Z :=
  omap (λ o, match o with DrawString x _ _ => Some x | _ => None end) ops.

Definition image_frames (ops : list op) : list (Z * Z * Z * Z) :=
  omap (λ o, match o with
             | DrawImage _ x y w h => Some (x, y, w, h)
             | _ => None
             end) ops.

End Report.

(** ** The JSON body of a response *)

Section Jsonify.

(** [format(x, ".2f")]. *)
Variable fmt2 : Q → string.

(** One element of the [Best_Crops] list of the body. *)
Definition suggestion_json (c : suggestion) : pyval :=
  PDict [ ("Crop"%string, PStr (Crop c));
          ("Yield"%string, PStr (fmt2 (Yield c) ++ " Kg/ha"));
          ("Profit"%string, PStr (fmt2 (Profit c))) ].

(** The argument of [jsonify] at the end of the handler's [try] block. *)
Definition response_json (r : Response.t) : gmap string pyval :=
  list_to_map [
    ("Predicted_Crop"%string, PStr (Response.Predicted_Crop r));
    ("Predicted_Yield"%string, PStr (fmt2 (Response.Predicted_Yield r) ++ " Kg/ha"));
    ("Total_Expense"%string, PStr (fmt2 (Response.Total_Expense r)));
    ("Predicted_Revenue"%string, PStr (fmt2 (Response.Predicted_Revenue r)));
    ("Profit"%string, PStr (fmt2 (Response.Profit r)));
    ("Loss"%string, PStr (fmt2 (Response.Loss r)));
    ("Best_Crops"%string, PList (suggestion_json <$> Response.Best_Crops r));
    ("show_suggestions"%string, PBool (Response.show_suggestions r))
  ].

End Jsonify.

(** ** Properties of the report renderer *)

Module ReportFacts.
Import Report.

Local Open Scope Z_scope.

(** A value the loop can draw: a dict with the three fields. *)
Definition crop_entry (c : pyval) : Prop :=
  match c with
  | PDict kvs =>
      is_Some (dict_lookup "Crop" kvs) ∧ is_Some (dict_lookup "Yield" kvs) ∧
      is_Some (dict_lookup "Profit" kvs)
  | _ => False
  end.

(** The keys of the payload the renderer reads with a subscript. *)
Definition report_keys : list string :=
  ["Predicted_Crop"; "Predicted_Yield"; "Total_Expense"; "Predicted_Revenue";
   "Profit"; "Loss"; "Best_Crops"]%string.

Section Facts.
Context (decode_image : string → bool).

(** The chart, when the payload has one, is text with a comma whose second
    part the image decoder accepts. *)
Definition chart_ok (data : gmap string pyval) : Prop :=
  match data !! "chart_image" with
  | None => True
  | Some (PStr s) =>
      ∃ img_data, split "," s !! 1%nat = Some img_data ∧ decode_image img_data = true
  | Some _ => False
  end.

Lemma item_Some data k v : data !! k = Some v → item data k = Done v.
Proof. unfold item. by intros ->. Qed.

Lemma item_Done_inv data k v : item data k = Done v → data !! k = Some v.
Proof. unfold item. destruct (data !! k); congruence. Qed.

Lemma outcome_bind_Done_inv {A B} (m : outcome A) (f : A → outcome B) b :
  m ≫= f = Done b → ∃ a, m = Done a ∧ f a = Done b.
Proof. destruct m; [eauto | discriminate]. Qed.

Lemma subscript_Done_inv c k v :
  subscript c k = Done v → ∃ kvs, c = PDict kvs ∧ dict_lookup k kvs = Some v.
Proof.
  destruct c; try discriminate. cbn.
  destruct (dict_lookup k kvs) eqn:Hk; [|discriminate]. intros [= ->]. eauto.
Qed.

Lemma text_ordinates_string x y t ops :
  text_ordinates (DrawString x y t :: ops) = y :: text_ordinates ops.
Proof. done. Qed.

Lemma text_abscissas_string x y t ops :
  text_abscissas (DrawString x y t :: ops) = x :: text_abscissas ops.
Proof. done. Qed.

Lemma image_frames_string x y t ops :
  image_frames (DrawString x y t :: ops) = image_frames ops.
Proof. done. Qed.

Lemma draw_crops_Done idx y items :
  Forall crop_entry items →
  ∃ lines,
    draw_crops idx y items = Done (y - 20 * Z.of_nat (length items), lines) ∧
    text_ordinates lines = (λ i : nat, y - 20 * Z.of_nat i) <$> seq 0 (length items) ∧
    Forall (λ x, x = 50) (text_abscissas lines) ∧
    image_frames lines = [].
Proof.
  intros Hitems. revert idx y.
  induction Hitems as [|c items Hc _ IH]; intros idx y.
  - exists []. cbn. split_and!; [f_equal; f_equal; lia | done | done | done].
  - destruct c; try done. destruct Hc as ([crop Hcrop] & [yld Hyld] & [profit Hprofit]).
    destruct (IH (idx + 1) (y - 20)) as (lines & Hrun & Hord & Habs & Himg).
    eexists. cbn [draw_crops subscript]. rewrite Hcrop, Hyld, Hprofit.
    cbn [mbind outcome_bind]. rewrite Hrun. cbn [mbind outcome_bind mret outcome_ret].
    split_and!.
    + f_equal. f_equal. cbn [length]. lia.
    + rewrite text_ordinates_string, Hord. cbn [length seq fmap list_fmap].
      f_equal; [lia|].
      rewrite <- fmap_S_seq, <- list_fmap_compose.
      apply list_fmap_ext. intros i x _. cbn. lia.
    + rewrite text_abscissas_string. constructor; [done | exact Habs].
    + by rewrite image_frames_string.
Qed.

Lemma draw_crops_Done_inv idx y items res :
  draw_crops idx y items = Done res → Forall crop_entry items.
Proof.
  revert idx y res. induction items as [|c items IH]; intros idx y res; [constructor|].
  cbn [draw_crops]. intros Hrun.
  apply outcome_bind_Done_inv in Hrun as (crop & Hcrop & Hrun).
  apply outcome_bind_Done_inv in Hrun as (yld & Hyld & Hrun).
  apply outcome_bind_Done_inv in Hrun as (profit & Hprofit & Hrun).
  apply outcome_bind_Done_inv in Hrun as ([y' ops] & Hrest & _).
  apply subscript_Done_inv in Hcrop as (kvs & -> & Hcrop).
  apply subscript_Done_inv in Hyld as (kvs' & [= <-] & Hyld).
  apply subscript_Done_inv in Hprofit as (kvs' & [= <-] & Hprofit).
  constructor; [cbn; eauto | by eapply IH].
Qed.

Lemma draw_chart_Done data y :
  chart_ok data →
  draw_chart decode_image data y =
    Done (if decide (is_Some (data !! "chart_image"))
          then [DrawImage "chart_temp.png" 50 (y - 220) 500 220] else []).
Proof.
  unfold chart_ok, draw_chart.
  destruct (data !! "chart_image") as [v|] eqn:Hv.
  - rewrite decide_True by eauto.
    destruct v; try done. intros (img & -> & ->). done.
  - rewrite decide_False; [done|]. by intros [? ?].
Qed.

Lemma draw_chart_Done_inv data y ops :
  draw_chart decode_image data y = Done ops → chart_ok data.
Proof.
  unfold chart_ok, draw_chart.
  destruct (data !! "chart_image") as [v|]; [|done].
  destruct v; try done.
  destruct (split "," s !! 1%nat) as [img|]; [|done].
  destruct (decode_image img) eqn:Himg; [|done]. eauto.
Qed.

(** The run of the [try] block on a payload it accepts. *)
Lemma render_Done data items :
  Forall (λ k, is_Some (data !! k)) report_keys →
  py_iter (dict_get data "Best_Crops") = Done items →
  Forall crop_entry items →
  chart_ok data →
  ∃ ops,
    render decode_image data = Done ops ∧
    text_ordinates ops =
      [760; 720; 700; 680; 660; 640; 620; 590] ++
      ((λ i : nat, 565 - 20 * Z.of_nat i) <$> seq 0 (length items)) ∧
    Forall (λ x, x = 50) (text_abscissas ops) ∧
    image_frames ops =
      if decide (is_Some (data !! "chart_image"))
      then [(50, 315 - 20 * Z.of_nat (length items), 500, 220)] else [].
Proof.
  unfold report_keys. rewrite !Forall_cons.
  intros ([v1 H1] & [v2 H2] & [v3 H3] & [v4 H4] & [v5 H5] & [v6 H6] & [best Hbest] & _)
    Hiter Hitems Hchart.
  unfold dict_get in Hiter. rewrite Hbest in Hiter.
  change (py_iter best = Done items) in Hiter.
  destruct (draw_crops_Done 1 565 items Hitems) as (lines & Hlines & Hord & Habs & Himg).
  eexists. unfold render.
  rewrite (item_Some _ _ _ H1), (item_Some _ _ _ H2), (item_Some _ _ _ H3),
    (item_Some _ _ _ H4), (item_Some _ _ _ H5), (item_Some _ _ _ H6),
    (item_Some _ _ _ Hbest).
  cbn [mbind outcome_bind]. rewrite Hiter. cbn [mbind outcome_bind].
  change (760 - 40 - 20 - 20 - 20 - 20 - 20 - 30 - 25) with 565. rewrite Hlines.
  cbn [mbind outcome_bind]. rewrite (draw_chart_Done _ _ Hchart).
  cbn [mbind outcome_bind mret outcome_ret].
  split; [reflexivity|].
  unfold text_ordinates, text_abscissas, image_frames in *.
  cbn [app omap list_omap].
  change (list_omap op ?B ?f ?l) with (omap f l).
  rewrite !omap_app, Hord, Himg.
  destruct (decide (is_Some (data !! "chart_image"))); cbn [omap list_omap app].
  - split_and!.
    + by rewrite app_nil_r.
    + rewrite app_nil_r. repeat (constructor; [done|]). exact Habs.
    + by replace (565 - 20 * Z.of_nat (length items) - 30 - 220)
        with (315 - 20 * Z.of_nat (length items)) by lia.
  - split_and!.
    + by rewrite app_nil_r.
    + rewrite app_nil_r. repeat (constructor; [done|]). exact Habs.
    + done.
Qed.

Lemma render_Done_inv data ops :
  render decode_image data = Done ops →
  Forall (λ k, is_Some (data !! k)) report_keys ∧
  ∃ items,
    py_iter (dict_get data "Best_Crops") = Done items ∧
    Forall crop_entry items ∧ chart_ok data.
Proof.
  unfold render. cbv zeta. intros H.
  apply outcome_bind_Done_inv in H as (v1 & H1%item_Done_inv & H).
  apply outcome_bind_Done_inv in H as (v2 & H2%item_Done_inv & H).
  apply outcome_bind_Done_inv in H as (v3 & H3%item_Done_inv & H).
  apply outcome_bind_Done_inv in H as (v4 & H4%item_Done_inv & H).
  apply outcome_bind_Done_inv in H as (v5 & H5%item_Done_inv & H).
  apply outcome_bind_Done_inv in H as (v6 & H6%item_Done_inv & H).
  apply outcome_bind_Done_inv in H as (best & Hbest%item_Done_inv & H).
  apply outcome_bind_Done_inv in H as (items & Hiter & H).
  apply outcome_bind_Done_inv in H as ([y lines] & Hlines & H).
  apply outcome_bind_Done_inv in H as (chart & Hchart & _).
  split.
  - unfold report_keys. repeat constructor; by eexists.
  - exists items. unfold dict_get. rewrite Hbest. split_and!; [done | |].
    + by eapply draw_crops_Done_inv.
    + by eapply draw_chart_Done_inv.
Qed.

(** X16. The renderer sends the PDF exactly when the payload has the six
    figures and the suggestion list, the suggestion list can be iterated
    and each of its elements is a dict with the fields Crop, Yield and
    Profit, and the chart, if the payload has one, can be decoded. In every
    other case the request ends in the error response. *)
Theorem download_report_succeeds_iff data :
  (∃ ops, download_report decode_image data = SendFile ops) ↔
  Forall (λ k, is_Some (data !! k)) report_keys ∧
  (∃ items, py_iter (dict_get data "Best_Crops") = Done items ∧
            Forall crop_entry items) ∧
  chart_ok data.
Proof.
  unfold download_report. split.
  - intros [ops Hops]. destruct (render decode_image data) as [ops'|e] eqn:Hrun; [|done].
    apply render_Done_inv in Hrun as (Hkeys & items & Hiter & Hitems & Hchart).
    eauto 10.
  - intros (Hkeys & (items & Hiter & Hitems) & Hchart).
    destruct (render_Done data items Hkeys Hiter Hitems Hchart) as (ops & -> & _).
    by eexists.
Qed.

(** X17. In a report that is sent, every line of text starts at abscissa
    50; the title and the six figures stand at the ordinates 760, 720, 700,
    680, 660, 640 and 620, the heading of the suggestions at 590, and the
    i-th suggestion (from 0) at 565 - 20 i; the chart, when there is one,
    is the only image, 500 by 220 at (50, 315 - 20 n) for n suggestions,
    so that its upper edge lies below every line of text, and its lower
    edge is on the page exactly when there are at most 15 suggestions. *)
Theorem report_layout data ops :
  download_report decode_image data = SendFile ops →
  ∃ items,
    py_iter (dict_get data "Best_Crops") = Done items ∧
    let n := Z.of_nat (length items) in
    text_ordinates ops =
      [760; 720; 700; 680; 660; 640; 620; 590] ++
      ((λ i : nat, 565 - 20 * Z.of_nat i) <$> seq 0 (length items)) ∧
    Forall (λ x, x = 50) (text_abscissas ops) ∧
    image_frames ops =
      (if decide (is_Some (data !! "chart_image"))
       then [(50, 315 - 20 * n, 500, 220)] else []) ∧
    Forall (λ y, (315 - 20 * n) + 220 < y) (text_ordinates ops) ∧
    (0 <= 315 - 20 * n ↔ n <= 15).
Proof.
  unfold download_report.
  destruct (render decode_image data) as [ops'|e] eqn:Hrun; [|done]. intros [= <-].
  pose proof Hrun as (Hkeys & items & Hiter & Hitems & Hchart)%render_Done_inv.
  destruct (render_Done data items Hkeys Hiter Hitems Hchart)
    as (ops & Hrun' & Hord & Habs & Himg).
  assert (ops = ops') as -> by congruence.
  exists items. split; [done|]. cbv zeta. split_and!; [done | done | done | | lia].
  rewrite Hord. apply Forall_app. split.
  - repeat (constructor; [lia|]). constructor.
  - apply Forall_fmap, Forall_forall. intros i Hi%elem_of_seq. cbn. lia.
Qed.

End Facts.

(** The body of a prediction as a payload of the renderer. *)
Section OfPrediction.
Context (fmt2 : Q → string) (decode_image : string → bool).

Lemma suggestion_json_entry c : crop_entry (suggestion_json fmt2 c).
Proof. cbn. split_and!; by eexists. Qed.

Lemma response_json_keys r :
  Forall (λ k, is_Some (response_json fmt2 r !! k)) report_keys.
Proof. unfold report_keys. repeat constructor; by eexists. Qed.

Lemma response_json_best r :
  dict_get (response_json fmt2 r) "Best_Crops"
  = PList (suggestion_json fmt2 <$> Response.Best_Crops r).
Proof. reflexivity. Qed.

Lemma response_json_no_chart r : response_json fmt2 r !! "chart_image" = None.
Proof. reflexivity. Qed.

End OfPrediction.
End ReportFacts.

(** ** From a prediction to its report *)

Section PredictionReport.
Import Report ReportFacts.

Context (str_to_float : string → option Q) (ALL_CROPS : list string).
Context (rf_crop : features → result Z) (label_encoder : Z → result string).
Context (rf_yield : features → result Q).
Context (rf_expense : pyval → pyval → pyval → pyval → result Q).
Context (fmt2 : Q → string) (decode_image : string → bool).

Local Open Scope Z_scope.

(** X18. The body of every prediction is a payload the renderer accepts:
    the report has the eight fixed lines and one line for each of the at
    most three suggestions, none of them below ordinate 525, and no image;
    when a chart that can be decoded is added to the payload, the report
    also holds the chart, whose lower edge is at ordinate 255 or above. *)
Theorem prediction_report_fits data r :
  api_predict_all str_to_float ALL_CROPS rf_crop label_encoder rf_yield rf_expense data
    = Json200 r →
  let payload := response_json fmt2 r in
  let n := Z.of_nat (length (Response.Best_Crops r)) in
  n <= 3 ∧
  (∃ ops,
     download_report decode_image payload = SendFile ops ∧
     Z.of_nat (length (text_ordinates ops)) = 8 + n ∧
     Forall (λ y, 525 <= y) (text_ordinates ops) ∧
     image_frames ops = []) ∧
  (∀ s img_data,
     split "," s !! 1%nat = Some img_data →
     decode_image img_data = true →
     ∃ ops,
       download_report decode_image (<["chart_image" := PStr s]> payload)
         = SendFile ops ∧
       Forall (λ y, 525 <= y) (text_ordinates ops) ∧
       image_frames ops = [(50, 315 - 20 * n, 500, 220)] ∧
       255 <= 315 - 20 * n).
Proof.
  intros Hr payload n. subst payload.
  assert (Hn : n <= 3).
  { pose proof (response_best_crops_length _ _ _ _ _ _ _ _ Hr). lia. }
  set (items := suggestion_json fmt2 <$> Response.Best_Crops r).
  assert (Hlen : Z.of_nat (length items) = n) by (unfold items; by rewrite length_fmap).
  assert (Hitems : Forall crop_entry items).
  { unfold items. apply Forall_fmap, Forall_forall. intros c _.
    apply suggestion_json_entry. }
  assert (Hlines : ∀ m : nat, Z.of_nat m <= 3 →
            Forall (λ y, 525 <= y)
              ([760; 720; 700; 680; 660; 640; 620; 590] ++
               ((λ i : nat, 565 - 20 * Z.of_nat i) <$> seq 0 m))).
  { intros m Hm. apply Forall_app. split.
    - repeat (constructor; [lia|]). constructor.
    - apply Forall_fmap, Forall_forall. intros i Hi%elem_of_seq. cbn. lia. }
  split; [done|]. split.
  - destruct (render_Done decode_image (response_json fmt2 r) items) as (ops & Hrun & Hord & _ & Himg).
    { apply response_json_keys. }
    { reflexivity. }
    { done. }
    { unfold chart_ok. by rewrite response_json_no_chart. }
    exists ops. unfold download_report. rewrite Hrun. split_and!; [done | | |].
    + rewrite Hord, length_app, length_fmap, length_seq. cbn [length]. lia.
    + rewrite Hord. apply Hlines. lia.
    + rewrite Himg. rewrite decide_False; [done|].
      rewrite response_json_no_chart. by intros [? ?].
  - intros s img Hsplit Hdecode.
    destruct (render_Done decode_image (<["chart_image" := PStr s]> (response_json fmt2 r)) items)
      as (ops & Hrun & Hord & _ & Himg).
    { eapply Forall_impl; [apply (response_json_keys fmt2 r)|].
      intros k [v Hv]. destruct (decide (k = "chart_image"%string)) as [->|Hne].
      - by rewrite lookup_insert_eq.
      - rewrite lookup_insert_ne by done. by exists v. }
    { unfold dict_get. by rewrite lookup_insert_ne. }
    { done. }
    { unfold chart_ok. rewrite lookup_insert_eq. eauto. }
    exists ops. unfold download_report. rewrite Hrun. split_and!; [done | | | lia].
    + rewrite Hord. apply Hlines. lia.
    + rewrite Himg, decide_True, Hlen; [done|]. rewrite lookup_insert_eq. by eexists.
Qed.

End PredictionReport.

(** ** Accounts and the login gate *)

Module Auth.

Local Open Scope Z_scope.

(** A row of the [User] table. *)
Record user : Type := {
  user_id : Z;
  username : string;
  email : string;
  password : string
}.

(** The values the routes store in the session. *)
Inductive sval : Type :=
| SInt (z : Z)
| SStr (s : string).

(** The table and the session of the client. *)
Record state : Type := {
  users : list user;
  session : gmap string sval
}.

Inductive method : Type := GET | POST.

(** A request: its method and its form; [form.get] gives [None] for a
    field that was not sent. *)
Record request : Type := {
  req_method : method;
  form : gmap string string
}.

(** What a route returns. [ServerError] is the 500 page Flask sends when the
    view raises: none of these routes catches an exception. *)
Inductive page : Type :=
| RenderTemplate (name : string)
| Redirect (endpoint : string)
| ServerError.

(** The page and the messages flashed while serving the request, each with
    its category. *)
Record reply : Type := {
  body : page;
  flashed : list (string * string)
}.

(** [User.query.filter_by(email=email).first()]: no row has a null email,
    so a missing form field finds nobody. *)
Definition find_by_email (email_field : option string) (table : list user)
  : option user :=
  match email_field with
  | Some e => List.find (λ u, String.eqb (email u) e) table
  | None => None
  end.

(** The key given to a new row. *)
Definition next_id (table : list user) : Z :=
  1 + foldr Z.max 0 (user_id <$> table).

Section Routes.

(** The password hashing of the library; [None] stands for the exception
    it raises, for instance on a password that is not text. *)
Variable generate_password_hash : option string → option string.
Variable check_password_hash : string → option string → option bool.

Definition login (s : state) (req : request) : state * reply :=
  match req_method req with
  | POST =>
      let email := form req !! "email" in
      let password := form req !! "password" in
      let user := find_by_email email (users s) in
      match user with
      | Some u =>
          match check_password_hash (Auth.password u) password with
          | Some true =>
              let session := <["user_id" := SInt (user_id u)]> (session s) in
              let session := <["username" := SStr (username u)]> session in
              ({| users := users s; session := session |},
               {| body := Redirect "prediction";
                  flashed := [("Login successful", "success")]%string |})
          | Some false =>
              (s, {| body := RenderTemplate "login.html";
                     flashed := [("Invalid email or password", "error")]%string |})
          | None => (s, {| body := ServerError; flashed := [] |})
          end
      | None =>
          (s, {| body := RenderTemplate "login.html";
                 flashed := [("Invalid email or password", "error")]%string |})
      end
  | GET => (s, {| body := RenderTemplate "login.html"; flashed := [] |})
  end.

Definition register (s : state) (req : request) : state * reply :=
  match req_method req with
  | POST =>
      let username := form req !! "username" in
      let email := form req !! "email" in
      let password := form req !! "password" in
      match find_by_email email (users s) with
      | Some _ =>
          (s, {| body := Redirect "register";
                 flashed := [("Email already exists", "error")]%string |})
      | None =>
          match generate_password_hash password with
          | Some hashed_pw =>
              (* the columns are not nullable: the commit fails on a missing field *)
              match username, email with
              | Some name, Some mail =>
                  let new_user :=
                    {| user_id := next_id (users s); Auth.username := name;
                       Auth.email := mail; Auth.password := hashed_pw |} in
                  ({| users := users s ++ [new_user]; session := session s |},
                   {| body := Redirect "login";
                      flashed :=
                        [("Registration successful, please login.", "success")]%string |})
              | _, _ => (s, {| body := ServerError; flashed := [] |})
              end
          | None => (s, {| body := ServerError; flashed := [] |})
          end
      end
  | GET => (s, {| body := RenderTemplate "register.html"; flashed := [] |})
  end.

End Routes.

Definition logout (s : state) : state * reply :=
  ({| users := users s; session := ∅ |},
   {| body := Redirect "login";
      flashed := [("Logged out successfully", "success")]%string |}).

Definition prediction (s : state) : page :=
  match session s !! "user_id" with
  | None => Redirect "login"
  | Some _ => RenderTemplate "prediction.html"
  end.

End Auth.

(** ** Properties of the accounts *)

Module AuthFacts.
Import Auth.

Local Open Scope Z_scope.



Lemma find_by_email_last e table u :
  find_by_email (Some e) table = None → email u = e →
  find_by_email (Some e) (table ++ [u]) = Some u.
Proof.
  cbn. intros Hnone Hu. induction table as [|w table IH]; cbn in *.
  - by rewrite Hu, String.eqb_refl.
  - destruct (String.eqb (email w) e); [done | by apply IH].
Qed.


Section Facts.
Context (generate_password_hash : option string → option string).
Context (check_password_hash : string → option string → option bool).


Lemma login_redirect_session s req :
  body (login check_password_hash s req).2 = Redirect "prediction" →
  ∃ u, session (login check_password_hash s req).1
       = <["username" := SStr (username u)]>
           (<["user_id" := SInt (user_id u)]> (session s)).
Proof.
  unfold login. cbv zeta.
  destruct (req_method req); [done|].
  destruct (find_by_email _ _) as [u|]; [|done].
  destruct (check_password_hash _ _) as [[]|]; [|done|done].
  intros _. by exists u.
Qed.


(** X21. The prediction page is served exactly to a session that holds a
    user key: a login that redirects to the page opens it, a logout closes
    it whatever the session held, and registration leaves it as it is. *)
Theorem prediction_gate s req :
  (prediction s = Redirect "login" ↔ session s !! "user_id" = None) ∧
  (prediction s = RenderTemplate "prediction.html" ↔
     is_Some (session s !! "user_id")) ∧
  prediction (logout s).1 = Redirect "login" ∧
  (body (login check_password_hash s req).2 = Redirect "prediction" →
   prediction (login check_password_hash s req).1
     = RenderTemplate "prediction.html") ∧
  prediction (register generate_password_hash s req).1 = prediction s.
Proof.
  split_and!.
  - unfold prediction. destruct (session s !! "user_id"); split; done.
  - unfold prediction. destruct (session s !! "user_id"); split;
      [by eexists | done | done | by intros [? ?]].
  - done.
  - intros Hbody. destruct (login_redirect_session s req Hbody) as (u & Hu).
    unfold prediction. by rewrite Hu, lookup_insert_ne, lookup_insert_eq.
  - unfold prediction, register. cbv zeta.
    destruct (req_method req); [done|].
    destruct (find_by_email _ _); [done|].
    destruct (generate_password_hash _); [|done].
    destruct (form req !! "username"); [|done].
    by destruct (form req !! "email").
Qed.

Lemma find_by_email_fresh e table :
  e ∉ email <$> table → find_by_email (Some e) table = None.
Proof.
  cbn. induction table as [|w table IH]; [done|].
  rewrite fmap_cons, not_elem_of_cons. intros [Hne Hrest]. cbn.
  destruct (String.eqb (email w) e) eqn:Heq; [|by apply IH].
  apply String.eqb_eq in Heq. congruence.
Qed.

(** X22. Registering and then logging in with the same email and password
    works: for an email that no row has, a registration with all three
    fields whose password the library hashes adds the row and redirects to
    the login page; when the library accepts that hash for that password,
    the login that follows redirects to the prediction page, stores the
    key and the name of the new row in the session, and the prediction
    page is served. *)
Theorem register_then_login s name mail pw hashed reg_req login_req :
  mail ∉ email <$> users s →
  req_method reg_req = POST →
  form reg_req !! "username" = Some name →
  form reg_req !! "email" = Some mail →
  form reg_req !! "password" = Some pw →
  generate_password_hash (Some pw) = Some hashed →
  check_password_hash hashed (Some pw) = Some true →
  req_method login_req = POST →
  form login_req !! "email" = Some mail →
  form login_req !! "password" = Some pw →
  let registered := register generate_password_hash s reg_req in
  let logged_in := login check_password_hash registered.1 login_req in
  body registered.2 = Redirect "login" ∧
  users registered.1 =
    users s ++ [{| user_id := next_id (users s); username := name;
                   email := mail; password := hashed |}] ∧
  body logged_in.2 = Redirect "prediction" ∧
  session logged_in.1 !! "user_id" = Some (SInt (next_id (users s))) ∧
  session logged_in.1 !! "username" = Some (SStr name) ∧
  prediction logged_in.1 = RenderTemplate "prediction.html".
Proof.
  intros Hfresh%find_by_email_fresh Hm Hname Hmail Hpw Hgen Hcheck Hm' Hmail' Hpw'.
  cbv zeta. unfold register. cbv zeta.
  rewrite Hm, Hname, Hmail, Hpw, Hfresh, Hgen. cbn [fst snd body users session].
  unfold login. cbv zeta. cbn [users session].
  rewrite Hm', Hmail', Hpw'.
  rewrite (find_by_email_last mail (users s)
             {| user_id := next_id (users s); username := name;
                email := mail; password := hashed |} Hfresh eq_refl).
  cbn [password]. rewrite Hcheck. cbn [fst snd body session user_id username].
  unfold prediction. cbn [session].
  split_and!; try done.
  - by rewrite lookup_insert_ne, lookup_insert_eq.
  - by rewrite lookup_insert_eq.
  - by rewrite lookup_insert_ne, lookup_insert_eq.
Qed.

End Facts.
End AuthFacts.

(** ** The handler on the catalogue of a dataset *)

Section HandlerOnDataset.

Context (str_to_float : string → option Q).
Context (rf_crop : features → result Z) (label_encoder : Z → result string).
Context (rf_yield : features → result Q).
Context (rf_expense : pyval → pyval → pyval → pyval → result Q).

(** X15. When the dataset has at least one row, the handler, run on the
    catalogue built at start-up, answers exactly the requests that carry
    the seven feature keys and the market price and on which the predictors
    return; its only errors are the [KeyError] of a key the request lacks
    and the exception of a predictor: the resolver cannot fail. *)
Theorem handler_on_dataset label data :
  label ≠ [] →
  let handler :=
    api_predict_all str_to_float (Catalog.load_all_crops (Some label))
      rf_crop label_encoder rf_yield rf_expense in
  ((∃ r, handler data = Json200 r) ↔
     Forall (λ k, is_Some (data !! k)) required_keys ∧
     predictors_return str_to_float rf_crop label_encoder rf_yield rf_expense data) ∧
  (∀ e, handler data = Error500 e →
        (∃ k, k ∈ required_keys ∧ data !! k = None ∧ e = KeyError k) ∨
        predictor_raises str_to_float rf_crop label_encoder rf_yield rf_expense
          data e).
Proof.
  intros Hlabel handler. subst handler.
  assert (Hcat : Catalog.load_all_crops (Some label) ≠ []).
  { intros Hnil. apply Hlabel. by apply Catalog.load_all_crops_nil. }
  split.
  - split.
    + intros [r (X & vp & crop_raw & crop & raw_yield & raw_exp
                 & HX & Hp & Hl & _ & Hy & He & _)%api_predict_all_inv%predict_all_inv].
      split; [|by exists X, crop_raw, raw_yield, raw_exp].
      unfold required_keys. rewrite Forall_app, Forall_singleton. split; [|by eexists].
      apply ml_input_inv in HX
        as (vN & vP & vK & vt & vh & vph & vr & HN & HP & HK & Ht & Hh & Hph & Hr & _).
      unfold feature_keys. repeat constructor; by eexists.
    + unfold required_keys. rewrite Forall_app, Forall_singleton.
      intros [[Hkeys [vp Hp]] (X & crop_raw & raw_yield & raw_exp & HX & Hl & Hy & He)].
      destruct (predict_all_Ok str_to_float (Catalog.load_all_crops (Some label))
                  rf_crop label_encoder rf_yield rf_expense data X vp
                  crop_raw raw_yield raw_exp HX Hp Hl Hy He)
        as [crop Hrun]; [by right|].
      eexists. unfold api_predict_all. by rewrite Hrun.
  - intros e Herr%api_predict_all_Error_inv.
    apply predict_all_Raise_inv in Herr as [Hkey|[(_ & Hnil & _)|Hpred]];
      [by left | done | by right].
Qed.

End HandlerOnDataset.

(** ** Instances of the further properties *)

(** Stand-ins for the number formatting and the image decoder. *)
Definition sample_fmt2 (q : Q) : string := "0.00".
Definition sample_decode_image (img_data : string) : bool :=
  negb (String.eqb img_data "").

(** A request under the failure scenario with a still higher temperature. *)
Definition hotter_request : gmap string pyval :=
  <["temperature" := PInt 60]> failure_request.

Definition hotter_frame : features :=
  {| f_N := 10; f_P := 10; f_K := 10; f_temperature := 60;
     f_humidity := 50; f_ph := 4; f_rainfall := 10 |}.

(** The error on a request without the key N. *)
Lemma api_predict_all_error_kinds_witness :
  sample_api (delete "N" sample_request) = Error500 (KeyError "N") ∧
  ((∃ k, k ∈ required_keys ∧ delete "N" sample_request !! k = None ∧
         KeyError "N" = KeyError k) ∨
   (KeyError "N" = IndexError ∧ sample_crops = [] ∧
    check_crop_failure parse_decimal (delete "N" sample_request) = Ok false) ∨
   predictor_raises parse_decimal sample_rf_crop sample_label_encoder
     sample_rf_yield sample_rf_expense (delete "N" sample_request) (KeyError "N")) ∧
  (∀ payload, (∀ kvs, payload ≠ PDict kvs) →
              api_predict_all_payload parse_decimal sample_crops sample_rf_crop
                sample_label_encoder sample_rf_yield sample_rf_expense payload
                = Error500 AttributeError).
Proof.
  split; [reflexivity|].
  apply (api_predict_all_error_kinds parse_decimal sample_crops sample_rf_crop
           sample_label_encoder sample_rf_yield sample_rf_expense
           (delete "N" sample_request) (KeyError "N")).
  reflexivity.
Defined.

(** The handler's answer when the crop predictor refuses the frame, and its
    answer to a payload that is a list. *)
Example predictor_error_is_reported :
  api_predict_all parse_decimal sample_crops strict_rf_crop sample_label_encoder
    sample_rf_yield sample_rf_expense (<["N" := PFloat (10 ^ 39)]> sample_request)
    = Error500 ValueError ∧
  api_predict_all_payload parse_decimal sample_crops sample_rf_crop
    sample_label_encoder sample_rf_yield sample_rf_expense (PList [PInt 1])
    = Error500 AttributeError.
Proof. split; reflexivity. Qed.


(** The crop of the response to the benign request. *)
Lemma predicted_crop_sentinel_or_catalog_witness :
  ∃ r,
    sample_api sample_request = Json200 r ∧
    ((check_crop_failure parse_decimal sample_request = Ok true ∧
      Response.Predicted_Crop r = "Crop Failure"%string) ∨
     (check_crop_failure parse_decimal sample_request = Ok false ∧
      Response.Predicted_Crop r ∈ sample_crops)).
Proof.
  eexists. split; [reflexivity|].
  apply (predicted_crop_sentinel_or_catalog parse_decimal sample_crops sample_rf_crop
           sample_label_encoder sample_rf_yield sample_rf_expense sample_request).
  reflexivity.
Defined.


(** The suggestions of the response to the benign request. *)
Lemma suggestions_only_with_profit_witness :
  ∃ r,
    sample_api sample_request = Json200 r ∧
    (Response.show_suggestions r = true ↔
       Response.Total_Expense r < Response.Predicted_Revenue r) ∧
    (Response.show_suggestions r = true ↔ 0 < Response.Profit r) ∧
    (Response.show_suggestions r = false → Response.Best_Crops r = []) ∧
    (Response.show_suggestions r = true →
       Response.Best_Crops r =
         suggest_best_crops parse_decimal sample_crops
           (normalize_costs parse_decimal sample_request)
           (to_float parse_decimal (dict_get sample_request "market_price"))
           (Response.Predicted_Yield r)) ∧
    (Response.Best_Crops r ≠ [] → Response.Loss r == 0).
Proof.
  eexists. split; [reflexivity|].
  apply (suggestions_only_with_profit parse_decimal sample_crops sample_rf_crop
           sample_label_encoder sample_rf_yield sample_rf_expense sample_request).
  reflexivity.
Defined.

(** The yield correction under the failure scenario. *)
Lemma yield_correction_identity_iff_witness :
  ml_input parse_decimal failure_request = Ok failure_frame ∧
  ∃ c,
    apply_yield_correction parse_decimal 1000 failure_request = Ok (1000 * c) ∧
    0.012 <= c ∧
    (c == 1 ↔ ¬ yield_stress failure_frame) ∧
    (yield_stress failure_frame → c <= 0.80).
Proof.
  split; [reflexivity|].
  apply (yield_correction_identity_iff parse_decimal failure_request failure_frame 1000).
  reflexivity.
Defined.

(** The expense correction under the failure scenario. *)
Lemma expense_correction_identity_iff_witness :
  ml_input parse_decimal failure_request = Ok failure_frame ∧
  ∃ c,
    apply_expense_correction parse_decimal 500 failure_request = Ok (500 * c) ∧
    c <= 1.794 ∧
    (c == 1 ↔ ¬ expense_stress failure_frame) ∧
    (expense_stress failure_frame → 1.15 <= c).
Proof.
  split; [reflexivity|].
  apply (expense_correction_identity_iff parse_decimal failure_request failure_frame 500).
  reflexivity.
Defined.

(** The shares of a base yield of 500. *)
Lemma suggested_yield_share_witness :
  0 <= 500 ∧
  (∀ crop, 0.64 <= crop_factor crop ∧ crop_factor crop <= 0.78) ∧
  Forall (λ c, 0.64 * 500 <= Yield c ∧ Yield c <= 0.78 * 500)
         (suggest_best_crops parse_decimal sample_crops
            (normalize_costs parse_decimal sample_request) 10 500).
Proof.
  split; [discriminate|].
  apply (suggested_yield_share parse_decimal sample_crops
           (normalize_costs parse_decimal sample_request) 10 500).
  discriminate.
Defined.

(** The resolver on the five-crop catalogue, whose entries are lowercase
    and trimmed. *)
Lemma adjust_to_valid_crop_idempotent_witness :
  Forall (λ v, strip (lower v) = v) sample_crops ∧
  adjust_to_valid_crop "  Rices " sample_crops = Ok "rice"%string ∧
  adjust_to_valid_crop "rice" sample_crops = Ok "rice"%string ∧
  ∀ v, v ∈ sample_crops → adjust_to_valid_crop v sample_crops = Ok v.
Proof.
  split; [by repeat constructor|]. split; [reflexivity|].
  apply (adjust_to_valid_crop_idempotent "  Rices " sample_crops "rice").
  - by repeat constructor.
  - reflexivity.
Defined.

(** A label of blanks only. *)
Lemma adjust_to_valid_crop_blank_witness :
  strip (lower "   ") = EmptyString ∧
  (EmptyString ∉ sample_crops) ∧
  adjust_to_valid_crop "   " sample_crops = Ok "banana"%string.
Proof.
  assert (Hnot : EmptyString ∉ sample_crops).
  { intros H. unfold sample_crops in H.
    repeat (apply elem_of_cons in H as [H|H]; [discriminate H|]).
    by apply elem_of_nil in H. }
  split; [reflexivity|]. split; [exact Hnot|].
  apply (adjust_to_valid_crop_blank "   " "banana"
           ["maize"; "mango"; "rice"; "wheat"]%string).
  - reflexivity.
  - exact Hnot.
Defined.

(** The failure scenario and the same scenario at 60 degrees. *)
Lemma check_crop_failure_monotone_witness :
  ml_input parse_decimal failure_request = Ok failure_frame ∧
  ml_input parse_decimal hotter_request = Ok hotter_frame ∧
  check_crop_failure parse_decimal failure_request = Ok true ∧
  check_crop_failure parse_decimal hotter_request = Ok true.
Proof.
  split; [reflexivity|]. split; [reflexivity|]. split; [reflexivity|].
  apply (check_crop_failure_monotone parse_decimal failure_request hotter_request
           failure_frame hotter_frame);
    first [reflexivity | discriminate].
Defined.

(** The handler on the catalogue of a dataset of three rows. *)
Lemma handler_on_dataset_witness :
  ["Rice"; "wheat"; "rice"]%string ≠ [] ∧
  let handler :=
    api_predict_all parse_decimal
      (Catalog.load_all_crops (Some ["Rice"; "wheat"; "rice"]%string))
      sample_rf_crop sample_label_encoder sample_rf_yield sample_rf_expense in
  ((∃ r, handler sample_request = Json200 r) ↔
     Forall (λ k, is_Some (sample_request !! k)) required_keys ∧
     predictors_return parse_decimal sample_rf_crop sample_label_encoder
       sample_rf_yield sample_rf_expense sample_request) ∧
  (∀ e, handler sample_request = Error500 e →
        (∃ k, k ∈ required_keys ∧ sample_request !! k = None ∧ e = KeyError k) ∨
        predictor_raises parse_decimal sample_rf_crop sample_label_encoder
          sample_rf_yield sample_rf_expense sample_request e).
Proof.
  split; [done|].
  apply (handler_on_dataset parse_decimal sample_rf_crop sample_label_encoder
           sample_rf_yield sample_rf_expense ["Rice"; "wheat"; "rice"]%string
           sample_request).
  done.
Defined.

(** A payload of the report route with two suggestions and a chart. *)
Definition sample_payload : gmap string pyval :=
  list_to_map [
    ("Predicted_Crop"%string, PStr "rice");
    ("Predicted_Yield"%string, PStr "1000.00 Kg/ha");
    ("Total_Expense"%string, PStr "500.00");
    ("Predicted_Revenue"%string, PStr "10000.00");
    ("Profit"%string, PStr "9500.00");
    ("Loss"%string, PStr "0.00");
    ("Best_Crops"%string,
       PList [ PDict [ ("Crop"%string, PStr "banana");
                       ("Yield"%string, PStr "780.00 Kg/ha");
                       ("Profit"%string, PStr "7544.00") ];
               PDict [ ("Crop"%string, PStr "mango");
                       ("Yield"%string, PStr "760.00 Kg/ha");
                       ("Profit"%string, PStr "7344.00") ] ]);
    ("chart_image"%string, PStr "data:image/png;base64,iVBORw0KGgo=")
  ].

(** The layout of the report of that payload. *)
Lemma report_layout_witness :
  ∃ ops,
    Report.download_report sample_decode_image sample_payload = Report.SendFile ops ∧
    ∃ items,
      Report.py_iter (dict_get sample_payload "Best_Crops") = Report.Done items ∧
      Report.text_ordinates ops =
        ([760; 720; 700; 680; 660; 640; 620; 590] ++
         ((λ i : nat, 565 - 20 * Z.of_nat i) <$> seq 0 (length items)))%Z ∧
      Forall (λ x, x = 50%Z) (Report.text_abscissas ops) ∧
      Report.image_frames ops =
        (if decide (is_Some (sample_payload !! "chart_image"))
         then [(50, 315 - 20 * Z.of_nat (length items), 500, 220)%Z] else []) ∧
      Forall (λ y, ((315 - 20 * Z.of_nat (length items)) + 220 < y)%Z)
             (Report.text_ordinates ops) ∧
      (0 <= 315 - 20 * Z.of_nat (length items) ↔ Z.of_nat (length items) <= 15)%Z.
Proof.
  eexists. split; [vm_compute; reflexivity|].
  apply (ReportFacts.report_layout sample_decode_image sample_payload).
  vm_compute; reflexivity.
Defined.

(** The report of the response to the benign request. *)
Lemma prediction_report_fits_witness :
  ∃ r,
    sample_api sample_request = Json200 r ∧
    (Z.of_nat (length (Response.Best_Crops r)) <= 3)%Z ∧
    (∃ ops,
       Report.download_report sample_decode_image (response_json sample_fmt2 r)
         = Report.SendFile ops ∧
       Z.of_nat (length (Report.text_ordinates ops))
         = (8 + Z.of_nat (length (Response.Best_Crops r)))%Z ∧
       Forall (λ y, (525 <= y)%Z) (Report.text_ordinates ops) ∧
       Report.image_frames ops = []).
Proof.
  eexists. split; [reflexivity|].
  pose proof (prediction_report_fits parse_decimal sample_crops sample_rf_crop
                sample_label_encoder sample_rf_yield sample_rf_expense
                sample_fmt2 sample_decode_image sample_request _ eq_refl) as H.
  cbv zeta in H. destruct H as (Hn & Hplain & _). split; [exact Hn | exact Hplain].
Defined.

(** A toy hashing: the hash of a password is the password itself. *)
Definition sample_generate_password_hash (password : option string) : option string :=
  password.
Definition sample_check_password_hash (pwhash : string) (password : option string)
  : option bool :=
  match password with
  | Some p => Some (String.eqb pwhash p)
  | None => None
  end.

Definition sample_user : Auth.user :=
  {| Auth.user_id := 1; Auth.username := "asha";
     Auth.email := "asha@farm.example"; Auth.password := "s3cret" |}.

Definition sample_state : Auth.state :=
  {| Auth.users := [sample_user]; Auth.session := ∅ |}.

Definition sample_register_request : Auth.request :=
  {| Auth.req_method := Auth.POST;
     Auth.form := list_to_map [ ("username"%string, "ravi"%string);
                                ("email"%string, "ravi@farm.example"%string);
                                ("password"%string, "paddy"%string) ] |}.

Definition sample_login_request : Auth.request :=
  {| Auth.req_method := Auth.POST;
     Auth.form := list_to_map [ ("email"%string, "ravi@farm.example"%string);
                                ("password"%string, "paddy"%string) ] |}.


(** Registering on a table of one row and logging in. *)
Lemma register_then_login_witness :
  let registered :=
    Auth.register sample_generate_password_hash sample_state sample_register_request in
  let logged_in :=
    Auth.login sample_check_password_hash registered.1 sample_login_request in
  ("ravi@farm.example"%string ∉ Auth.email <$> Auth.users sample_state) ∧
  Auth.body registered.2 = Auth.Redirect "login" ∧
  Auth.body logged_in.2 = Auth.Redirect "prediction" ∧
  Auth.session logged_in.1 !! "user_id" = Some (Auth.SInt 2) ∧
  Auth.session logged_in.1 !! "username" = Some (Auth.SStr "ravi") ∧
  Auth.prediction logged_in.1 = Auth.RenderTemplate "prediction.html".
Proof.
  assert (Hfresh : "ravi@farm.example"%string ∉ Auth.email <$> Auth.users sample_state).
  { cbn. intros H. apply list_elem_of_singleton in H. discriminate H. }
  pose proof (AuthFacts.register_then_login sample_generate_password_hash
                sample_check_password_hash sample_state "ravi" "ravi@farm.example"
                "paddy" "paddy" sample_register_request sample_login_request
                Hfresh eq_refl eq_refl eq_refl eq_refl eq_refl eq_refl
                eq_refl eq_refl eq_refl) as H.
  cbv zeta in H. destruct H as (H1 & _ & H3 & H4 & H5 & H6).
  cbv zeta. split_and!; assumption.
Defined.
